(** * Purple-Trader: the signal-decision and risk-sizing core

    A shallow embedding of [core/engine.py], [core/risk.py], [core/guards.py],
    [core/signals.py] and [core/backtester.py], and the properties of these
    modules that the specification states.

    Conventions.
    - Python [float] is IEEE binary64, modelled by Rocq's primitive [float];
      comparisons are [PrimFloat.ltb]/[PrimFloat.leb], so a NaN operand makes
      every comparison false, as in Python.
    - Python [int] is [Z].
    - A [dict] is a [gmap]; the objects of the classes are records and their
      methods are computations in a state-and-exception monad: a method that
      raises keeps the mutations it made before raising.
    - Arithmetic on prices and balances is IEEE 754 arithmetic, as on the
      [numpy.float64] cells of a data frame: a division by zero yields an
      infinity or a NaN and does not raise.
    - Log messages written through [logging] are not part of the state, except
      the audit log of [core/signals.py]. *)

From Stdlib Require Import ZArith Floats Lia Bool Ascii String.
From stdpp Require Import base option list gmap strings pretty sorting.

Set Warnings "-inexact-float".
Local Open Scope Z_scope.

(** [x > y] and [x >= y] on floats are [y < x] and [y <= x]. *)
Notation "x >? y" := (PrimFloat.ltb y x) (only parsing) : float_scope.
Notation "x >=? y" := (PrimFloat.leb y x) (only parsing) : float_scope.

(** ** Python values, exceptions and the method monad *)

Module Py.

(** The exceptions the modelled code can raise. A [ValueError] carries the
    constant part of its message (interpolated values are left out). *)
Inductive exn : Type :=
| ValueError (msg : string)
| KeyError (key : string)
| IndexError
| TypeError
| OverflowError.

Inductive result (A : Type) : Type :=
| Ok (a : A)
| Raise (e : exn).
Arguments Ok {A} a.
Arguments Raise {A} e.

#[global] Instance result_ret : MRet result := fun A a => Ok a.
#[global] Instance result_bind : MBind result := fun A B f r =>
  match r with
  | Ok a => f a
  | Raise e => Raise e
  end.

(** A method of an object of class [S]: it reads and writes the object and
    either returns or raises. *)
Definition M (S A : Type) : Type := S -> result A * S.

#[global] Instance M_ret {S} : MRet (M S) := fun A a s => (Ok a, s).
#[global] Instance M_bind {S} : MBind (M S) := fun A B f m s =>
  match m s with
  | (Ok a, s') => f a s'
  | (Raise e, s') => (Raise e, s')
  end.

Definition get {S} : M S S := fun s => (Ok s, s).
Definition put {S} (s : S) : M S unit := fun _ => (Ok tt, s).
Definition raise {S A} (e : exn) : M S A := fun s => (Raise e, s).
Definition lift {S A} (r : result A) : M S A := fun s => (r, s).

(** The values a dynamically typed slot holds in the modelled code. *)
Inductive pyval : Type :=
| PStr (s : string)
| PInt (z : Z)
| PFloat (f : float).

(** [xs[i]] for a non-negative [i], and [xs.iloc[-k]] for [k >= 1]. *)
Definition index {A} (xs : list A) (i : nat) : result A :=
  match xs !! i with
  | Some x => Ok x
  | None => Raise IndexError
  end.

Definition iloc_neg {A} (xs : list A) (k : nat) : result A :=
  if (Nat.leb 1 k && Nat.leb k (length xs))%bool
  then index xs (length xs - k)%nat
  else Raise IndexError.

(** [for i in xs: body(i)] *)
Fixpoint for_each {S A} (xs : list A) (body : A -> M S unit) : M S unit :=
  match xs with
  | [] => mret tt
  | x :: rest => body x;; for_each rest body
  end.

(** [float(n)] of an [int]: the nearest binary64, ties to even; an [int] too
    large for a finite float raises. *)
Definition float_of_int (z : Z) : result float :=
  let f := SF2Prim (binary_normalize prec emax z 0 false) in
  if PrimFloat.is_infinity f then Raise OverflowError else Ok f.

(** A list length as a [float]; lengths are far below 2^53, so the conversion
    is exact. *)
Definition float_of_nat (n : nat) : float :=
  SF2Prim (binary_normalize prec emax (Z.of_nat n) 0 false).

(** [int(x)] of a [float]: truncation toward zero. *)
Definition int_of_float (f : float) : result Z :=
  match Prim2SF f with
  | S754_zero _ => Ok 0
  | S754_nan => Raise (ValueError "cannot convert float NaN to integer")
  | S754_infinity _ => Raise OverflowError
  | S754_finite s m e =>
      let a := if 0 <=? e then Z.shiftl (Z.pos m) e else Z.shiftr (Z.pos m) (- e) in
      Ok (if s then - a else a)
  end.

End Py.
Import Py.

(** ** core/risk.py *)

Module Risk.

(** class RiskLevel *)
Record RiskLevel : Type := mkRiskLevel {
  level : Z;
  max_position_pct : float;
  max_daily_loss_pct : float;
  description : string
}.

(** class RiskEngine *)
Record RiskEngine : Type := mkRiskEngine {
  current_level : Z;
  levels : gmap Z RiskLevel
}.

Definition _define_risk_levels : gmap Z RiskLevel :=
  list_to_map [
    (1, mkRiskLevel 1 0.01 0.005 "Extreme Caution");
    (2, mkRiskLevel 2 0.02 0.010 "Very Conservative");
    (3, mkRiskLevel 3 0.03 0.015 "Conservative");
    (4, mkRiskLevel 4 0.05 0.020 "Moderate-Low");
    (5, mkRiskLevel 5 0.07 0.025 "Moderate");
    (6, mkRiskLevel 6 0.10 0.030 "Moderate-High");
    (7, mkRiskLevel 7 0.12 0.035 "Growth");
    (8, mkRiskLevel 8 0.15 0.040 "Aggressive");
    (9, mkRiskLevel 9 0.18 0.045 "Very Aggressive");
    (10, mkRiskLevel 10 0.20 0.050 "Max Risk")
  ].

(** [RiskEngine(initial_level)]: the argument is stored as it is. *)
Definition __init__ (initial_level : Z) : RiskEngine :=
  {| current_level := initial_level; levels := _define_risk_levels |}.

(** The engines of the program: the table is the fixed one. The constructor
    builds such an engine and no method changes the table. *)
Definition constructed (e : RiskEngine) : Prop :=
  levels e = _define_risk_levels.

(** The state invariant of the specification. *)
Definition in_range (e : RiskEngine) : Prop :=
  1 <= current_level e <= 10.

Definition set_risk_level (level : Z) : M RiskEngine unit :=
  self ← get;
  match levels self !! level with
  | None => raise (ValueError "Invalid risk level")
  | Some _ => put {| current_level := level; levels := levels self |}
  end.

(** [self.levels[self.current_level]] *)
Definition get_current_params : M RiskEngine RiskLevel :=
  self ← get;
  match levels self !! current_level self with
  | Some params => mret params
  | None => raise (KeyError "current_level")
  end.

Definition calculate_position_size (account_balance : float) : M RiskEngine float :=
  params ← get_current_params;
  mret (account_balance * max_position_pct params)%float.

Definition check_daily_loss (current_daily_loss account_balance : float)
  : M RiskEngine bool :=
  params ← get_current_params;
  let max_loss := (account_balance * max_daily_loss_pct params)%float in
  if (current_daily_loss >=? max_loss)%float then mret true else mret false.

Definition dynamic_adjustment (drawdown_pct : float) : M RiskEngine unit :=
  self ← get;
  if (drawdown_pct >? 0.05)%float then
    let new_level := Z.max 1 (current_level self - 1) in
    if negb (new_level =? current_level self)
    then set_risk_level new_level
    else mret tt
  else if ((drawdown_pct <? 0.01)%float && (current_level self <? 10))%bool then
    mret tt
  else mret tt.

End Risk.

(** ** core/guards.py *)

Module Guards.

(** [s.split(sep)] for a one-character separator: the pieces between the
    occurrences of [sep], in order; a string with [n] separators has [n + 1]
    pieces, some possibly empty. *)
Fixpoint split (sep : ascii) (s : string) : list string :=
  match s with
  | EmptyString => [EmptyString]
  | String c rest =>
      if Ascii.eqb c sep then EmptyString :: split sep rest
      else match split sep rest with
           | piece :: pieces => String c piece :: pieces
           | [] => [String c EmptyString]
           end
  end.

(** [a, b = xs]: unpacking into exactly two names. *)
Definition unpack2 {A} (xs : list A) : result (A * A) :=
  match xs with
  | [a; b] => Ok (a, b)
  | [] | [_] => Raise (ValueError "not enough values to unpack")
  | _ => Raise (ValueError "too many values to unpack")
  end.

(** The base asset of a ['BASE/QUOTE'] symbol, and the symbols that unpack
    into a base and a quote. *)
Definition base_of (symbol : string) : string :=
  default EmptyString (head (split "/" symbol)).

Definition well_formed (symbol : string) : Prop :=
  length (split "/" symbol) = 2%nat.

(** The number of open positions on a base asset. *)
Definition open_count (base : string) (open_positions : list string) : Z :=
  Z.of_nat (length (filter (fun s => base_of s = base) open_positions)).

(** class CorrelationGuard *)
Record CorrelationGuard : Type := mkCorrelationGuard {
  max_trades_per_asset : Z;
  active_positions : gmap string Z
}.

Definition __init__ (max_trades_per_asset : Z) : CorrelationGuard :=
  {| max_trades_per_asset := max_trades_per_asset; active_positions := ∅ |}.

Definition set_active_positions (d : gmap string Z) : M CorrelationGuard unit :=
  self ← get;
  put {| max_trades_per_asset := max_trades_per_asset self; active_positions := d |}.

(** The body of the [for symbol in open_positions] loop, then the rest of the
    loop. *)
Fixpoint count_positions (open_positions : list string) : M CorrelationGuard unit :=
  match open_positions with
  | [] => mret tt
  | symbol :: rest =>
      '(base, quote) ← lift (unpack2 (split "/" symbol));
      self ← get;
      set_active_positions
        (<[base := default 0 (active_positions self !! base) + 1]> (active_positions self));;
      count_positions rest
  end.

Definition update_positions (open_positions : list string) : M CorrelationGuard unit :=
  set_active_positions ∅;;
  count_positions open_positions.

Definition check (symbol : string) : M CorrelationGuard bool :=
  '(base, quote) ← lift (unpack2 (split "/" symbol));
  self ← get;
  let current_count := default 0 (active_positions self !! base) in
  if max_trades_per_asset self <=? current_count then mret false else mret true.

End Guards.

(** ** core/signals.py *)

(** The parsers behind [float(str)] and [int(str)] belong to the Python
    runtime; the packager is modelled over any such pair. *)
Class PyBuiltins : Type := {
  float_of_str : string -> result float;
  int_of_str : string -> result Z
}.

Module Signals.

Record Meta : Type := mkMeta {
  timestamp : string;
  version : string;
  source : string
}.

Record RiskTag : Type := mkRiskTag {
  level : Z;
  slevel : Z
}.

Record TradeBody : Type := mkTradeBody {
  symbol : pyval;
  side : pyval;
  entry : float;
  sl : float;
  tp : float;
  size : float;
  risk : RiskTag
}.

Record Context : Type := mkContext {
  strategy : pyval;
  sentiment : pyval
}.

(** The packet dictionary: its keys are fixed by the constructor. *)
Record TradePacket : Type := mkTradePacket {
  meta : Meta;
  trade : TradeBody;
  context : Context
}.

Definition REQUIRED_FIELDS : list string :=
  ["symbol"; "side"; "entry_price"; "sl"; "tp"; "size"; "level"; "slevel"].

(** [data[key]] *)
Definition getitem (data : gmap string pyval) (key : string) : result pyval :=
  match data !! key with
  | Some v => Ok v
  | None => Raise (KeyError key)
  end.

(** [c in s] for a character [c]. *)
Fixpoint contains (c : ascii) (s : string) : bool :=
  match s with
  | EmptyString => false
  | String d rest => Ascii.eqb d c || contains c rest
  end.

(** [isinstance(v, str) and '/' in v] *)
Definition is_symbol (v : pyval) : bool :=
  match v with
  | PStr s => contains "/" s
  | _ => false
  end.

(** [v in ['BUY', 'SELL']]: only a [str] equals a [str]. *)
Definition is_side (v : pyval) : bool :=
  match v with
  | PStr s => String.eqb s "BUY" || String.eqb s "SELL"
  | _ => false
  end.

(** [v <= 0]: a [str] does not compare with an [int]. *)
Definition le_zero (v : pyval) : result bool :=
  match v with
  | PInt z => Ok (z <=? 0)
  | PFloat f => Ok (f <=? 0)%float
  | PStr _ => Raise TypeError
  end.

(** [c1 or c2 or ...], left to right, stopping at the first true operand. *)
Fixpoint any_of (conds : list (result bool)) : result bool :=
  match conds with
  | [] => Ok false
  | c :: rest => b ← c; if b : bool then Ok true else any_of rest
  end.

(** The literal trade of the specification. *)
Definition sample_trade : gmap string pyval :=
  list_to_map [
    ("symbol", PStr "BTC/USDT"); ("side", PStr "BUY");
    ("entry_price", PFloat 50000); ("sl", PFloat 49000); ("tp", PFloat 53000);
    ("size", PFloat 0.01); ("level", PInt 5); ("slevel", PInt 0) ].

(** A field that is a number when it is present. *)
Definition numeric_field (data : gmap string pyval) (field : string) : Prop :=
  match data !! field with
  | Some (PStr _) => False
  | _ => True
  end.

Section Packager.
Context `{PyBuiltins}.

(** [float(v)] and [int(v)] *)
Definition py_float (v : pyval) : result float :=
  match v with
  | PFloat f => Ok f
  | PInt z => float_of_int z
  | PStr s => float_of_str s
  end.

Definition py_int (v : pyval) : result Z :=
  match v with
  | PInt z => Ok z
  | PFloat f => int_of_float f
  | PStr s => int_of_str s
  end.

(** The state of the module is the audit log [core/logs/signals.log], one
    packet per line. [json.dumps] accepts every packet built here, so the
    fallback of [_log_packet] is never taken. *)
Definition _log_packet (packet : TradePacket) : M (list TradePacket) unit :=
  log ← get;
  put (log ++ [packet]).

(** [utcnow] is the reading of the clock, [datetime.utcnow().isoformat()]. *)
Definition package_trade (utcnow : string) (data : gmap string pyval)
  : M (list TradePacket) TradePacket :=
  let missing := filter (fun f => data !! f = None) REQUIRED_FIELDS in
  if negb (bool_decide (missing = [])) then
    raise (ValueError "Missing required fields for signal package")
  else
  v_symbol ← lift (getitem data "symbol");
  if negb (is_symbol v_symbol) then raise (ValueError "Invalid symbol format") else
  v_side ← lift (getitem data "side");
  if negb (is_side v_side) then raise (ValueError "Invalid side") else
  nonpositive ← lift (any_of [
    getitem data "entry_price" ≫= le_zero;
    getitem data "sl" ≫= le_zero;
    getitem data "tp" ≫= le_zero;
    getitem data "size" ≫= le_zero ]);
  if nonpositive : bool then
    raise (ValueError "Price, SL, TP, and Size must be positive.")
  else
  p_symbol ← lift (getitem data "symbol");
  p_side ← lift (getitem data "side");
  p_entry ← lift (getitem data "entry_price" ≫= py_float);
  p_sl ← lift (getitem data "sl" ≫= py_float);
  p_tp ← lift (getitem data "tp" ≫= py_float);
  p_size ← lift (getitem data "size" ≫= py_float);
  p_level ← lift (getitem data "level" ≫= py_int);
  p_slevel ← lift (getitem data "slevel" ≫= py_int);
  let packet := {|
    meta := {| timestamp := utcnow; version := "1.0"; source := "Oracle-AI-Hub" |};
    trade := {| symbol := p_symbol; side := p_side; entry := p_entry; sl := p_sl;
                tp := p_tp; size := p_size;
                risk := {| level := p_level; slevel := p_slevel |} |};
    context := {| strategy := default (PStr "N/A") (data !! "strategy_verdict");
                  sentiment := default (PStr "N/A") (data !! "agent_verdict") |}
  |} in
  _log_packet packet;;
  mret packet.

End Packager.

End Signals.

(** ** Candle series and data frames *)

(** A row of the candle table of [core/database.py]; the timestamp is the
    number of seconds since the epoch. *)
Record Candle : Type := mkCandle {
  timestamp : Z;
  open : float;
  high : float;
  low : float;
  close : float;
  volume : float
}.

(** A data frame as [get_candles_df] builds it, and the indicator columns that
    [pandas_ta] appended to it, by name. *)
Record DataFrame : Type := mkDataFrame {
  rows : list Candle;
  ta_columns : gmap string (list float)
}.

(** The indicator library [pandas_ta] is not part of the repository. Its
    functions are taken as they are documented: each maps the close prices to
    a series aligned with them (NaN while the window fills), once the input is
    at least as long as the longest window. *)
Class PandasTA : Type := {
  ema : nat -> list float -> list float;
  rsi : nat -> list float -> list float;
  macd_line : nat -> nat -> nat -> list float -> list float;
  macd_signal : nat -> nat -> nat -> list float -> list float;
  ema_aligned : forall n xs, (n <= length xs)%nat -> length (ema n xs) = length xs;
  rsi_aligned : forall n xs, (n <= length xs)%nat -> length (rsi n xs) = length xs;
  macd_line_aligned : forall f s g xs,
    (f `max` (s `max` g) <= length xs)%nat -> length (macd_line f s g xs) = length xs;
  macd_signal_aligned : forall f s g xs,
    (f `max` (s `max` g) <= length xs)%nat -> length (macd_signal f s g xs) = length xs
}.

Module Frame.

Definition of_candles (candles : list Candle) : DataFrame :=
  {| rows := candles; ta_columns := ∅ |}.

(** [len(df)] and [df.empty] *)
Definition len (df : DataFrame) : nat := length (rows df).
Definition empty (df : DataFrame) : bool := Nat.eqb (len df) 0.

Definition closes (df : DataFrame) : list float := map close (rows df).

Definition append (name : string) (col : list float) (df : DataFrame) : DataFrame :=
  {| rows := rows df; ta_columns := <[name := col]> (ta_columns df) |}.

(** [df[name]] for an indicator column *)
Definition column (df : DataFrame) (name : string) : result (list float) :=
  match ta_columns df !! name with
  | Some col => Ok col
  | None => Raise (KeyError name)
  end.

(** [df.iloc[i]]: the candle of row [i] with the cells of the indicator
    columns at [i], by column name; then [row[name]]. *)
Definition cells_at (df : DataFrame) (i : nat) (name : string) : option float :=
  col ← ta_columns df !! name; col !! i.

Definition iloc (df : DataFrame) (i : nat) : result (Candle * (string -> option float)) :=
  c ← index (rows df) i;
  Ok (c, cells_at df i).

Definition cell (row : Candle * (string -> option float)) (name : string) : result float :=
  match row.2 name with
  | Some x => Ok x
  | None => Raise (KeyError name)
  end.

Definition macd_suffix (fast slow signal : nat) : string :=
  "_" +:+ pretty fast +:+ "_" +:+ pretty slow +:+ "_" +:+ pretty signal.

Section Indicators.
Context `{PandasTA}.

(** [df.ta.ema(length=n, append=True)], [df.ta.rsi(...)] and
    [df.ta.macd(...)]: on too short a series nothing is appended. *)
Definition ta_ema (n : nat) (df : DataFrame) : DataFrame :=
  if Nat.leb n (len df)
  then append ("EMA_" +:+ pretty n) (ema n (closes df)) df
  else df.

Definition ta_rsi (n : nat) (df : DataFrame) : DataFrame :=
  if Nat.leb n (len df)
  then append ("RSI_" +:+ pretty n) (rsi n (closes df)) df
  else df.

Definition ta_macd (fast slow signal : nat) (df : DataFrame) : DataFrame :=
  if Nat.leb (fast `max` (slow `max` signal)) (len df) then
    let line := macd_line fast slow signal (closes df) in
    let sig := macd_signal fast slow signal (closes df) in
    let hist := zip_with PrimFloat.sub line sig in
    append ("MACDs" +:+ macd_suffix fast slow signal) sig
      (append ("MACDh" +:+ macd_suffix fast slow signal) hist
        (append ("MACD" +:+ macd_suffix fast slow signal) line df))
  else df.

End Indicators.

End Frame.

(** ** core/engine.py *)

Module Engine.

Inductive Verdict : Type := BULLISH | BEARISH | NEUTRAL | BUY | HOLD.

#[global] Instance Verdict_eq_dec : EqDecision Verdict.
Proof. solve_decision. Defined.

(** The verdicts are the strings of the source. *)
Definition name (v : Verdict) : string :=
  match v with
  | BULLISH => "BULLISH"
  | BEARISH => "BEARISH"
  | NEUTRAL => "NEUTRAL"
  | BUY => "BUY"
  | HOLD => "HOLD"
  end.

Section Tiers.
Context `{PandasTA}.

Definition calculate_trend (df : DataFrame) : result Verdict :=
  if Frame.empty df || Nat.ltb (Frame.len df) 200 then Ok NEUTRAL else
  let df := Frame.ta_ema 200 df in
  last_close ← iloc_neg (Frame.closes df) 1;
  last_ema200 ← Frame.column df "EMA_200" ≫= (fun col => iloc_neg col 1);
  if (last_close >? last_ema200)%float then Ok BULLISH
  else if (last_close <? last_ema200)%float then Ok BEARISH
  else Ok NEUTRAL.

Definition calculate_momentum (df : DataFrame) : result Verdict :=
  if Frame.empty df || Nat.ltb (Frame.len df) 14 then Ok NEUTRAL else
  let df := Frame.ta_rsi 14 df in
  last_rsi ← Frame.column df "RSI_14" ≫= (fun col => iloc_neg col 1);
  if (last_rsi >? 50)%float then Ok BULLISH
  else if (last_rsi <? 50)%float then Ok BEARISH
  else Ok NEUTRAL.

Definition calculate_trigger (df : DataFrame) : result Verdict :=
  if Frame.empty df || Nat.ltb (Frame.len df) 50 then Ok HOLD else
  let df := Frame.ta_macd 12 26 9 df in
  let df := Frame.ta_ema 50 df in
  macd ← Frame.column df "MACD_12_26_9";
  signal ← Frame.column df "MACDs_12_26_9";
  let close := Frame.closes df in
  ema50 ← Frame.column df "EMA_50";
  curr_macd ← iloc_neg macd 1;
  prev_macd ← iloc_neg macd 2;
  curr_signal ← iloc_neg signal 1;
  prev_signal ← iloc_neg signal 2;
  curr_close ← iloc_neg close 1;
  curr_ema50 ← iloc_neg ema50 1;
  let bullish_cross :=
    (prev_macd <=? prev_signal)%float && (curr_macd >? curr_signal)%float in
  if bullish_cross && (curr_close >? curr_ema50)%float then Ok BUY
  else Ok HOLD.

(** [get_candles_df] reads the candle table; the table is the argument
    [candles_of symbol interval]. *)
Definition check_signal (candles_of : string -> string -> list Candle)
    (symbol : string) : result (Verdict * string) :=
  trend ← calculate_trend (Frame.of_candles (candles_of symbol "1d"));
  if negb (bool_decide (trend = BULLISH)) then Ok (HOLD, "Trend is " +:+ name trend) else
  momentum ← calculate_momentum (Frame.of_candles (candles_of symbol "4h"));
  if negb (bool_decide (momentum = BULLISH)) then Ok (HOLD, "Momentum is " +:+ name momentum) else
  trigger ← calculate_trigger (Frame.of_candles (candles_of symbol "1h"));
  if bool_decide (trigger = BUY) then Ok (BUY, "All conditions met")
  else Ok (HOLD, "Waiting for trigger").

End Tiers.

End Engine.

(** ** core/backtester.py *)

Module Backtester.

(** The dictionary [self.position] *)
Record Position : Type := mkPosition {
  pos_entry_price : float;
  pos_size : float;
  pos_sl : float;
  pos_tp : float;
  pos_side : string;
  pos_entry_time : Z
}.

(** An entry of [self.trades] *)
Record Trade : Type := mkTrade {
  trade_symbol : string;
  trade_entry_time : Z;
  trade_exit_time : Z;
  trade_entry_price : float;
  trade_exit_price : float;
  trade_pnl : float;
  trade_reason : string
}.

(** An entry of [self.equity_curve] *)
Record EquityPoint : Type := mkEquityPoint {
  point_timestamp : Z;
  point_equity : float
}.

(** class Backtester *)
Record Backtester : Type := mkBacktester {
  symbol : string;
  balance : float;
  initial_balance : float;
  trades : list Trade;
  position : option Position;
  equity_curve : list EquityPoint
}.

(** The report is a dictionary; its keys differ between the two returns of
    [generate_report], and [run] returns the empty dictionary on no data. *)
Abbreviation Report := (gmap string pyval).

Definition __init__ (symbol : string) (start_balance : float) : Backtester :=
  {| symbol := symbol; balance := start_balance; initial_balance := start_balance;
     trades := []; position := None; equity_curve := [] |}.

Definition set_balance (b : float) : M Backtester unit :=
  self ← get;
  put {| symbol := symbol self; balance := b; initial_balance := initial_balance self;
         trades := trades self; position := position self;
         equity_curve := equity_curve self |}.

Definition set_position (p : option Position) : M Backtester unit :=
  self ← get;
  put {| symbol := symbol self; balance := balance self;
         initial_balance := initial_balance self;
         trades := trades self; position := p;
         equity_curve := equity_curve self |}.

Definition append_trade (t : Trade) : M Backtester unit :=
  self ← get;
  put {| symbol := symbol self; balance := balance self;
         initial_balance := initial_balance self;
         trades := trades self ++ [t]; position := position self;
         equity_curve := equity_curve self |}.

Definition append_equity (p : EquityPoint) : M Backtester unit :=
  self ← get;
  put {| symbol := symbol self; balance := balance self;
         initial_balance := initial_balance self;
         trades := trades self; position := position self;
         equity_curve := equity_curve self ++ [p] |}.

(** [pos = self.position] followed by [pos[...]]: subscripting [None] raises. *)
Definition the_position : M Backtester Position :=
  self ← get;
  match position self with
  | Some pos => mret pos
  | None => raise TypeError
  end.

Definition close_position (price : float) (timestamp : Z) (reason : string)
  : M Backtester unit :=
  pos ← the_position;
  let pnl := ((price - pos_entry_price pos) * pos_size pos)%float in
  self ← get;
  set_balance (balance self + pnl)%float;;
  self ← get;
  append_trade {|
    trade_symbol := symbol self;
    trade_entry_time := pos_entry_time pos;
    trade_exit_time := timestamp;
    trade_entry_price := pos_entry_price pos;
    trade_exit_price := price;
    trade_pnl := pnl;
    trade_reason := reason |};;
  set_position None.

Definition check_exit (candle : Candle) : M Backtester unit :=
  pos ← the_position;
  if (low candle <=? pos_sl pos)%float then
    close_position (pos_sl pos) (timestamp candle) "SL"
  else if (high candle >=? pos_tp pos)%float then
    close_position (pos_tp pos) (timestamp candle) "TP"
  else mret tt.

(** The size [open_position] computes before it decides to open. *)
Definition position_size (balance price : float) : float :=
  let sl := (price * 0.98)%float in
  let dist := (price - sl)%float in
  let size := if (dist >? 0)%float then ((balance * 0.02) / dist)%float else 0%float in
  let cost := (size * price)%float in
  if (cost >? balance)%float then (balance / price)%float else size.

Definition open_position (candle : Candle) : M Backtester unit :=
  let price := close candle in
  let sl := (price * 0.98)%float in
  let tp := (price * 1.06)%float in
  self ← get;
  let size := position_size (balance self) price in
  if (size <=? 0)%float then mret tt else
  set_position (Some {|
    pos_entry_price := price;
    pos_size := size;
    pos_sl := sl;
    pos_tp := tp;
    pos_side := "BUY";
    pos_entry_time := timestamp candle |}).

(** [if self.position: ...] and [if not self.position: ...] *)
Definition has_position : M Backtester bool :=
  self ← get;
  mret (bool_decide (is_Some (position self))).

(** The entry branch of the loop body at row [i]. *)
Definition check_entry (df : DataFrame) (i : nat)
    (current_candle : Candle * (string -> option float)) : M Backtester unit :=
  prev_candle ← lift (Frame.iloc df (i - 1));
  macd ← lift (Frame.cell current_candle "MACD_12_26_9");
  signal ← lift (Frame.cell current_candle "MACDs_12_26_9");
  prev_macd ← lift (Frame.cell prev_candle "MACD_12_26_9");
  prev_signal ← lift (Frame.cell prev_candle "MACDs_12_26_9");
  let close := close current_candle.1 in
  ema50 ← lift (Frame.cell current_candle "EMA_50");
  let bullish_cross := (prev_macd <=? prev_signal)%float && (macd >? signal)%float in
  let trend_filter := (close >? ema50)%float in
  if bullish_cross && trend_filter then open_position current_candle.1 else mret tt.

(** The body of [for i in range(50, len(df_1h))]. *)
Definition step (df : DataFrame) (i : nat) : M Backtester unit :=
  current_candle ← lift (Frame.iloc df i);
  let timestamp := timestamp current_candle.1 in
  held ← has_position;
  (if held : bool then check_exit current_candle.1 else mret tt);;
  held ← has_position;
  (if negb held then check_entry df i current_candle else mret tt);;
  self ← get;
  append_equity {| point_timestamp := timestamp; point_equity := balance self |}.

(** [wins / total_trades] divides two [int]s; both are list lengths, which
    convert to [float] without rounding. *)
Definition float_of_len {A} (xs : list A) : float :=
  float_of_nat (length xs).

(** The loop over the equity curve: the running peak and the largest drop
    from it, in percent. *)
Fixpoint drawdown_loop (curve : list EquityPoint) (peak max_drawdown : float) : float :=
  match curve with
  | [] => max_drawdown
  | point :: rest =>
      let equity := point_equity point in
      let peak := if (equity >? peak)%float then equity else peak in
      let dd := ((peak - equity) / peak * 100)%float in
      drawdown_loop rest peak (if (dd >? max_drawdown)%float then dd else max_drawdown)
  end.

Definition generate_report : M Backtester Report :=
  self ← get;
  let total_trades := length (trades self) in
  if Nat.eqb total_trades 0 then
    mret (<["roi" := PFloat 0]> (<["win_rate" := PFloat 0]>
           (<["drawdown" := PFloat 0]> (<["trades" := PInt 0]> ∅))))
  else
  let wins := filter (fun t => (trade_pnl t >? 0)%float = true) (trades self) in
  let win_rate := (float_of_len wins / float_of_len (trades self) * 100)%float in
  let total_pnl := (balance self - initial_balance self)%float in
  let roi := (total_pnl / initial_balance self * 100)%float in
  let max_drawdown := drawdown_loop (equity_curve self) (initial_balance self) 0 in
  mret (<["roi" := PFloat roi]> (<["win_rate" := PFloat win_rate]>
         (<["drawdown" := PFloat max_drawdown]>
           (<["trades" := PInt (Z.of_nat total_trades)]>
             (<["final_balance" := PFloat (balance self)]> ∅))))).

(** *** The states the methods lead to

    These are not functions of the source: they name the backtester after a
    method has run, for the statements about [check_exit] and [step]. *)

(** The trade [close_position] records, and the backtester it leaves. *)
Definition closed_trade (self : Backtester) (pos : Position)
    (price : float) (timestamp : Z) (reason : string) : Trade :=
  {| trade_symbol := symbol self;
     trade_entry_time := pos_entry_time pos;
     trade_exit_time := timestamp;
     trade_entry_price := pos_entry_price pos;
     trade_exit_price := price;
     trade_pnl := ((price - pos_entry_price pos) * pos_size pos)%float;
     trade_reason := reason |}.

Definition closed (self : Backtester) (pos : Position)
    (price : float) (timestamp : Z) (reason : string) : Backtester :=
  {| symbol := symbol self;
     balance := (balance self + (price - pos_entry_price pos) * pos_size pos)%float;
     initial_balance := initial_balance self;
     trades := trades self ++ [closed_trade self pos price timestamp reason];
     position := None;
     equity_curve := equity_curve self |}.

(** The position [open_position] creates on a candle, for a given size. *)
Definition opened_position (candle : Candle) (size : float) : Position :=
  {| pos_entry_price := close candle;
     pos_size := size;
     pos_sl := (close candle * 0.98)%float;
     pos_tp := (close candle * 1.06)%float;
     pos_side := "BUY";
     pos_entry_time := timestamp candle |}.

Definition with_position (self : Backtester) (p : option Position) : Backtester :=
  {| symbol := symbol self; balance := balance self;
     initial_balance := initial_balance self; trades := trades self;
     position := p; equity_curve := equity_curve self |}.

Definition with_equity_point (self : Backtester) (timestamp : Z) : Backtester :=
  {| symbol := symbol self; balance := balance self;
     initial_balance := initial_balance self; trades := trades self;
     position := position self;
     equity_curve := equity_curve self
                     ++ [{| point_timestamp := timestamp; point_equity := balance self |}] |}.

(** Which exit a candle triggers on a position: the exit price and reason. *)
Definition exit_decision (pos : Position) (candle : Candle) : option (float * string) :=
  if (low candle <=? pos_sl pos)%float then Some (pos_sl pos, "SL")
  else if (high candle >=? pos_tp pos)%float then Some (pos_tp pos, "TP")
  else None.

(** The loop body after the exit check: the entry branch and the equity
    point. *)
Definition after_exit (df : DataFrame) (i : nat)
    (current_candle : Candle * (string -> option float)) : M Backtester unit :=
  held ← has_position;
  (if negb held then check_entry df i current_candle else mret tt);;
  self ← get;
  append_equity {| point_timestamp := timestamp current_candle.1;
                   point_equity := balance self |}.

(** The entry rule on the cells of the current and the previous row. *)
Definition entry_signal (prev_macd prev_signal macd signal close ema50 : float) : bool :=
  (prev_macd <=? prev_signal)%float && (macd >? signal)%float && (close >? ema50)%float.

(** [report.get(key)] on what [run] returned. *)
Definition report_get (outcome : result Report) (key : string) : result (option pyval) :=
  report ← outcome; Ok (report !! key).

Section Run.
Context `{PandasTA}.

(** [history] is what [get_candles_df(self.symbol, '1h', limit=1000)]
    returns. The columns of a data frame are floats already. *)
Definition run (history : list Candle) : M Backtester Report :=
  let df_1h := Frame.of_candles history in
  if Frame.empty df_1h then mret ∅ else
  let df_1h := Frame.ta_macd 12 26 9 df_1h in
  let df_1h := Frame.ta_ema 50 df_1h in
  for_each (seq 50 (Frame.len df_1h - 50)) (step df_1h);;
  generate_report.

End Run.

End Backtester.

(** ** A small indicator library

    An instance of [PandasTA], used to run the model on concrete series. It
    computes recursive exponential averages seeded with the first value; it is
    not [pandas_ta], and the theorems below hold for every instance. *)

Module SampleTA.

(** The running average [a * x + (1 - a) * prev] along a series. *)
Fixpoint smooth (a prev : float) (xs : list float) : list float :=
  match xs with
  | [] => []
  | x :: rest =>
      let e := (a * x + (1 - a) * prev)%float in
      e :: smooth a e rest
  end.

Definition average (a : float) (xs : list float) : list float :=
  match xs with
  | [] => []
  | x :: rest => x :: smooth a x rest
  end.

(** The first [k] values are undefined while the window fills. *)
Fixpoint mask (k : nat) (xs : list float) : list float :=
  match k, xs with
  | S k', _ :: rest => PrimFloat.nan :: mask k' rest
  | _, _ => xs
  end.

Definition span (n : nat) : float := (2 / (float_of_nat n + 1))%float.

Definition ema (n : nat) (xs : list float) : list float :=
  mask (n - 1) (average (span n) xs).

Definition macd_line (fast slow signal : nat) (xs : list float) : list float :=
  zip_with PrimFloat.sub (average (span fast) xs) (average (span slow) xs).

Definition macd_signal (fast slow signal : nat) (xs : list float) : list float :=
  average (span signal) (macd_line fast slow signal xs).

(** Relative strength from the smoothed gains and losses of the changes. *)
Definition strength (gain loss : float) : float :=
  (100 - 100 / (1 + gain / loss))%float.

Definition rsi (n : nat) (xs : list float) : list float :=
  let changes := zip_with PrimFloat.sub (tail xs) xs in
  let gains := map (fun d => if (d >? 0)%float then d else 0%float) changes in
  let losses := map (fun d => if (d <? 0)%float then (- d)%float else 0%float) changes in
  let a := (1 / float_of_nat n)%float in
  match xs with
  | [] => []
  | _ :: _ => mask n (PrimFloat.nan :: zip_with strength (average a gains) (average a losses))
  end.

End SampleTA.

(** ** Sample inputs *)

Module Samples.

(** An hourly candle that opens, peaks, bottoms and closes at one price. *)
Definition bar (hour : nat) (price : float) : Candle :=
  mkCandle (Z.of_nat hour * 3600) price price price price 1.

(** 59 hourly closes falling from 160 to 102, and the same followed by a
    jump to 300. *)
Definition falling : list Candle :=
  map (fun k => bar k (float_of_nat (160 - k))) (seq 0 59).

Definition rebound : list Candle := falling ++ [bar 59 300].

(** A frame of 53 hourly rows whose indicator columns are set by hand, as the
    comments of [Backtester.run] describe: closes at 100 above an EMA(50) of
    90, a bullish cross at row 50, none at row 51, and a bullish cross again
    at row 52, whose candle has collapsed to a price of 0 (above an EMA(50)
    cell of -1). *)
Definition candle_at (hour : nat) (low high close : float) : Candle :=
  mkCandle (Z.of_nat hour * 3600) close high low close 1.

Definition collapse_frame : DataFrame :=
  {| rows := map (fun k => bar k 100) (seq 0 51)
             ++ [candle_at 51 99 101 100; candle_at 52 0 0 0];
     ta_columns :=
       <["MACD_12_26_9" := replicate 50 0.9%float ++ [1.1; 0.9; 1.1]%float]>
       (<["MACDs_12_26_9" := replicate 53 1%float]>
       (<["EMA_50" := replicate 52 90%float ++ [(-1)%float]]> ∅)) |}.

(** The same rows with the last candle falling to 97 and closing at 99, still
    above an EMA(50) cell of 90. *)
Definition dip_frame : DataFrame :=
  {| rows := map (fun k => bar k 100) (seq 0 51)
             ++ [candle_at 51 99 101 100; candle_at 52 97 100 99];
     ta_columns :=
       <["MACD_12_26_9" := replicate 50 0.9%float ++ [1.1; 0.9; 1.1]%float]>
       (<["MACDs_12_26_9" := replicate 53 1%float]>
       (<["EMA_50" := replicate 53 90%float]> ∅)) |}.

(** The backtester after rows 50 and 51 of either frame, started from a
    balance of 100: it holds the position opened at row 50. *)
Definition holding : Backtester.Backtester :=
  {| Backtester.symbol := "BTC/USDT";
     Backtester.balance := 100;
     Backtester.initial_balance := 100;
     Backtester.trades := [];
     Backtester.position := Some (Backtester.opened_position (bar 50 100) 1);
     Backtester.equity_curve :=
       [ {| Backtester.point_timestamp := 180000; Backtester.point_equity := 100 |};
         {| Backtester.point_timestamp := 183600; Backtester.point_equity := 100 |} ] |}.

(** Parsers that read unsigned decimal numerals only. *)
Fixpoint digits (s : string) (acc : Z) : result Z :=
  match s with
  | EmptyString => Ok acc
  | String c rest =>
      let d := Z.of_nat (nat_of_ascii c) - 48 in
      if (0 <=? d) && (d <=? 9) then digits rest (10 * acc + d)
      else Raise (ValueError "invalid literal")
  end.

Definition numeral (s : string) : result Z :=
  match s with
  | EmptyString => Raise (ValueError "invalid literal")
  | _ => digits s 0
  end.

End Samples.

#[local] Instance sample_builtins : PyBuiltins := {|
  float_of_str s := z ← Samples.numeral s; float_of_int z;
  int_of_str := Samples.numeral
|}.

(** ** core/guards.py, the liquidity guard *)

(** The built-in [sum] on a list of floats. It adds the terms to 0 from left to
    right; CPython 3.12 and later also carry a correction for the rounding
    error of the additions, so the last bits of the result depend on the
    interpreter. Nothing is assumed about it. *)
Class PySum : Type := {
  float_sum : list float -> float
}.

Module Liquidity.

(** What the body of a [try] block can raise besides the exceptions of
    [Py.exn]: a division of Python floats by zero, and whatever a call to the
    exchange raises. *)
Inductive raised : Type :=
| Builtin (e : exn)
| ZeroDivisionError
| External (what : string).

Inductive attempt (A : Type) : Type :=
| Done (a : A)
| Failed (r : raised).
Arguments Done {A} a.
Arguments Failed {A} r.

#[global] Instance attempt_ret : MRet attempt := fun A a => Done a.
#[global] Instance attempt_bind : MBind attempt := fun A B f r =>
  match r with
  | Done a => f a
  | Failed e => Failed e
  end.

Definition of_result {A} (r : result A) : attempt A :=
  match r with
  | Ok a => Done a
  | Raise e => Failed (Builtin e)
  end.

(** [a / b] on Python floats: a zero divisor raises. *)
Definition truediv (a b : float) : attempt float :=
  if (b =? 0)%float then Failed ZeroDivisionError else Done (a / b)%float.

(** [xs[i]] and [d[key]] *)
Definition item {A} (xs : list A) (i : nat) : attempt A := of_result (index xs i).

Definition getkey {A} (d : gmap string A) (key : string) : attempt A :=
  match d !! key with
  | Some v => Done v
  | None => Failed (Builtin (KeyError key))
  end.

(** The order book of [ccxt]: under 'bids' and 'asks', the levels
    [[price, amount]], best first; [ccxt] gives the numbers as floats. *)
Abbreviation OrderBook := (gmap string (list (list float))).

(** class LiquidityGuard; [self.exchange] is used through
    [fetch_order_book] only, a call that returns a book or raises. *)
Record LiquidityGuard : Type := mkLiquidityGuard {
  fetch_order_book : string -> attempt OrderBook;
  max_spread_pct : float;
  min_depth_usdt : float
}.

(** [__init__(exchange, max_spread_pct=0.005, min_depth_usdt=1000.0)] *)
Definition __init__ (fetch : string -> attempt OrderBook)
    (max_spread_pct min_depth_usdt : option float) : LiquidityGuard :=
  {| fetch_order_book := fetch;
     max_spread_pct := default 0.005%float max_spread_pct;
     min_depth_usdt := default 1000%float min_depth_usdt |}.

(** [[bid[0] * bid[1] for bid in levels]] *)
Definition notional (bid : list float) : attempt float :=
  price ← item bid 0;
  amount ← item bid 1;
  Done (price * amount)%float.

Fixpoint notionals (levels : list (list float)) : attempt (list float) :=
  match levels with
  | [] => Done []
  | bid :: rest =>
      x ← notional bid;
      xs ← notionals rest;
      Done (x :: xs)
  end.

Section Check.
Context `{PySum}.

(** The body of the [try] block of [check]. *)
Definition check_body (self : LiquidityGuard) (symbol : string) : attempt bool :=
  order_book ← fetch_order_book self symbol;
  bids ← getkey order_book "bids";
  if bool_decide (bids = []) then Done false else
  asks ← getkey order_book "asks";
  if bool_decide (asks = []) then Done false else
  best_bid ← item bids 0 ≫= (fun level => item level 0);
  best_ask ← item asks 0 ≫= (fun level => item level 0);
  spread ← truediv (best_ask - best_bid) best_bid;
  if (spread >? max_spread_pct self)%float then Done false else
  terms ← notionals (take 5 bids);
  let bid_depth := float_sum terms in
  if (bid_depth <? min_depth_usdt self)%float then Done false else
  Done true.

(** [check]: every exception of the body is caught, logged and answered
    with [False]. *)
Definition check (self : LiquidityGuard) (symbol : string) : bool :=
  match check_body self symbol with
  | Done allowed => allowed
  | Failed _ => false
  end.

End Check.

End Liquidity.

(** Summation by additions from 0, left to right. *)
#[local] Instance sample_sum : PySum := {|
  float_sum xs := fold_left PrimFloat.add xs 0%float
|}.

(** ** core/engine.py, reading the candle table *)

Module Candles.

(** A row of the table [candles] of [core/database.py]. The table carries the
    constraint [uq_candle]: no two rows share symbol, interval and
    timestamp. *)
Record CandleRow : Type := mkCandleRow {
  row_symbol : string;
  row_interval : string;
  row_candle : Candle
}.

Definition row_key (r : CandleRow) : string * string * Z :=
  (row_symbol r, row_interval r, timestamp (row_candle r)).

Definition uq_candle (table : list CandleRow) : Prop :=
  NoDup (row_key <$> table).

(** [filter_by(symbol=symbol, interval=interval)] *)
Definition matches (symbol interval : string) (r : CandleRow) : Prop :=
  row_symbol r = symbol /\ row_interval r = interval.

#[global] Instance matches_dec symbol interval r : Decision (matches symbol interval r).
Proof. unfold matches. apply _. Defined.

(** [order_by(desc(Candle.timestamp))] and [sort_values('timestamp')]. Rows
    that the query can return together have distinct timestamps, so the order
    of the result does not depend on the sorting algorithm. *)
Definition newer_first (a b : CandleRow) : Prop :=
  timestamp (row_candle b) <= timestamp (row_candle a).

Definition older_first (a b : Candle) : Prop :=
  timestamp a <= timestamp b.

#[global] Instance newer_first_dec a b : Decision (newer_first a b).
Proof. unfold newer_first. apply _. Defined.

#[global] Instance older_first_dec a b : Decision (older_first a b).
Proof. unfold older_first. apply _. Defined.

(** [get_candles_df(symbol, interval, limit)] on the rows of the table *)
Definition get_candles_df (table : list CandleRow) (symbol interval : string)
    (limit : nat) : DataFrame :=
  let candles :=
    take limit (merge_sort newer_first (filter (matches symbol interval) table)) in
  match candles with
  | [] => Frame.of_candles []
  | _ :: _ => Frame.of_candles (merge_sort older_first (row_candle <$> candles))
  end.

Section Signal.
Context `{PandasTA}.

(** [check_signal(symbol)], which reads up to 500 candles per interval. *)
Definition check_signal (table : list CandleRow) (symbol : string)
  : result (Engine.Verdict * string) :=
  Engine.check_signal (fun s interval => rows (get_candles_df table s interval 500)) symbol.

End Signal.

End Candles.

(** ** core/backtester.py, one loop iteration as a function

    These definitions are not functions of the source: they give the state
    after the exit check, after the entry branch and after the whole loop
    body, and the shape of the positions and trades the loop produces. *)

Module Ledger.
Import Backtester.

(** The backtester after [if self.position: self.check_exit(candle)]. *)
Definition after_exit_check (bt : Backtester) (candle : Candle) : Backtester :=
  match position bt with
  | Some pos =>
      match exit_decision pos candle with
      | Some (price, reason) => closed bt pos price (timestamp candle) reason
      | None => bt
      end
  | None => bt
  end.

(** The backtester after the entry branch, given whether the entry rule
    holds on the cells of the current and the previous row. *)
Definition after_entry_check (bt : Backtester) (candle : Candle) (signal : bool)
  : Backtester :=
  match position bt with
  | Some _ => bt
  | None =>
      if signal then
        let size := position_size (balance bt) (close candle) in
        if (size <=? 0)%float then bt
        else with_position bt (Some (opened_position candle size))
      else bt
  end.

Definition after_step (bt : Backtester) (candle : Candle) (signal : bool) : Backtester :=
  with_equity_point
    (after_entry_check (after_exit_check bt candle) candle signal)
    (timestamp candle).

(** A position as [open_position] creates it: long, with the stop 2% below
    and the target 6% above the entry price, and a size that is not [<= 0]. *)
Definition position_sound (pos : Position) : Prop :=
  pos_side pos = "BUY" /\
  pos_sl pos = (pos_entry_price pos * 0.98)%float /\
  pos_tp pos = (pos_entry_price pos * 1.06)%float /\
  (pos_size pos <=? 0)%float = false.

(** A trade as [check_exit] records it on such a position. *)
Definition trade_sound (symbol : string) (t : Trade) : Prop :=
  trade_symbol t = symbol /\
  ((trade_reason t = "SL" /\
    trade_exit_price t = (trade_entry_price t * 0.98)%float) \/
   (trade_reason t = "TP" /\
    trade_exit_price t = (trade_entry_price t * 1.06)%float)).

Definition sound (bt : Backtester) : Prop :=
  (forall pos, position bt = Some pos -> position_sound pos) /\
  Forall (trade_sound (symbol bt)) (trades bt).

(** A row the loop can process: it and its predecessor are there, with their
    indicator cells. *)
Definition row_ready (df : DataFrame) (i : nat) : Prop :=
  exists (row prev : Candle * (string -> option float))
         (prev_macd prev_signal macd signal ema50 : float),
    Frame.iloc df i = Ok row /\
    Frame.iloc df (i - 1) = Ok prev /\
    Frame.cell row "MACD_12_26_9" = Ok macd /\
    Frame.cell row "MACDs_12_26_9" = Ok signal /\
    Frame.cell prev "MACD_12_26_9" = Ok prev_macd /\
    Frame.cell prev "MACDs_12_26_9" = Ok prev_signal /\
    Frame.cell row "EMA_50" = Ok ema50.

End Ledger.

(** ** agents/analyst.py *)

(** [str.lower] belongs to the Python runtime. *)
Class PyText : Type := {
  lower : string -> string
}.

Module Analyst.

(** [sep.join(parts)] *)
Fixpoint join (sep : string) (parts : list string) : string :=
  match parts with
  | [] => EmptyString
  | [part] => part
  | part :: rest => part +:+ sep +:+ join sep rest
  end.

(** [k in text]: [k] occurs in [text] as a substring. *)
Fixpoint occurs_in (k text : string) : bool :=
  String.prefix k text ||
  match text with
  | EmptyString => false
  | String _ rest => occurs_in k rest
  end.

(** The dictionary [analyze_sentiment] returns. *)
Record Sentiment : Type := mkSentiment {
  verdict : Engine.Verdict;
  score : float;
  reason : string
}.

Definition bullish_keywords : list string :=
  ["bullish"; "pump"; "surge"; "gain"; "breakout"; "accumulating"; "buy"].

Definition bearish_keywords : list string :=
  ["bearish"; "dump"; "drop"; "loss"; "crash"; "selling"; "sell"].

(** [sum(1 for k in keywords if k in full_text)] *)
Definition count_in (keywords : list string) (full_text : string) : nat :=
  length (filter (fun k => occurs_in k full_text = true) keywords).

(** The score of a verdict from the two counts; the counts are small, so
    their conversion to [float] is exact and [a / b] is the float quotient. *)
Definition bullish_score (bull_count bear_count : nat) : float :=
  (0.5 + float_of_nat bull_count / float_of_nat (bull_count + bear_count + 1) * 0.5)%float.

Definition bearish_score (bull_count bear_count : nat) : float :=
  (0.5 - float_of_nat bear_count / float_of_nat (bull_count + bear_count + 1) * 0.5)%float.

Section Sentiment.
Context `{PyText}.

(** [analyze_sentiment(symbol, snippets)]; [fetch_news] is the search
    request of the class, which returns the descriptions of the results it
    found, as strings, or the empty list when the request fails or no key is
    configured. *)
Definition analyze_sentiment (fetch_news : string -> list string)
    (symbol : string) (snippets : option (list string)) : Sentiment :=
  let snippets :=
    match snippets with
    | None => fetch_news symbol
    | Some given => given
    end in
  match snippets with
  | [] => {| verdict := Engine.NEUTRAL; score := 0.5;
             reason := "No recent news found for analysis." |}
  | _ :: _ =>
      let snippets_text := join (String "010" "---" +:+ String "010" "") snippets in
      let full_text := lower snippets_text in
      let bull_count := count_in bullish_keywords full_text in
      let bear_count := count_in bearish_keywords full_text in
      if Nat.ltb bear_count bull_count then
        {| verdict := Engine.BULLISH;
           score := bullish_score bull_count bear_count;
           reason := "Detected " +:+ pretty bull_count
                     +:+ " bullish signals in recent news." |}
      else if Nat.ltb bull_count bear_count then
        {| verdict := Engine.BEARISH;
           score := bearish_score bull_count bear_count;
           reason := "Detected " +:+ pretty bear_count
                     +:+ " bearish signals in recent news." |}
      else
        {| verdict := Engine.NEUTRAL; score := 0.5;
           reason := "News sentiment is mixed or inconclusive." |}
  end.

End Sentiment.

End Analyst.

(** ** agents/post_mortem.py *)

Module PostMortem.

(** The columns of a row of the table [trades] that the analysis reads;
    [pnl] is a nullable column. *)
Record TradeRow : Type := mkTradeRow {
  trade_symbol : string;
  trade_pnl : option float
}.

(** [t.pnl > 0] and [t.pnl <= 0]: [None] does not compare with an [int]. *)
Definition gt_zero (t : TradeRow) : result bool :=
  match trade_pnl t with
  | Some x => Ok (x >? 0)%float
  | None => Raise TypeError
  end.

Definition le_zero (t : TradeRow) : result bool :=
  match trade_pnl t with
  | Some x => Ok (x <=? 0)%float
  | None => Raise TypeError
  end.

(** [[t for t in trades if cond(t)]] *)
Fixpoint select (cond : TradeRow -> result bool) (trades : list TradeRow)
  : result (list TradeRow) :=
  match trades with
  | [] => Ok []
  | t :: rest =>
      keep ← cond t;
      kept ← select cond rest;
      Ok (if keep : bool then t :: kept else kept)
  end.

(** The terms of [sum(t.pnl for t in trades)]: [None] does not add to a
    number. *)
Fixpoint pnls (trades : list TradeRow) : result (list float) :=
  match trades with
  | [] => Ok []
  | t :: rest =>
      x ← match trade_pnl t with Some x => Ok x | None => Raise TypeError end;
      xs ← pnls rest;
      Ok (x :: xs)
  end.

(** An entry of [by_symbol]. Its total starts at the [int] 0 and a float is
    added to it before the loop body ends, so it is a float. *)
Record SymbolStats : Type := mkSymbolStats {
  symbol_wins : Z;
  symbol_losses : Z;
  symbol_total_pnl : float
}.

(** The loop [for t in trades] over the dictionary [by_symbol]. *)
Fixpoint group (trades : list TradeRow) (by_symbol : gmap string SymbolStats)
  : result (gmap string SymbolStats) :=
  match trades with
  | [] => Ok by_symbol
  | t :: rest =>
      let by_symbol :=
        match by_symbol !! trade_symbol t with
        | None =>
            <[trade_symbol t := {| symbol_wins := 0; symbol_losses := 0;
                                   symbol_total_pnl := 0 |}]> by_symbol
        | Some _ => by_symbol
        end in
      won ← gt_zero t;
      stats ← match by_symbol !! trade_symbol t with
              | Some stats => Ok stats
              | None => Raise (KeyError (trade_symbol t))
              end;
      let stats :=
        if won : bool
        then {| symbol_wins := symbol_wins stats + 1;
                symbol_losses := symbol_losses stats;
                symbol_total_pnl := symbol_total_pnl stats |}
        else {| symbol_wins := symbol_wins stats;
                symbol_losses := symbol_losses stats + 1;
                symbol_total_pnl := symbol_total_pnl stats |} in
      x ← match trade_pnl t with Some x => Ok x | None => Raise TypeError end;
      let stats :=
        {| symbol_wins := symbol_wins stats;
           symbol_losses := symbol_losses stats;
           symbol_total_pnl := (symbol_total_pnl stats + x)%float |} in
      group rest (<[trade_symbol t := stats]> by_symbol)
  end.

(** The dictionary [_analyze_data] returns. The win rate and the total are
    the [int] 0 when there is no trade, and floats otherwise. *)
Record Analysis : Type := mkAnalysis {
  total_trades : Z;
  wins : Z;
  losses : Z;
  win_rate : pyval;
  total_pnl : pyval;
  by_symbol : gmap string SymbolStats
}.

Section Analysis.
Context `{PySum}.

Definition _analyze_data (trades : list TradeRow) : result Analysis :=
  let total_trades := length trades in
  wins ← select gt_zero trades;
  losses ← select le_zero trades;
  terms ← pnls trades;
  let total_pnl :=
    match terms with
    | [] => PInt 0
    | _ :: _ => PFloat (float_sum terms)
    end in
  let win_rate :=
    if Nat.ltb 0 total_trades
    then PFloat (float_of_nat (length wins) / float_of_nat total_trades * 100)%float
    else PInt 0 in
  by_symbol ← group trades ∅;
  Ok {| total_trades := Z.of_nat total_trades;
        wins := Z.of_nat (length wins);
        losses := Z.of_nat (length losses);
        win_rate := win_rate;
        total_pnl := total_pnl;
        by_symbol := by_symbol |}.

End Analysis.

(** Counting the trades of a list: the winners, the losers, the trades whose
    result compares with nothing, and the trades on a symbol. *)
Definition won (t : TradeRow) : bool :=
  match trade_pnl t with
  | Some x => (x >? 0)%float
  | None => false
  end.

Definition lost (t : TradeRow) : bool :=
  match trade_pnl t with
  | Some x => (x <=? 0)%float
  | None => false
  end.

Definition unordered (t : TradeRow) : bool :=
  match trade_pnl t with
  | Some x => PrimFloat.is_nan x
  | None => false
  end.

Definition on_symbol (s : string) (t : TradeRow) : bool :=
  bool_decide (trade_symbol t = s).

Definition count (p : TradeRow -> bool) (trades : list TradeRow) : Z :=
  Z.of_nat (length (List.filter p trades)).

End PostMortem.

(** ** main.py *)

Module Oracle.

(** The columns of a row of the table [deployments] that the orchestrator
    reads. *)
Record Deployment : Type := mkDeployment {
  exchange : string;
  current_balance : float;
  level : Z
}.

(** class OracleOrchestrator, once [initialize] has returned: the risk engine
    and the correlation guard exist; the liquidity guard exists when the
    harvester knows the exchange. *)
Record OracleOrchestrator : Type := mkOracleOrchestrator {
  deployment : Deployment;
  risk_engine : Risk.RiskEngine;
  correlation_guard : Guards.CorrelationGuard;
  liquidity_guard : option Liquidity.LiquidityGuard;
  symbols : list string;
  active_positions : list string
}.

(** The state an analysis cycle works on: the orchestrator and the audit log
    of [core/signals.py]. *)
Record World : Type := mkWorld {
  oracle : OracleOrchestrator;
  signals_log : list Signals.TradePacket
}.

(** [__init__], [load_deployment] on the active deployment it found and
    [initialize], up to the connections they open. *)
Definition initialize (found : Deployment)
    (liquidity : option (string -> Liquidity.attempt Liquidity.OrderBook))
    (symbols : list string) : OracleOrchestrator :=
  {| deployment := found;
     risk_engine := Risk.__init__ (level found);
     correlation_guard := Guards.__init__ 2;
     liquidity_guard :=
       (fun fetch => Liquidity.__init__ fetch (Some 0.005%float) (Some 500%float))
       <$> liquidity;
     symbols := symbols;
     active_positions := [] |}.

(** A method of a component, run on the component the orchestrator holds. *)
Definition on_risk_engine {A} (m : M Risk.RiskEngine A) : M World A := fun w =>
  let self := oracle w in
  let '(r, engine) := m (risk_engine self) in
  (r, {| oracle := {| deployment := deployment self;
                      risk_engine := engine;
                      correlation_guard := correlation_guard self;
                      liquidity_guard := liquidity_guard self;
                      symbols := symbols self;
                      active_positions := active_positions self |};
         signals_log := signals_log w |}).

Definition on_correlation_guard {A} (m : M Guards.CorrelationGuard A) : M World A :=
  fun w =>
  let self := oracle w in
  let '(r, guard) := m (correlation_guard self) in
  (r, {| oracle := {| deployment := deployment self;
                      risk_engine := risk_engine self;
                      correlation_guard := guard;
                      liquidity_guard := liquidity_guard self;
                      symbols := symbols self;
                      active_positions := active_positions self |};
         signals_log := signals_log w |}).

Definition on_signals_log {A} (m : M (list Signals.TradePacket) A) : M World A :=
  fun w =>
  let '(r, log) := m (signals_log w) in
  (r, {| oracle := oracle w; signals_log := log |}).

(** [try: body except Exception: handler] *)
Definition try_except {S A} (body : M S A) (handler : exn -> M S A) : M S A :=
  fun s =>
  match body s with
  | (Ok a, s') => (Ok a, s')
  | (Raise e, s') => handler e s'
  end.

(** The dictionary [signal_data] of [analyze_symbol]. *)
Definition signal_data (symbol : string) (current_price sl tp position_size : float)
    (current_level : Z) (verdict agent_verdict : Engine.Verdict) : gmap string pyval :=
  list_to_map [
    ("symbol", PStr symbol);
    ("side", PStr "BUY");
    ("entry_price", PFloat current_price);
    ("sl", PFloat sl);
    ("tp", PFloat tp);
    ("size", PFloat position_size);
    ("level", PInt current_level);
    ("slevel", PInt 0);
    ("strategy_verdict", PStr (Engine.name verdict));
    ("agent_verdict", PStr (Engine.name agent_verdict)) ].

Section Cycle.
Context {ta : PandasTA} {builtins : PyBuiltins} {text : PyText}.

(** The candle table of the database and the news search of the analyst,
    which an analysis cycle reads and does not change. *)
Variable table : list Candles.CandleRow.
Variable fetch_news : string -> list string.

(** [analyze_symbol(symbol)]; [utcnow] is the reading of the clock when the
    packet is built. *)
Definition analyze_symbol (utcnow : string) (symbol : string)
  : M World (option Signals.TradePacket) :=
  '(verdict, reason) ← lift (Candles.check_signal table symbol);
  if negb (bool_decide (verdict = Engine.BUY)) then mret None else
  allowed ← on_correlation_guard (Guards.check symbol);
  if negb allowed then mret None else
  w ← get;
  match liquidity_guard (oracle w) with
  | Some _ => mret tt
  | None => mret tt
  end;;
  base ← lift (index (Guards.split "/" symbol) 0);
  let sentiment := Analyst.analyze_sentiment fetch_news base None in
  if bool_decide (Analyst.verdict sentiment = Engine.BEARISH) then mret None else
  w ← get;
  let account_balance := current_balance (deployment (oracle w)) in
  position_size_value ← on_risk_engine (Risk.calculate_position_size account_balance);
  let df := Candles.get_candles_df table symbol "1h" 1 in
  if Frame.empty df then mret None else
  current_price ← lift (iloc_neg (Frame.closes df) 1);
  let position_size := (position_size_value / current_price)%float in
  let sl := (current_price * 0.98)%float in
  let tp := (current_price * 1.06)%float in
  w ← get;
  let data :=
    signal_data symbol current_price sl tp position_size
      (Risk.current_level (risk_engine (oracle w))) verdict (Analyst.verdict sentiment) in
  packet ← on_signals_log (Signals.package_trade utcnow data);
  mret (Some packet).

(** The loop [for symbol in self.symbols] of [run_analysis_cycle]; [utcnow i]
    is the reading of the clock in iteration [i]. A packet is a dictionary
    with three keys, so [if signal] holds for every packet. *)
Fixpoint analysis_loop (utcnow : nat -> string) (i : nat) (symbols : list string)
    (signals : list Signals.TradePacket) : M World (list Signals.TradePacket) :=
  match symbols with
  | [] => mret signals
  | symbol :: rest =>
      signals ← try_except
        (signal ← analyze_symbol (utcnow i) symbol;
         match signal with
         | Some packet => mret (signals ++ [packet])
         | None => mret signals
         end)
        (fun _ => mret signals);
      analysis_loop utcnow (S i) rest signals
  end.

Definition run_analysis_cycle (utcnow : nat -> string)
  : M World (list Signals.TradePacket) :=
  w ← get;
  on_correlation_guard (Guards.update_positions (active_positions (oracle w)));;
  w ← get;
  analysis_loop utcnow 0 (symbols (oracle w)) [].

End Cycle.

(** The packet that [package_trade] builds from the [signal_data] of
    [analyze_symbol], for a price and a position value. *)
Definition signal_packet (utcnow symbol : string) (current_price position_size_value : float)
    (current_level : Z) (agent_verdict : Engine.Verdict) : Signals.TradePacket :=
  {| Signals.meta :=
       {| Signals.timestamp := utcnow; Signals.version := "1.0";
          Signals.source := "Oracle-AI-Hub" |};
     Signals.trade :=
       {| Signals.symbol := PStr symbol;
          Signals.side := PStr "BUY";
          Signals.entry := current_price;
          Signals.sl := (current_price * 0.98)%float;
          Signals.tp := (current_price * 1.06)%float;
          Signals.size := (position_size_value / current_price)%float;
          Signals.risk := {| Signals.level := current_level; Signals.slevel := 0 |} |};
     Signals.context :=
       {| Signals.strategy := PStr "BUY";
          Signals.sentiment := PStr (Engine.name agent_verdict) |} |}.

End Oracle.

(** ** A sample market

    A candle table, a news search and a deployment on which the whole
    pipeline runs: 200 daily and 20 four-hour candles that rise by one at
    every step, the hourly rebound of [Samples], and news for BTC only. *)

Module Market.

Definition rising : list Candle :=
  map (fun k => Samples.bar k (float_of_nat (100 + k))) (seq 0 200).

Definition table : list Candles.CandleRow :=
  (Candles.mkCandleRow "BTC/USDT" "1d" <$> rising)
  ++ (Candles.mkCandleRow "BTC/USDT" "4h" <$> take 20 rising)
  ++ (Candles.mkCandleRow "BTC/USDT" "1h" <$> Samples.rebound).

(** Lower case for the letters A to Z, other characters unchanged. *)
Definition lower_ascii (c : ascii) : ascii :=
  let n := nat_of_ascii c in
  if (Nat.leb 65 n && Nat.leb n 90)%bool then ascii_of_nat (n + 32) else c.

Fixpoint lower (s : string) : string :=
  match s with
  | EmptyString => EmptyString
  | String c rest => String (lower_ascii c) (lower rest)
  end.

Definition fetch_news (query : string) : list string :=
  if String.eqb query "BTC"
  then ["Bitcoin Surge continues"; "Funds keep accumulating after the crash"]
  else [].

Definition deployed (level : Z) : Oracle.Deployment :=
  {| Oracle.exchange := "binance"; Oracle.current_balance := 1000; Oracle.level := level |}.

(** The orchestrator after [initialize] for two symbols, without a liquidity
    guard, and an empty audit log. *)
Definition world (level : Z) : Oracle.World :=
  {| Oracle.oracle := Oracle.initialize (deployed level) None ["ETH/USDT"; "BTC/USDT"];
     Oracle.signals_log := [] |}.

Definition noon : string := "2024-01-01T12:00:00".

(** The packet of [Signals.sample_trade], packaged at [noon]. *)
Definition sample_packet : Signals.TradePacket :=
  {| Signals.meta :=
       {| Signals.timestamp := noon; Signals.version := "1.0";
          Signals.source := "Oracle-AI-Hub" |};
     Signals.trade :=
       {| Signals.symbol := PStr "BTC/USDT"; Signals.side := PStr "BUY";
          Signals.entry := 50000; Signals.sl := 49000; Signals.tp := 53000;
          Signals.size := 0.01;
          Signals.risk := {| Signals.level := 5; Signals.slevel := 0 |} |};
     Signals.context :=
       {| Signals.strategy := PStr "N/A"; Signals.sentiment := PStr "N/A" |} |}.

(** Four closed trades, one of them with a result that is not a number. *)
Definition closed_trades : list PostMortem.TradeRow :=
  [ PostMortem.mkTradeRow "BTC/USDT" (Some 12.5%float);
    PostMortem.mkTradeRow "ETH/USDT" (Some PrimFloat.nan);
    PostMortem.mkTradeRow "BTC/USDT" (Some (-3)%float);
    PostMortem.mkTradeRow "ETH/USDT" (Some 4%float) ].

End Market.

#[local] Instance sample_text : PyText := {| lower := Market.lower |}.

(** * Properties *)

(** ** Floating-point order *)

Section FloatOrder.

Lemma SFcompare_swap (x y : spec_float) :
  SFcompare y x = CompOpp <$> SFcompare x y.
Proof.
  destruct x as [sx|sx| |sx mx ex], y as [sy|sy| |sy my ey]; simpl;
    try reflexivity; try (destruct sx; reflexivity); try (destruct sy; reflexivity);
    try (destruct sx, sy; reflexivity).
  destruct sx, sy; simpl; try reflexivity.
  - rewrite (Z.compare_antisym ey ex).
    destruct (ey ?= ex)%Z; simpl; try reflexivity.
    rewrite CompOpp_involutive. f_equal.
    exact (Pos.compare_cont_antisym my mx Eq).
  - rewrite (Z.compare_antisym ey ex).
    destruct (ey ?= ex)%Z; simpl; try reflexivity.
    f_equal. symmetry. exact (Pos.compare_cont_antisym mx my Eq).
Qed.

(** [x <= y] excludes [x > y]. *)
Lemma leb_not_gtb (x y : float) :
  (x <=? y)%float = true -> (x >? y)%float = false.
Proof.
  rewrite leb_spec, ltb_spec. unfold SFleb, SFltb.
  rewrite (SFcompare_swap (Prim2SF x) (Prim2SF y)).
  destruct (SFcompare (Prim2SF x) (Prim2SF y)) as [[]|]; simpl; congruence.
Qed.

(** [x > y] excludes [x <= y]. *)
Lemma gtb_not_leb (x y : float) :
  (x >? y)%float = true -> (x <=? y)%float = false.
Proof.
  intros Hgt. destruct (x <=? y)%float eqn:Hle; [|reflexivity].
  apply leb_not_gtb in Hle. congruence.
Qed.

End FloatOrder.

(** Unfolding of the method monad. *)
Ltac unfold_m :=
  unfold mbind, mret, M_bind, M_ret, result_bind, result_ret,
    get, put, raise, lift in *.

(** ** core/risk.py *)

Section RiskProofs.
Import Risk.

Lemma constructed_init (e : RiskEngine) :
  constructed e -> e = __init__ (current_level e).
Proof. destruct e as [c l]. unfold constructed. simpl. now intros ->. Qed.

Lemma levels_inside (n : Z) :
  1 <= n <= 10 ->
  exists params, _define_risk_levels !! n = Some params /\ level params = n.
Proof.
  intros Hn.
  assert (n = 1 \/ n = 2 \/ n = 3 \/ n = 4 \/ n = 5 \/
          n = 6 \/ n = 7 \/ n = 8 \/ n = 9 \/ n = 10) as Hcases by lia.
  repeat (destruct Hcases as [-> | Hcases]); try subst n;
    eexists; (split; [vm_compute; reflexivity | reflexivity]).
Qed.

Lemma levels_outside (n : Z) :
  n < 1 \/ 10 < n -> _define_risk_levels !! n = None.
Proof.
  intros Hn. unfold _define_risk_levels. simpl.
  rewrite !lookup_insert_ne by lia. apply lookup_empty.
Qed.

Lemma set_risk_level_inside (current n : Z) :
  1 <= n <= 10 -> set_risk_level n (__init__ current) = (Ok tt, __init__ n).
Proof.
  intros Hn. destruct (levels_inside n Hn) as (params & Hp & _).
  unfold set_risk_level. unfold_m. simpl. now rewrite Hp.
Qed.

Lemma set_risk_level_outside (current n : Z) :
  n < 1 \/ 10 < n ->
  set_risk_level n (__init__ current)
  = (Raise (ValueError "Invalid risk level"), __init__ current).
Proof.
  intros Hn. unfold set_risk_level. unfold_m. simpl.
  now rewrite (levels_outside n Hn).
Qed.

Lemma get_current_params_inside (n : Z) (params : RiskLevel) :
  _define_risk_levels !! n = Some params ->
  get_current_params (__init__ n) = (Ok params, __init__ n).
Proof. intros Hp. unfold get_current_params. unfold_m. simpl. now rewrite Hp. Qed.

Lemma dynamic_adjustment_result (current : Z) (drawdown_pct : float) :
  1 <= current <= 10 ->
  dynamic_adjustment drawdown_pct (__init__ current)
  = (Ok tt, __init__ (if (drawdown_pct >? 0.05)%float
                      then Z.max 1 (current - 1) else current)).
Proof.
  intros Hc. unfold dynamic_adjustment. unfold_m. simpl.
  destruct (drawdown_pct >? 0.05)%float.
  - destruct (Z.eqb_spec (Z.max 1 (current - 1)) current) as [Heq | Hne]; simpl.
    + now rewrite Heq.
    + apply set_risk_level_inside. lia.
  - now destruct ((drawdown_pct <? 0.01)%float && (current <? 10)).
Qed.

(** C7: [set_risk_level n] raises [ValueError] and leaves the engine as it
    was when [n] is outside 1..10; when [n] is inside it succeeds, and the
    position size computed next is the balance times the [max_position_pct]
    of level [n]. *)
Theorem set_risk_level_range (e : RiskEngine) (n : Z) (balance : float) :
  constructed e ->
  (n < 1 \/ 10 < n ->
     set_risk_level n e = (Raise (ValueError "Invalid risk level"), e)) /\
  (1 <= n <= 10 ->
     exists (params : RiskLevel) (e' : RiskEngine),
       _define_risk_levels !! n = Some params /\ level params = n /\
       set_risk_level n e = (Ok tt, e') /\
       current_level e' = n /\ constructed e' /\
       calculate_position_size balance e'
       = (Ok (balance * max_position_pct params)%float, e')).
Proof.
  intros He. rewrite (constructed_init e He). split.
  - apply set_risk_level_outside.
  - intros Hn. destruct (levels_inside n Hn) as (params & Hp & Hl).
    exists params, (__init__ n). repeat split; try assumption.
    + now apply set_risk_level_inside.
    + unfold calculate_position_size. unfold_m.
      now rewrite (get_current_params_inside n params Hp).
Qed.

Lemma set_risk_level_range_witness :
  set_risk_level 11 (__init__ 3) = (Raise (ValueError "Invalid risk level"), __init__ 3) /\
  set_risk_level 0 (__init__ 3) = (Raise (ValueError "Invalid risk level"), __init__ 3) /\
  exists (params : RiskLevel) (e' : RiskEngine),
    _define_risk_levels !! 8 = Some params /\ level params = 8 /\
    set_risk_level 8 (__init__ 3) = (Ok tt, e') /\
    current_level e' = 8 /\ constructed e' /\
    calculate_position_size 10000 e'
    = (Ok (10000 * max_position_pct params)%float, e').
Proof.
  split; [| split].
  - apply (set_risk_level_range (__init__ 3) 11 10000); [reflexivity | lia].
  - apply (set_risk_level_range (__init__ 3) 0 10000); [reflexivity | lia].
  - apply (set_risk_level_range (__init__ 3) 8 10000); [reflexivity | lia].
Defined.

(** C9: at a level in 1..10, [dynamic_adjustment] succeeds; a drawdown above
    0.05 replaces the level by [max 1 (level - 1)], a drawdown of at most 0.05
    leaves it, and in no case is the level raised. *)
Theorem dynamic_adjustment_ratchet (e : RiskEngine) (drawdown_pct : float) :
  constructed e -> in_range e ->
  exists e' : RiskEngine,
    dynamic_adjustment drawdown_pct e = (Ok tt, e') /\ constructed e' /\
    ((drawdown_pct >? 0.05)%float = true ->
       current_level e' = Z.max 1 (current_level e - 1)) /\
    ((drawdown_pct <=? 0.05)%float = true -> e' = e) /\
    ((drawdown_pct >? 0.05)%float = false -> e' = e) /\
    current_level e' <= current_level e /\
    (current_level e = 1 -> current_level e' = 1).
Proof.
  intros He Hr. unfold in_range in Hr.
  destruct e as [current table]. unfold constructed in He. simpl in He, Hr.
  subst table. change (mkRiskEngine current _define_risk_levels) with (__init__ current).
  rewrite dynamic_adjustment_result by exact Hr.
  eexists. split; [reflexivity |]. split; [reflexivity |].
  simpl. repeat split.
  - now intros ->.
  - intros Hle. now rewrite (leb_not_gtb _ _ Hle).
  - now intros ->.
  - destruct (drawdown_pct >? 0.05)%float; simpl; lia.
  - intros H1. destruct (drawdown_pct >? 0.05)%float; simpl; lia.
Qed.

Lemma dynamic_adjustment_ratchet_witness :
  exists e' : RiskEngine,
    dynamic_adjustment 0.06 (__init__ 5) = (Ok tt, e') /\ constructed e' /\
    ((0.06 >? 0.05)%float = true -> current_level e' = Z.max 1 (5 - 1)) /\
    ((0.06 <=? 0.05)%float = true -> e' = __init__ 5) /\
    ((0.06 >? 0.05)%float = false -> e' = __init__ 5) /\
    current_level e' <= 5 /\
    (5 = 1 -> current_level e' = 1).
Proof.
  apply (dynamic_adjustment_ratchet (__init__ 5) 0.06).
  - reflexivity.
  - unfold in_range. simpl. lia.
Defined.

(** The operations keep a level that is in 1..10 in 1..10, whether they return
    or raise. *)
Lemma risk_operations_preserve_range (e : RiskEngine) :
  constructed e -> in_range e ->
  (forall n, let e' := (set_risk_level n e).2 in constructed e' /\ in_range e') /\
  (forall d, let e' := (dynamic_adjustment d e).2 in constructed e' /\ in_range e') /\
  (get_current_params e).2 = e /\
  (forall b, (calculate_position_size b e).2 = e) /\
  (forall l b, (check_daily_loss l b e).2 = e).
Proof.
  intros He Hr. destruct e as [current table]. unfold constructed, in_range in *.
  simpl in He, Hr. subst table.
  change (mkRiskEngine current _define_risk_levels) with (__init__ current).
  destruct (levels_inside current Hr) as (params & Hp & _).
  repeat split.
  - destruct (Z_le_gt_dec 1 n) as [H1 | H1]; [destruct (Z_le_gt_dec n 10) as [H2 | H2] |].
    + now rewrite set_risk_level_inside by lia.
    + now rewrite set_risk_level_outside by lia.
    + now rewrite set_risk_level_outside by lia.
  - destruct (Z_le_gt_dec 1 n) as [H1 | H1]; [destruct (Z_le_gt_dec n 10) as [H2 | H2] |].
    + rewrite set_risk_level_inside by lia. simpl. lia.
    + now rewrite set_risk_level_outside by lia.
    + now rewrite set_risk_level_outside by lia.
  - destruct (Z_le_gt_dec 1 n) as [H1 | H1]; [destruct (Z_le_gt_dec n 10) as [H2 | H2] |].
    + rewrite set_risk_level_inside by lia. simpl. lia.
    + now rewrite set_risk_level_outside by lia.
    + now rewrite set_risk_level_outside by lia.
  - now rewrite dynamic_adjustment_result.
  - rewrite dynamic_adjustment_result by exact Hr. simpl.
    destruct (d >? 0.05)%float; lia.
  - rewrite dynamic_adjustment_result by exact Hr. simpl.
    destruct (d >? 0.05)%float; lia.
  - now rewrite (get_current_params_inside current params Hp).
  - intros b. unfold calculate_position_size. unfold_m.
    now rewrite (get_current_params_inside current params Hp).
  - intros l b. unfold check_daily_loss. unfold_m.
    rewrite (get_current_params_inside current params Hp).
    now destruct (l >=? b * max_daily_loss_pct params)%float.
Qed.

Lemma risk_operations_preserve_range_witness :
  let e := __init__ 1 in
  (forall n, let e' := (set_risk_level n e).2 in constructed e' /\ in_range e') /\
  (forall d, let e' := (dynamic_adjustment d e).2 in constructed e' /\ in_range e') /\
  (get_current_params e).2 = e /\
  (forall b, (calculate_position_size b e).2 = e) /\
  (forall l b, (check_daily_loss l b e).2 = e).
Proof.
  apply (risk_operations_preserve_range (__init__ 1)).
  - reflexivity.
  - unfold in_range. simpl. lia.
Defined.

(** [check_daily_loss] returns [True] exactly when the loss has reached the
    balance times the [max_daily_loss_pct] of the current level, and leaves
    the engine as it was. *)
Theorem check_daily_loss_threshold (e : RiskEngine) (loss balance : float) :
  constructed e -> in_range e ->
  exists params : RiskLevel,
    _define_risk_levels !! current_level e = Some params /\
    level params = current_level e /\
    check_daily_loss loss balance e
    = (Ok (loss >=? balance * max_daily_loss_pct params)%float, e).
Proof.
  intros He Hr. destruct e as [current table]. unfold constructed, in_range in *.
  simpl in He, Hr. subst table.
  change (mkRiskEngine current _define_risk_levels) with (__init__ current).
  destruct (levels_inside current Hr) as (params & Hp & Hl).
  exists params. simpl. repeat split; try assumption.
  unfold check_daily_loss. unfold_m.
  rewrite (get_current_params_inside current params Hp).
  now destruct (loss >=? balance * max_daily_loss_pct params)%float.
Qed.

Lemma check_daily_loss_threshold_witness :
  exists params : RiskLevel,
    _define_risk_levels !! 5 = Some params /\
    level params = 5 /\
    check_daily_loss 300 10000 (__init__ 5)
    = (Ok (300 >=? 10000 * max_daily_loss_pct params)%float, __init__ 5).
Proof.
  apply (check_daily_loss_threshold (__init__ 5) 300 10000).
  - reflexivity.
  - unfold in_range. simpl. lia.
Defined.

(** C4: the constructor stores its argument unchecked, so an engine built
    with a level outside 1..10 is outside the range, and reading its
    parameters fails; [set_risk_level] refuses the same level. *)
Theorem init_level_unchecked :
  (forall n, current_level (__init__ n) = n) /\
  current_level (__init__ 11) = 11 /\
  get_current_params (__init__ 11) = (Raise (KeyError "current_level"), __init__ 11) /\
  calculate_position_size 10000 (__init__ 11)
  = (Raise (KeyError "current_level"), __init__ 11) /\
  set_risk_level 11 (__init__ 1)
  = (Raise (ValueError "Invalid risk level"), __init__ 1).
Proof.
  split; [reflexivity |]. split; [reflexivity |].
  repeat split; vm_compute; reflexivity.
Qed.

End RiskProofs.

(** ** core/guards.py *)

Section GuardProofs.
Import Guards.

Lemma well_formed_unpack (symbol : string) :
  well_formed symbol ->
  exists quote, unpack2 (split "/" symbol) = Ok (base_of symbol, quote).
Proof.
  unfold well_formed, base_of. intros Hlen.
  destruct (split "/" symbol) as [| b [| q [| x rest]]]; try discriminate.
  now exists q.
Qed.

Lemma open_count_cons (base symbol : string) (rest : list string) :
  open_count base (symbol :: rest)
  = (if decide (base_of symbol = base) then 1 else 0) + open_count base rest.
Proof.
  unfold open_count. rewrite filter_cons.
  destruct (decide (base_of symbol = base)); simpl length; lia.
Qed.

(** The loop adds, for every base asset, the number of its occurrences. *)
Lemma count_positions_counts (open_positions : list string) :
  Forall well_formed open_positions ->
  forall g : CorrelationGuard,
  exists g' : CorrelationGuard,
    count_positions open_positions g = (Ok tt, g') /\
    max_trades_per_asset g' = max_trades_per_asset g /\
    forall base,
      default 0 (active_positions g' !! base)
      = default 0 (active_positions g !! base) + open_count base open_positions.
Proof.
  induction 1 as [| symbol rest Hwf _ IH]; intros g.
  - exists g. repeat split. intros base. unfold open_count. simpl. lia.
  - destruct (well_formed_unpack symbol Hwf) as (quote & Hsplit).
    set (g1 := {| max_trades_per_asset := max_trades_per_asset g;
                  active_positions :=
                    <[base_of symbol := default 0 (active_positions g !! base_of symbol) + 1]>
                      (active_positions g) |}).
    destruct (IH g1) as (g' & Hrun & Hmax & Hcount).
    exists g'. split; [| split].
    + simpl. unfold set_active_positions. unfold_m. rewrite Hsplit. simpl.
      exact Hrun.
    + exact Hmax.
    + intros base. rewrite Hcount, open_count_cons. subst g1. simpl.
      destruct (decide (base_of symbol = base)) as [-> | Hne].
      * rewrite lookup_insert_eq. simpl. lia.
      * rewrite lookup_insert_ne by exact Hne. lia.
Qed.

Lemma update_positions_counts (open_positions : list string) (g : CorrelationGuard) :
  Forall well_formed open_positions ->
  exists g' : CorrelationGuard,
    update_positions open_positions g = (Ok tt, g') /\
    max_trades_per_asset g' = max_trades_per_asset g /\
    forall base,
      default 0 (active_positions g' !! base) = open_count base open_positions.
Proof.
  intros Hwf.
  destruct (count_positions_counts open_positions Hwf
              {| max_trades_per_asset := max_trades_per_asset g;
                 active_positions := ∅ |}) as (g' & Hrun & Hmax & Hcount).
  exists g'. split; [| split].
  - unfold update_positions, set_active_positions. unfold_m. simpl. exact Hrun.
  - exact Hmax.
  - intros base. rewrite Hcount. simpl. rewrite lookup_empty. simpl. lia.
Qed.

Lemma unpack2_well_formed (symbol : string) (pair : string * string) :
  unpack2 (split "/" symbol) = Ok pair -> well_formed symbol.
Proof.
  unfold well_formed.
  destruct (split "/" symbol) as [| b [| q [| x rest]]]; simpl; try discriminate.
  reflexivity.
Qed.

(** The loop returns only on symbols that all unpack. *)
Lemma count_positions_returns (open_positions : list string) :
  forall g g' : CorrelationGuard,
    count_positions open_positions g = (Ok tt, g') ->
    Forall well_formed open_positions.
Proof.
  induction open_positions as [| symbol rest IH]; intros g g' Hrun; [constructor |].
  simpl in Hrun. unfold set_active_positions in Hrun. unfold_m.
  destruct (unpack2 (split "/" symbol)) as [[base quote] | e] eqn:Hsplit;
    [| discriminate].
  constructor.
  - exact (unpack2_well_formed symbol _ Hsplit).
  - exact (IH _ _ Hrun).
Qed.

(** C8: [update_positions] returns on symbols of the form BASE/QUOTE; after
    it has returned, [check symbol] returns on such a symbol, and whenever it
    returns, it returns [False] exactly when the number of open positions on
    the base asset of [symbol] has reached [max_trades_per_asset]; with
    threshold 2 and two open BTC/USDT positions, BTC/USDT is refused and
    ETH/USDT allowed. *)
Theorem correlation_check_counts (g : CorrelationGuard)
    (open_positions : list string) (symbol : string) :
  (Forall well_formed open_positions ->
     exists g' : CorrelationGuard, update_positions open_positions g = (Ok tt, g')) /\
  (forall g' : CorrelationGuard,
     update_positions open_positions g = (Ok tt, g') ->
     max_trades_per_asset g' = max_trades_per_asset g /\
     (well_formed symbol -> exists allowed, check symbol g' = (Ok allowed, g')) /\
     (forall (allowed : bool) (g'' : CorrelationGuard),
        check symbol g' = (Ok allowed, g'') ->
        g'' = g' /\
        (allowed = false <->
           max_trades_per_asset g <= open_count (base_of symbol) open_positions))) /\
  (update_positions ["BTC/USDT"; "BTC/USDT"];; check "BTC/USDT") (__init__ 2)
    = (Ok false, {| max_trades_per_asset := 2; active_positions := {[ "BTC" := 2 ]} |}) /\
  (update_positions ["BTC/USDT"; "BTC/USDT"];; check "ETH/USDT") (__init__ 2)
    = (Ok true, {| max_trades_per_asset := 2; active_positions := {[ "BTC" := 2 ]} |}).
Proof.
  split; [| split; [| split; vm_compute; reflexivity]].
  - intros Hopen.
    destruct (update_positions_counts open_positions g Hopen) as (g' & Hrun & _).
    now exists g'.
  - intros g' Hrun.
    assert (Forall well_formed open_positions) as Hopen.
    { unfold update_positions, set_active_positions in Hrun. unfold_m. simpl in Hrun.
      exact (count_positions_returns _ _ _ Hrun). }
    destruct (update_positions_counts open_positions g Hopen) as (g1 & Hrun1 & Hmax & Hcount).
    rewrite Hrun in Hrun1. injection Hrun1 as <-.
    assert (forall quote, unpack2 (split "/" symbol) = Ok (base_of symbol, quote) ->
            check symbol g'
            = (Ok (negb (max_trades_per_asset g
                         <=? open_count (base_of symbol) open_positions)), g')) as Hcheck.
    { intros quote Hsplit. unfold check. unfold_m. rewrite Hsplit. simpl.
      rewrite Hcount, Hmax.
      now destruct (max_trades_per_asset g <=? open_count (base_of symbol) open_positions). }
    split; [exact Hmax |]. split.
    + intros Hsym. destruct (well_formed_unpack symbol Hsym) as (quote & Hsplit).
      eexists. exact (Hcheck quote Hsplit).
    + intros allowed g'' Hres.
      assert (well_formed symbol) as Hsym.
      { unfold check in Hres. unfold_m.
        destruct (unpack2 (split "/" symbol)) as [pair | e] eqn:Hsplit; [| discriminate].
        exact (unpack2_well_formed symbol pair Hsplit). }
      destruct (well_formed_unpack symbol Hsym) as (quote & Hsplit).
      rewrite (Hcheck quote Hsplit) in Hres. injection Hres as <- <-.
      split; [reflexivity |]. rewrite negb_false_iff. apply Z.leb_le.
Qed.

Lemma correlation_check_counts_witness :
  let open_positions := ["BTC/USDT"; "SOL/USDT"; "BTC/USDC"] in
  exists g' : CorrelationGuard,
    update_positions open_positions (__init__ 2) = (Ok tt, g') /\
    check "BTC/EUR" g' = (Ok false, g') /\
    (false = false <-> 2 <= open_count (base_of "BTC/EUR") open_positions).
Proof.
  intros open_positions.
  destruct (correlation_check_counts (__init__ 2) open_positions "BTC/EUR")
    as (Hreturns & Hafter & _).
  destruct Hreturns as (g' & Hrun); [repeat constructor |].
  exists g'. split; [exact Hrun |].
  destruct (Hafter g' Hrun) as (_ & Hcheck & Hiff).
  destruct Hcheck as (allowed & Hallowed); [reflexivity |].
  destruct (Hiff allowed g' Hallowed) as (_ & Hcount).
  assert (allowed = false) as -> by (apply Hcount; vm_compute; discriminate).
  split; [exact Hallowed | exact Hcount].
Defined.

(** The loop never changes the threshold, whether it returns or raises. *)
Lemma count_positions_threshold (open_positions : list string) :
  forall g : CorrelationGuard,
    max_trades_per_asset (count_positions open_positions g).2 = max_trades_per_asset g.
Proof.
  induction open_positions as [| symbol rest IH]; intros g; [reflexivity |].
  simpl. unfold set_active_positions. unfold_m.
  destruct (unpack2 (split "/" symbol)) as [[base quote] | e]; [| reflexivity].
  simpl.
  match goal with
  | |- context [count_positions rest ?g1] =>
      specialize (IH g1); destruct (count_positions rest g1) as [[[] | e] g2]
  end; exact IH.
Qed.

(** Calling [update_positions] again with the same list gives the same result
    and the same table: the table is rebuilt from the list alone. *)
Theorem update_positions_idempotent (open_positions : list string)
    (g : CorrelationGuard) :
  update_positions open_positions (update_positions open_positions g).2
  = update_positions open_positions g.
Proof.
  assert (forall g0, update_positions open_positions g0
                     = count_positions open_positions
                         {| max_trades_per_asset := max_trades_per_asset g0;
                            active_positions := ∅ |}) as Hunfold.
  { intros g0. unfold update_positions, set_active_positions. unfold_m. simpl.
    now destruct (count_positions open_positions _) as [[[] | e] g1]. }
  rewrite (Hunfold (update_positions open_positions g).2), (Hunfold g).
  now rewrite count_positions_threshold.
Qed.

End GuardProofs.

(** ** core/signals.py *)

Section SignalProofs.
Import Signals.
Context `{PyBuiltins}.

Lemma required_present (data : gmap string pyval) (field : string) :
  filter (fun f => data !! f = None) REQUIRED_FIELDS = [] ->
  field ∈ REQUIRED_FIELDS ->
  exists v, data !! field = Some v.
Proof.
  intros Hnone Hin. destruct (data !! field) as [v |] eqn:Hlook; [now exists v |].
  exfalso. exact (filter_nil_not_elem_of _ _ field Hnone Hlook Hin).
Qed.

(** Whatever the input, a call that raises leaves the audit log as it was. *)
Lemma package_trade_raise_keeps_log (utcnow : string) (data : gmap string pyval)
    (log log' : list TradePacket) (e : exn) :
  package_trade utcnow data log = (Raise e, log') -> log' = log.
Proof.
  unfold package_trade, _log_packet. unfold_m.
  repeat case_match; intros Heq; simplify_eq; reflexivity.
Qed.

Lemma package_trade_rejects_side (utcnow : string) (data : gmap string pyval)
    (log : list TradePacket) (v : pyval) :
  data !! "side" = Some v -> is_side v = false ->
  exists msg, package_trade utcnow data log = (Raise (ValueError msg), log).
Proof.
  intros Hside Hbad. unfold package_trade. unfold_m.
  destruct (bool_decide (filter (fun f => data !! f = None) REQUIRED_FIELDS = []))
    eqn:Hmissing; simpl; [| eexists; reflexivity].
  apply bool_decide_eq_true in Hmissing.
  destruct (required_present data "symbol" Hmissing) as (vs & Hs);
    [unfold REQUIRED_FIELDS; set_solver |].
  unfold getitem. rewrite Hs. destruct (is_symbol vs); simpl; [| eexists; reflexivity].
  rewrite Hside, Hbad. simpl. eexists; reflexivity.
Qed.

Lemma le_zero_numeric (data : gmap string pyval) (field : string) (v : pyval) :
  numeric_field data field -> data !! field = Some v ->
  exists b, le_zero v = Ok b.
Proof.
  unfold numeric_field. intros Hnum Hv. rewrite Hv in Hnum.
  destruct v; [contradiction | eexists; reflexivity ..].
Qed.

Lemma package_trade_rejects_size (utcnow : string) (data : gmap string pyval)
    (log : list TradePacket) (v : pyval) :
  numeric_field data "entry_price" -> numeric_field data "sl" ->
  numeric_field data "tp" ->
  data !! "size" = Some v -> le_zero v = Ok true ->
  exists msg, package_trade utcnow data log = (Raise (ValueError msg), log).
Proof.
  intros Hentry Hsl Htp Hsize Hzero. unfold package_trade. unfold_m.
  destruct (bool_decide (filter (fun f => data !! f = None) REQUIRED_FIELDS = []))
    eqn:Hmissing; simpl; [| eexists; reflexivity].
  apply bool_decide_eq_true in Hmissing.
  destruct (required_present data "symbol" Hmissing) as (vs & Hs);
    [unfold REQUIRED_FIELDS; set_solver |].
  destruct (required_present data "side" Hmissing) as (vd & Hd);
    [unfold REQUIRED_FIELDS; set_solver |].
  destruct (required_present data "entry_price" Hmissing) as (ve & He);
    [unfold REQUIRED_FIELDS; set_solver |].
  destruct (required_present data "sl" Hmissing) as (vl & Hl);
    [unfold REQUIRED_FIELDS; set_solver |].
  destruct (required_present data "tp" Hmissing) as (vt & Ht);
    [unfold REQUIRED_FIELDS; set_solver |].
  destruct (le_zero_numeric data _ ve Hentry He) as (be & Hbe).
  destruct (le_zero_numeric data _ vl Hsl Hl) as (bl & Hbl).
  destruct (le_zero_numeric data _ vt Htp Ht) as (bt & Hbt).
  unfold getitem. rewrite Hs. destruct (is_symbol vs); simpl; [| eexists; reflexivity].
  rewrite Hd. destruct (is_side vd); simpl; [| eexists; reflexivity].
  rewrite He, Hl, Ht, Hsize. simpl. rewrite Hbe, Hbl, Hbt, Hzero.
  destruct be, bl, bt; simpl; eexists; reflexivity.
Qed.

(** C3: [package_trade] raises [ValueError] for a trade whose side is "LONG"
    and for a trade whose size is 0 (its prices being numbers); a call that
    raises, whatever the reason, leaves the audit log unchanged; the literal
    BTC/USDT trade is accepted, its packet has entry 50000.0 and risk level 5,
    and that packet is the one line added to the log. *)
Theorem package_trade_validates (utcnow : string) (log : list TradePacket) :
  (forall data,
     data !! "side" = Some (PStr "LONG") ->
     exists msg, package_trade utcnow data log = (Raise (ValueError msg), log)) /\
  (forall data,
     numeric_field data "entry_price" -> numeric_field data "sl" ->
     numeric_field data "tp" ->
     data !! "size" = Some (PInt 0) \/ data !! "size" = Some (PFloat 0) ->
     exists msg, package_trade utcnow data log = (Raise (ValueError msg), log)) /\
  (exists msg,
     package_trade utcnow (<["side" := PStr "LONG"]> sample_trade) log
     = (Raise (ValueError msg), log)) /\
  (exists msg,
     package_trade utcnow (<["size" := PInt 0]> sample_trade) log
     = (Raise (ValueError msg), log)) /\
  (forall data e log',
     package_trade utcnow data log = (Raise e, log') -> log' = log) /\
  (exists packet,
     package_trade utcnow sample_trade log = (Ok packet, log ++ [packet]) /\
     entry (trade packet) = 50000%float /\
     level (risk (trade packet)) = 5).
Proof.
  repeat apply conj.
  - intros data Hside. now apply (package_trade_rejects_side _ _ _ _ Hside).
  - intros data Hentry Hsl Htp [Hsize | Hsize];
      now apply (package_trade_rejects_size _ _ _ _ Hentry Hsl Htp Hsize).
  - now apply (package_trade_rejects_side _ _ _ (PStr "LONG")).
  - now apply (package_trade_rejects_size _ _ _ (PInt 0)).
  - intros data e log'. apply package_trade_raise_keeps_log.
  - eexists. split; [| split]; [vm_compute; reflexivity | reflexivity ..].
Qed.

End SignalProofs.

(** ** The sample libraries are instances *)

Section SampleProofs.
Import SampleTA.

Lemma smooth_length (a prev : float) (xs : list float) :
  length (smooth a prev xs) = length xs.
Proof.
  revert prev. induction xs as [| x rest IH]; intros prev; simpl;
    [reflexivity | now rewrite IH].
Qed.

Lemma average_length (a : float) (xs : list float) :
  length (average a xs) = length xs.
Proof. destruct xs; simpl; [reflexivity | now rewrite smooth_length]. Qed.

Lemma mask_length (k : nat) (xs : list float) :
  length (mask k xs) = length xs.
Proof.
  revert xs. induction k as [| k IH]; intros [| x rest]; simpl;
    try reflexivity. now rewrite IH.
Qed.

Lemma ema_length (n : nat) (xs : list float) : length (ema n xs) = length xs.
Proof. unfold ema. now rewrite mask_length, average_length. Qed.

Lemma macd_line_length (f s g : nat) (xs : list float) :
  length (macd_line f s g xs) = length xs.
Proof.
  unfold macd_line. rewrite length_zip_with, !average_length. lia.
Qed.

Lemma macd_signal_length (f s g : nat) (xs : list float) :
  length (macd_signal f s g xs) = length xs.
Proof. unfold macd_signal. now rewrite average_length, macd_line_length. Qed.

Lemma rsi_length (n : nat) (xs : list float) : length (rsi n xs) = length xs.
Proof.
  unfold rsi. destruct xs as [| x rest]; [reflexivity |].
  rewrite mask_length. simpl length at 1.
  rewrite length_zip_with, !average_length, !length_map, length_zip_with.
  simpl. lia.
Qed.

End SampleProofs.

#[local] Instance sample_ta : PandasTA := {|
  ema := SampleTA.ema;
  rsi := SampleTA.rsi;
  macd_line := SampleTA.macd_line;
  macd_signal := SampleTA.macd_signal;
  ema_aligned n xs _ := ema_length n xs;
  rsi_aligned n xs _ := rsi_length n xs;
  macd_line_aligned f s g xs _ := macd_line_length f s g xs;
  macd_signal_aligned f s g xs _ := macd_signal_length f s g xs
|}.

(** ** core/engine.py *)

Section EngineProofs.
Import Engine.
Context `{PandasTA}.

Lemma iloc_neg_ok {A} (xs : list A) (k : nat) :
  (1 <= k <= length xs)%nat ->
  exists x, xs !! (length xs - k)%nat = Some x /\ iloc_neg xs k = Ok x.
Proof.
  intros Hk. destruct (lookup_lt_is_Some_2 xs (length xs - k)%nat) as (x & Hx); [lia |].
  exists x. split; [exact Hx |]. unfold iloc_neg, index.
  replace (Nat.leb 1 k) with true by (symmetry; apply Nat.leb_le; lia).
  replace (Nat.leb k (length xs)) with true by (symmetry; apply Nat.leb_le; lia).
  simpl. now rewrite Hx.
Qed.

Lemma short_frame (df : DataFrame) (n : nat) :
  (Frame.len df < n)%nat -> Frame.empty df || Nat.ltb (Frame.len df) n = true.
Proof.
  intros Hlt. apply orb_true_iff. right. now apply Nat.ltb_lt.
Qed.

Lemma long_frame (df : DataFrame) (n : nat) :
  (0 < n)%nat -> (n <= Frame.len df)%nat ->
  Frame.empty df || Nat.ltb (Frame.len df) n = false.
Proof.
  intros Hn Hle. apply orb_false_iff. split.
  - unfold Frame.empty. apply Nat.eqb_neq. lia.
  - apply Nat.ltb_ge. exact Hle.
Qed.

(** The columns [calculate_trigger] reads after the two indicator calls. *)
Lemma trigger_columns (df : DataFrame) :
  (50 <= Frame.len df)%nat ->
  let df' := Frame.ta_ema 50 (Frame.ta_macd 12 26 9 df) in
  rows df' = rows df /\
  Frame.column df' "MACD_12_26_9" = Ok (macd_line 12 26 9 (Frame.closes df)) /\
  Frame.column df' "MACDs_12_26_9" = Ok (macd_signal 12 26 9 (Frame.closes df)) /\
  Frame.column df' "EMA_50" = Ok (ema 50 (Frame.closes df)).
Proof.
  intros Hlen df'. subst df'.
  set (line := macd_line 12 26 9 (Frame.closes df)).
  set (sig := macd_signal 12 26 9 (Frame.closes df)).
  assert (Frame.ta_macd 12 26 9 df
          = Frame.append "MACDs_12_26_9" sig
              (Frame.append "MACDh_12_26_9" (zip_with PrimFloat.sub line sig)
                 (Frame.append "MACD_12_26_9" line df))) as ->.
  { unfold Frame.ta_macd.
    replace (Nat.leb (12 `max` (26 `max` 9)) (Frame.len df)) with true
      by (symmetry; apply Nat.leb_le; simpl; lia).
    replace ("MACD" +:+ Frame.macd_suffix 12 26 9) with "MACD_12_26_9"
      by (vm_compute; reflexivity).
    replace ("MACDh" +:+ Frame.macd_suffix 12 26 9) with "MACDh_12_26_9"
      by (vm_compute; reflexivity).
    replace ("MACDs" +:+ Frame.macd_suffix 12 26 9) with "MACDs_12_26_9"
      by (vm_compute; reflexivity).
    reflexivity. }
  unfold Frame.ta_ema.
  change (Frame.len (Frame.append "MACDs_12_26_9" sig
            (Frame.append "MACDh_12_26_9" (zip_with PrimFloat.sub line sig)
               (Frame.append "MACD_12_26_9" line df)))) with (Frame.len df).
  replace (Nat.leb 50 (Frame.len df)) with true
    by (symmetry; apply Nat.leb_le; exact Hlen).
  replace ("EMA_" +:+ pretty 50%nat) with "EMA_50" by (vm_compute; reflexivity).
  unfold Frame.column, Frame.append. cbn [rows ta_columns].
  split; [reflexivity |]. split; [| split].
  - rewrite lookup_insert_ne by discriminate.
    rewrite lookup_insert_ne by discriminate.
    rewrite lookup_insert_ne by discriminate.
    now rewrite lookup_insert_eq.
  - rewrite lookup_insert_ne by discriminate.
    now rewrite lookup_insert_eq.
  - now rewrite lookup_insert_eq.
Qed.

(** C2: a series shorter than the window of a tier, the empty series
    included, gives NEUTRAL (trend below 200 candles, momentum below 14) or
    HOLD (trigger below 50), as a returned value and not an exception. *)
Theorem short_series_neutral (df : DataFrame) :
  ((Frame.len df < 200)%nat -> calculate_trend df = Ok NEUTRAL) /\
  ((Frame.len df < 14)%nat -> calculate_momentum df = Ok NEUTRAL) /\
  ((Frame.len df < 50)%nat -> calculate_trigger df = Ok HOLD) /\
  calculate_trend (Frame.of_candles []) = Ok NEUTRAL /\
  calculate_momentum (Frame.of_candles []) = Ok NEUTRAL /\
  calculate_trigger (Frame.of_candles []) = Ok HOLD.
Proof.
  repeat split; try reflexivity; intros Hlen.
  - unfold calculate_trend. now rewrite short_frame.
  - unfold calculate_momentum. now rewrite short_frame.
  - unfold calculate_trigger. now rewrite short_frame.
Qed.

(** C1: on a series of at least 50 candles the trigger tier returns, and it
    returns BUY exactly when the previous MACD is at most its signal, the
    current MACD is above its signal and the current close is above the
    current EMA(50); if one of the three comparisons fails it returns HOLD. *)
Theorem trigger_buy_iff (df : DataFrame) :
  (50 <= Frame.len df)%nat ->
  let n := Frame.len df in
  let macd := macd_line 12 26 9 (Frame.closes df) in
  let signal := macd_signal 12 26 9 (Frame.closes df) in
  let ema50 := ema 50 (Frame.closes df) in
  exists prev_macd prev_signal curr_macd curr_signal curr_close curr_ema50 : float,
    macd !! (n - 2)%nat = Some prev_macd /\
    signal !! (n - 2)%nat = Some prev_signal /\
    macd !! (n - 1)%nat = Some curr_macd /\
    signal !! (n - 1)%nat = Some curr_signal /\
    close <$> rows df !! (n - 1)%nat = Some curr_close /\
    ema50 !! (n - 1)%nat = Some curr_ema50 /\
    (calculate_trigger df = Ok BUY <->
       (prev_macd <=? prev_signal)%float = true /\
       (curr_macd >? curr_signal)%float = true /\
       (curr_close >? curr_ema50)%float = true) /\
    ((prev_macd <=? prev_signal)%float = false \/
     (curr_macd >? curr_signal)%float = false \/
     (curr_close >? curr_ema50)%float = false ->
     calculate_trigger df = Ok HOLD).
Proof.
  intros Hlen n macd signal ema50.
  destruct (trigger_columns df Hlen) as (Hrows & Hmacd & Hsignal & Hema).
  assert (length (Frame.closes df) = n) as Lclose
    by (unfold Frame.closes; now rewrite length_map).
  assert (length macd = n) as Lmacd.
  { unfold macd. rewrite macd_line_aligned; [exact Lclose |].
    rewrite Lclose. unfold n. simpl. lia. }
  assert (length signal = n) as Lsignal.
  { unfold signal. rewrite macd_signal_aligned; [exact Lclose |].
    rewrite Lclose. unfold n. simpl. lia. }
  assert (length ema50 = n) as Lema.
  { unfold ema50. rewrite ema_aligned; [exact Lclose |].
    rewrite Lclose. exact Hlen. }
  destruct (iloc_neg_ok macd 1) as (curr_macd & Hcm & Icm); [lia |].
  destruct (iloc_neg_ok macd 2) as (prev_macd & Hpm & Ipm); [lia |].
  destruct (iloc_neg_ok signal 1) as (curr_signal & Hcs & Ics); [lia |].
  destruct (iloc_neg_ok signal 2) as (prev_signal & Hps & Ips); [lia |].
  destruct (iloc_neg_ok (Frame.closes df) 1) as (curr_close & Hcc & Icc); [lia |].
  destruct (iloc_neg_ok ema50 1) as (curr_ema50 & Hce & Ice); [lia |].
  rewrite Lmacd in Hcm, Hpm. rewrite Lsignal in Hcs, Hps.
  rewrite Lclose in Hcc. rewrite Lema in Hce.
  exists prev_macd, prev_signal, curr_macd, curr_signal, curr_close, curr_ema50.
  repeat (split; [assumption |]).
  split; [unfold Frame.closes in Hcc; now rewrite list_lookup_fmap in Hcc |].
  split; [exact Hce |].
  assert (calculate_trigger df
          = Ok (if (prev_macd <=? prev_signal)%float && (curr_macd >? curr_signal)%float
                   && (curr_close >? curr_ema50)%float
                then BUY else HOLD)) as Hrun.
  { unfold calculate_trigger. rewrite long_frame by (lia || exact Hlen).
    unfold mbind, result_bind. rewrite Hmacd, Hsignal, Hema.
    fold macd signal ema50. rewrite Icm, Ipm, Ics, Ips, Ice.
    unfold Frame.closes at 1. rewrite Hrows. fold (Frame.closes df). rewrite Icc.
    now destruct ((prev_macd <=? prev_signal)%float && (curr_macd >? curr_signal)%float
                  && (curr_close >? curr_ema50)%float). }
  rewrite Hrun. split.
  - destruct (prev_macd <=? prev_signal)%float, (curr_macd >? curr_signal)%float,
      (curr_close >? curr_ema50)%float; simpl; split;
      (intros (? & ? & ?) || intros ?); try discriminate; auto.
  - intros [-> | [-> | ->]]; simpl; [reflexivity | |].
    + now rewrite andb_false_r.
    + now rewrite andb_false_r.
Qed.

End EngineProofs.

(** ** core/backtester.py *)

Section BacktesterProofs.
Import Backtester.

Lemma close_position_closed (bt : Backtester) (pos : Position)
    (price : float) (timestamp : Z) (reason : string) :
  position bt = Some pos ->
  close_position price timestamp reason bt
  = (Ok tt, closed bt pos price timestamp reason).
Proof.
  intros Hpos. unfold close_position, the_position, set_balance, append_trade,
    set_position. unfold_m. now rewrite Hpos.
Qed.

Lemma check_exit_decision (bt : Backtester) (pos : Position) (candle : Candle) :
  position bt = Some pos ->
  check_exit candle bt
  = (Ok tt, match exit_decision pos candle with
            | Some (price, reason) => closed bt pos price (timestamp candle) reason
            | None => bt
            end).
Proof.
  intros Hpos. unfold check_exit, exit_decision, the_position.
  unfold mbind, M_bind, get at 1, mret, M_ret, raise. rewrite Hpos.
  destruct (low candle <=? pos_sl pos)%float.
  - now apply close_position_closed.
  - destruct (high candle >=? pos_tp pos)%float; [| reflexivity].
    now apply close_position_closed.
Qed.

(** With a position open, the loop body is the exit check followed by the
    entry branch and the equity point. *)
Lemma step_exit_first (df : DataFrame) (i : nat)
    (row : Candle * (string -> option float)) (bt : Backtester) (pos : Position) :
  Frame.iloc df i = Ok row -> position bt = Some pos ->
  step df i bt = (check_exit row.1;; after_exit df i row) bt.
Proof.
  intros Hrow Hpos. unfold step, after_exit, has_position.
  unfold mbind, M_bind, lift, get at 1, mret at 1, M_ret at 1.
  rewrite Hrow, Hpos. reflexivity.
Qed.

(** Neither the entry branch nor the equity point touches the trades. *)
Lemma after_exit_trades (df : DataFrame) (i : nat)
    (row : Candle * (string -> option float)) (bt bt' : Backtester) (r : result unit) :
  after_exit df i row bt = (r, bt') -> trades bt' = trades bt.
Proof.
  unfold after_exit, has_position, check_entry, open_position, set_position,
    append_equity. unfold_m.
  repeat case_match; intros Heq; simplify_eq; reflexivity.
Qed.

(** C6: with a position open, the loop body runs the exit check on the
    current candle before the entry branch; the exit check tests the stop-loss
    first, so a candle whose low is at or below the stop closes the position
    at the stop price with reason "SL", also when its high reaches the target;
    the take-profit applies only when the stop-loss does not. *)
Theorem exit_first_stop_loss_first (df : DataFrame) (i : nat)
    (row : Candle * (string -> option float)) (bt : Backtester) (pos : Position) :
  Frame.iloc df i = Ok row -> position bt = Some pos ->
  step df i bt = (check_exit row.1;; after_exit df i row) bt /\
  ((low row.1 <=? pos_sl pos)%float = true ->
     check_exit row.1 bt
     = (Ok tt, closed bt pos (pos_sl pos) (timestamp row.1) "SL") /\
     exists (r : result unit) (bt' : Backtester),
       step df i bt = (r, bt') /\
       trades bt' = trades bt
                    ++ [closed_trade bt pos (pos_sl pos) (timestamp row.1) "SL"]) /\
  ((low row.1 <=? pos_sl pos)%float = false ->
   (high row.1 >=? pos_tp pos)%float = true ->
     check_exit row.1 bt
     = (Ok tt, closed bt pos (pos_tp pos) (timestamp row.1) "TP")) /\
  ((low row.1 <=? pos_sl pos)%float = false ->
   (high row.1 >=? pos_tp pos)%float = false ->
     check_exit row.1 bt = (Ok tt, bt)).
Proof.
  intros Hrow Hpos.
  pose proof (step_exit_first df i row bt pos Hrow Hpos) as Hstep.
  pose proof (check_exit_decision bt pos row.1 Hpos) as Hexit.
  unfold exit_decision in Hexit.
  split; [exact Hstep |]. split; [| split].
  - intros Hsl. rewrite Hsl in Hexit. split; [exact Hexit |].
    rewrite Hstep. unfold mbind, M_bind. rewrite Hexit.
    destruct (after_exit df i row (closed bt pos (pos_sl pos) (timestamp row.1) "SL"))
      as [r bt'] eqn:Hrest.
    exists r, bt'. split.
    + now destruct r.
    + now rewrite (after_exit_trades _ _ _ _ _ _ Hrest).
  - intros Hsl Htp. now rewrite Hsl, Htp in Hexit.
  - intros Hsl Htp. now rewrite Hsl, Htp in Hexit.
Qed.

Lemma exit_first_stop_loss_first_witness :
  let bt := Samples.holding in
  let pos := opened_position (Samples.bar 50 100) 1 in
  let candle := Samples.candle_at 52 97 100 99 in
  check_exit candle bt = (Ok tt, closed bt pos 98 (timestamp candle) "SL") /\
  exists (r : result unit) (bt' : Backtester),
    step Samples.dip_frame 52 bt = (r, bt') /\
    trades bt' = trades bt ++ [closed_trade bt pos 98 (timestamp candle) "SL"].
Proof.
  intros bt pos candle.
  set (row := (candle, Frame.cells_at Samples.dip_frame 52)).
  assert (Frame.iloc Samples.dip_frame 52 = Ok row) as Hrow by reflexivity.
  assert (position bt = Some pos) as Hpos by (vm_compute; reflexivity).
  destruct (exit_first_stop_loss_first Samples.dip_frame 52 row bt pos Hrow Hpos)
    as (_ & Hsl & _).
  apply Hsl. vm_compute. reflexivity.
Defined.

(** The entry branch on a flat backtester, when the cells are there and the
    entry rule holds: [open_position] decides on the size. *)
Lemma after_exit_flat (df : DataFrame) (i : nat)
    (row prev : Candle * (string -> option float)) (bt : Backtester)
    (prev_macd prev_signal macd signal ema50 : float) :
  position bt = None ->
  Frame.iloc df (i - 1) = Ok prev ->
  Frame.cell row "MACD_12_26_9" = Ok macd ->
  Frame.cell row "MACDs_12_26_9" = Ok signal ->
  Frame.cell prev "MACD_12_26_9" = Ok prev_macd ->
  Frame.cell prev "MACDs_12_26_9" = Ok prev_signal ->
  Frame.cell row "EMA_50" = Ok ema50 ->
  entry_signal prev_macd prev_signal macd signal (close row.1) ema50 = true ->
  let size := position_size (balance bt) (close row.1) in
  after_exit df i row bt
  = (Ok tt,
     with_equity_point
       (if (size <=? 0)%float then bt
        else with_position bt (Some (opened_position row.1 size)))
       (timestamp row.1)).
Proof.
  intros Hpos Hprev Hm Hs Hpm Hps He Hsig size.
  unfold after_exit, has_position, check_entry.
  unfold mbind, M_bind, lift, get at 1, mret at 1, M_ret at 1.
  rewrite Hpos, Hprev, Hm, Hs, Hpm, Hps, He.
  replace (bool_decide (is_Some (@None Position))) with false by reflexivity.
  change (negb false) with true. cbv iota beta.
  unfold entry_signal in Hsig. rewrite Hsig.
  unfold open_position, set_position, append_equity. unfold_m. fold size.
  destruct (size <=? 0)%float; [| reflexivity].
  destruct bt; reflexivity.
Qed.

(** C10, as the code has it: when the open position exits on candle [i] and
    the entry rule holds on the same candle, the entry branch runs on the
    flat backtester the exit left; it opens a position dated at candle [i]
    unless the size computed from the balance after the exit and the close of
    candle [i] is [<= 0], in which case the backtester stays flat. The
    exited trade is recorded in both cases and one position at most is
    held. *)
Theorem reentry_on_exit_bar (df : DataFrame) (i : nat)
    (row prev : Candle * (string -> option float)) (bt : Backtester) (pos : Position)
    (price : float) (reason : string)
    (prev_macd prev_signal macd signal ema50 : float) :
  Frame.iloc df i = Ok row ->
  Frame.iloc df (i - 1) = Ok prev ->
  Frame.cell row "MACD_12_26_9" = Ok macd ->
  Frame.cell row "MACDs_12_26_9" = Ok signal ->
  Frame.cell prev "MACD_12_26_9" = Ok prev_macd ->
  Frame.cell prev "MACDs_12_26_9" = Ok prev_signal ->
  Frame.cell row "EMA_50" = Ok ema50 ->
  position bt = Some pos ->
  exit_decision pos row.1 = Some (price, reason) ->
  entry_signal prev_macd prev_signal macd signal (close row.1) ema50 = true ->
  let flat := closed bt pos price (timestamp row.1) reason in
  let size := position_size (balance flat) (close row.1) in
  exists bt' : Backtester,
    step df i bt = (Ok tt, bt') /\
    trades bt' = trades bt ++ [closed_trade bt pos price (timestamp row.1) reason] /\
    ((size <=? 0)%float = false ->
       position bt' = Some (opened_position row.1 size) /\
       pos_entry_time (opened_position row.1 size) = timestamp row.1) /\
    ((size <=? 0)%float = true -> position bt' = None).
Proof.
  intros Hrow Hprev Hm Hs Hpm Hps He Hpos Hexit Hsig flat size.
  rewrite (step_exit_first df i row bt pos Hrow Hpos).
  unfold mbind, M_bind. rewrite (check_exit_decision bt pos row.1 Hpos), Hexit.
  fold flat.
  rewrite (after_exit_flat df i row prev flat prev_macd prev_signal macd signal ema50)
    by (assumption || reflexivity).
  fold size. eexists. split; [reflexivity |].
  destruct (size <=? 0)%float; simpl; repeat split; try reflexivity; discriminate.
Qed.

Lemma reentry_on_exit_bar_witness :
  let df := Samples.dip_frame in
  let bt := Samples.holding in
  let pos := opened_position (Samples.bar 50 100) 1 in
  let candle := Samples.candle_at 52 97 100 99 in
  let flat := closed bt pos 98 (timestamp candle) "SL" in
  let size := position_size (balance flat) (close candle) in
  for_each (seq 50 2) (step df) (__init__ "BTC/USDT" 100) = (Ok tt, bt) /\
  exists bt' : Backtester,
    step df 52 bt = (Ok tt, bt') /\
    trades bt' = trades bt ++ [closed_trade bt pos 98 (timestamp candle) "SL"] /\
    ((size <=? 0)%float = false ->
       position bt' = Some (opened_position candle size) /\
       pos_entry_time (opened_position candle size) = timestamp candle) /\
    ((size <=? 0)%float = true -> position bt' = None).
Proof.
  intros df bt pos candle flat size.
  set (row := (candle, Frame.cells_at df 52)).
  set (prev := (Samples.candle_at 51 99 101 100,
                Frame.cells_at df 51)).
  split; [vm_compute; reflexivity |].
  apply (reentry_on_exit_bar df 52 row prev bt pos 98 "SL" 0.9 1 1.1 1 90);
    [reflexivity | reflexivity | vm_compute; reflexivity ..].
Defined.

(** C10, as the claim has it, fails on a collapsed bar: the position opened at
    row 50 is stopped out on the candle of row 52, the entry rule holds on
    that candle, and the backtester is flat after the step, since the size
    computed for a close of 0 is 0. *)
Lemma reentry_refused_on_collapsed_bar :
  let df := Samples.collapse_frame in
  let bt := Samples.holding in
  let pos := opened_position (Samples.bar 50 100) 1 in
  let candle := Samples.candle_at 52 0 0 0 in
  let row := (candle, Frame.cells_at df 52) in
  let prev := (Samples.candle_at 51 99 101 100,
               Frame.cells_at df 51) in
  for_each (seq 50 2) (step df) (__init__ "BTC/USDT" 100) = (Ok tt, bt) /\
  position bt = Some pos /\
  Frame.iloc df 52 = Ok row /\
  Frame.iloc df 51 = Ok prev /\
  exit_decision pos candle = Some (98%float, "SL") /\
  Frame.cell prev "MACD_12_26_9" = Ok 0.9%float /\
  Frame.cell prev "MACDs_12_26_9" = Ok 1%float /\
  Frame.cell row "MACD_12_26_9" = Ok 1.1%float /\
  Frame.cell row "MACDs_12_26_9" = Ok 1%float /\
  Frame.cell row "EMA_50" = Ok (-1)%float /\
  entry_signal 0.9 1 1.1 1 (close candle) (-1) = true /\
  position_size 98 (close candle) = 0%float /\
  exists bt' : Backtester,
    step df 52 bt = (Ok tt, bt') /\
    trades bt' = [closed_trade bt pos 98 (timestamp candle) "SL"] /\
    balance bt' = 98%float /\
    position bt' = None.
Proof.
  intros df bt pos candle row prev.
  split; [vm_compute; reflexivity |].
  split; [reflexivity |].
  split; [reflexivity |].
  split; [reflexivity |].
  repeat (split; [vm_compute; reflexivity |]).
  eexists. split; [vm_compute; reflexivity |].
  repeat split; vm_compute; reflexivity.
Qed.

(** A round trip on the frame with a dip: the cross at row 50 opens a
    position at that candle's close, and the candle of row 52, whose low is
    below 98% of the entry, closes it at the stop with a loss. *)
Theorem round_trip_stop_loss :
  let after_entry := (for_each (seq 50 1) (step Samples.dip_frame)
                        (__init__ "BTC/USDT" 100)).2 in
  let after_exit := (check_exit (Samples.candle_at 52 97 100 99) Samples.holding).2 in
  position after_entry = Some (opened_position (Samples.bar 50 100) 1) /\
  pos_entry_price (opened_position (Samples.bar 50 100) 1) = 100%float /\
  trades after_exit
  = [ {| trade_symbol := "BTC/USDT"; trade_entry_time := 180000;
         trade_exit_time := 187200; trade_entry_price := 100;
         trade_exit_price := 98; trade_pnl := -2; trade_reason := "SL" |} ] /\
  (-2 <? 0)%float = true.
Proof. repeat split; vm_compute; reflexivity. Qed.

(** The drawdown of the equity sequence 100, 110, 90, 95 from a starting
    balance of 100 is the drop from the peak 110 to 90, in percent of the
    peak. *)
Theorem drawdown_of_sample_curve :
  drawdown_loop
    [ {| point_timestamp := 0; point_equity := 100 |};
      {| point_timestamp := 3600; point_equity := 110 |};
      {| point_timestamp := 7200; point_equity := 90 |};
      {| point_timestamp := 10800; point_equity := 95 |} ] 100 0
  = ((110 - 90) / 110 * 100)%float.
Proof. vm_compute. reflexivity. Qed.

(** C5: the report of a backtester without trades has the keys roi,
    win_rate, drawdown and trades and no final_balance, whereas the report of
    one with trades has all five, final_balance being the balance; a run over
    59 falling closes from a balance of 100 ends without a trade and returns
    the four-key report. *)
Theorem report_without_trades_lacks_final_balance :
  (forall bt : Backtester,
     trades bt = [] ->
     exists report : Report,
       generate_report bt = (Ok report, bt) /\
       report !! "roi" = Some (PFloat 0) /\
       report !! "win_rate" = Some (PFloat 0) /\
       report !! "drawdown" = Some (PFloat 0) /\
       report !! "trades" = Some (PInt 0) /\
       report !! "final_balance" = None) /\
  (forall bt : Backtester,
     trades bt <> [] ->
     exists (report : Report) (roi win_rate drawdown : float),
       generate_report bt = (Ok report, bt) /\
       report !! "roi" = Some (PFloat roi) /\
       report !! "win_rate" = Some (PFloat win_rate) /\
       report !! "drawdown" = Some (PFloat drawdown) /\
       report !! "trades" = Some (PInt (Z.of_nat (length (trades bt)))) /\
       report !! "final_balance" = Some (PFloat (balance bt))) /\
  (let outcome := run (H := sample_ta) Samples.falling (__init__ "BTC/USDT" 100) in
   trades outcome.2 = [] /\
   balance outcome.2 = 100%float /\
   report_get outcome.1 "trades" = Ok (Some (PInt 0)) /\
   report_get outcome.1 "final_balance" = Ok None).
Proof.
  split; [| split]; [intros bt Htrades | intros bt Htrades |].
  - eexists. unfold generate_report. unfold_m. rewrite Htrades. simpl.
    split; [reflexivity |]. repeat split; vm_compute; reflexivity.
  - destruct (trades bt) as [| t rest] eqn:Heq; [contradiction |].
    unfold generate_report. unfold_m. rewrite Heq.
    change (Nat.eqb (length (t :: rest)) 0) with false. cbv iota.
    do 4 eexists. split; [reflexivity |].
    repeat split; vm_compute; reflexivity.
  - repeat split; vm_compute; reflexivity.
Qed.

End BacktesterProofs.

(** ** The theorems on the sample inputs *)

Section Witnesses.
Import Engine Signals.

Lemma short_series_neutral_witness :
  calculate_trend (H := sample_ta) (Frame.of_candles Samples.falling) = Ok NEUTRAL /\
  calculate_momentum (H := sample_ta) (Frame.of_candles (take 13 Samples.falling))
  = Ok NEUTRAL /\
  calculate_trigger (H := sample_ta) (Frame.of_candles (take 49 Samples.falling))
  = Ok HOLD.
Proof.
  split; [| split].
  - destruct (short_series_neutral (H := sample_ta) (Frame.of_candles Samples.falling))
      as (Htrend & _).
    apply Htrend. vm_compute. lia.
  - destruct (short_series_neutral (H := sample_ta)
                (Frame.of_candles (take 13 Samples.falling))) as (_ & Hmomentum & _).
    apply Hmomentum. vm_compute. lia.
  - destruct (short_series_neutral (H := sample_ta)
                (Frame.of_candles (take 49 Samples.falling))) as (_ & _ & Htrigger & _).
    apply Htrigger. vm_compute. lia.
Defined.

Lemma trigger_buy_iff_witness :
  let df := Frame.of_candles Samples.rebound in
  let n := Frame.len df in
  let macd := macd_line (PandasTA := sample_ta) 12 26 9 (Frame.closes df) in
  let signal := macd_signal (PandasTA := sample_ta) 12 26 9 (Frame.closes df) in
  let ema50 := ema (PandasTA := sample_ta) 50 (Frame.closes df) in
  exists prev_macd prev_signal curr_macd curr_signal curr_close curr_ema50 : float,
    macd !! (n - 2)%nat = Some prev_macd /\
    signal !! (n - 2)%nat = Some prev_signal /\
    macd !! (n - 1)%nat = Some curr_macd /\
    signal !! (n - 1)%nat = Some curr_signal /\
    close <$> rows df !! (n - 1)%nat = Some curr_close /\
    ema50 !! (n - 1)%nat = Some curr_ema50 /\
    (calculate_trigger (H := sample_ta) df = Ok BUY <->
       (prev_macd <=? prev_signal)%float = true /\
       (curr_macd >? curr_signal)%float = true /\
       (curr_close >? curr_ema50)%float = true) /\
    ((prev_macd <=? prev_signal)%float = false \/
     (curr_macd >? curr_signal)%float = false \/
     (curr_close >? curr_ema50)%float = false ->
     calculate_trigger (H := sample_ta) df = Ok HOLD).
Proof.
  intros df. apply (trigger_buy_iff (H := sample_ta) df). vm_compute. lia.
Defined.

Lemma package_trade_validates_witness :
  (exists msg,
     package_trade (H := sample_builtins) "2024-01-01T00:00:00"
       (<["side" := PStr "LONG"]> sample_trade) []
     = (Raise (ValueError msg), [])) /\
  (exists msg,
     package_trade (H := sample_builtins) "2024-01-01T00:00:00"
       (<["size" := PFloat 0]> sample_trade) []
     = (Raise (ValueError msg), [])).
Proof.
  destruct (package_trade_validates (H := sample_builtins) "2024-01-01T00:00:00" [])
    as (Hside & Hsize & _).
  split.
  - apply Hside. vm_compute. reflexivity.
  - apply Hsize; try (vm_compute; exact I). right. vm_compute. reflexivity.
Defined.

End Witnesses.

(** ** core/guards.py, the liquidity guard *)

Section LiquidityProofs.
Import Liquidity.

Ltac unfold_attempt :=
  unfold mbind, mret, attempt_bind, attempt_ret, item, getkey, of_result, index in *.

Section Guarded.
Context {summation : PySum}.

(** The answer of [check] once the book has arrived with both sides. *)
Lemma check_on_book (self : LiquidityGuard) (symbol : string) (book : OrderBook)
    (bids asks : list (list float)) :
  fetch_order_book self symbol = Done book ->
  book !! "bids" = Some bids -> book !! "asks" = Some asks ->
  check self symbol
  = match bids, asks with
    | (best_bid :: _) :: _, (best_ask :: _) :: _ =>
        if (best_bid =? 0)%float then false
        else if ((best_ask - best_bid) / best_bid >? max_spread_pct self)%float then false
        else match notionals (take 5 bids) with
             | Done terms => negb (float_sum terms <? min_depth_usdt self)%float
             | Failed _ => false
             end
    | _, _ => false
    end.
Proof.
  intros Hfetch Hbids Hasks. unfold check, check_body. unfold_attempt.
  rewrite Hfetch, Hbids.
  destruct bids as [| [| best_bid bid_tail] bid_rest]; simpl.
  - reflexivity.
  - rewrite Hasks. destruct asks as [| ask ask_rest]; reflexivity.
  - rewrite Hasks. destruct asks as [| [| best_ask ask_tail] ask_rest]; simpl;
      try reflexivity.
    unfold truediv. destruct (best_bid =? 0)%float; [reflexivity |].
    destruct ((best_ask - best_bid) / best_bid >? max_spread_pct self)%float;
      [reflexivity |].
    change (match bid_tail with
            | [] => Failed (Builtin IndexError)
            | amount :: _ => Done (best_bid * amount)%float
            end) with (notional (best_bid :: bid_tail)).
    destruct (notional (best_bid :: bid_tail)) as [x | r]; [| reflexivity].
    destruct (notionals (take 4 bid_rest)) as [xs | r]; [| reflexivity].
    simpl. now destruct (float_sum (x :: xs) <? min_depth_usdt self)%float.
Qed.

(** The guard fails closed: it answers [False] when the exchange call raises,
    when the book lacks a side or a side is empty, when the best level of a
    side is empty, and when the best bid is zero (the spread then divides by
    zero). *)
Theorem liquidity_fails_closed (self : LiquidityGuard) (symbol : string) :
  (forall r, fetch_order_book self symbol = Failed r -> check self symbol = false) /\
  (forall book,
     fetch_order_book self symbol = Done book ->
     book !! "bids" = None \/ book !! "bids" = Some [] \/
     book !! "asks" = None \/ book !! "asks" = Some [] ->
     check self symbol = false) /\
  (forall book bids asks,
     fetch_order_book self symbol = Done book ->
     book !! "bids" = Some bids -> book !! "asks" = Some asks ->
     head bids = Some [] \/ head asks = Some [] ->
     check self symbol = false) /\
  (forall book bids asks best_bid,
     fetch_order_book self symbol = Done book ->
     book !! "bids" = Some bids -> book !! "asks" = Some asks ->
     head bids ≫= head = Some best_bid -> (best_bid =? 0)%float = true ->
     check self symbol = false).
Proof.
  repeat apply conj.
  - intros r Hfetch. unfold check, check_body. unfold_attempt. now rewrite Hfetch.
  - intros book Hfetch Hside.
    destruct (book !! "bids") as [bids |] eqn:Hbids.
    + destruct (book !! "asks") as [asks |] eqn:Hasks.
      * rewrite (check_on_book self symbol book bids asks Hfetch Hbids Hasks).
        destruct Hside as [H | [H | [H | H]]]; simplify_eq; try reflexivity.
        now destruct bids as [| [| ? ?] ?].
      * unfold check, check_body. unfold_attempt. rewrite Hfetch, Hbids, Hasks.
        now destruct (bool_decide (bids = [])).
    + unfold check, check_body. unfold_attempt. now rewrite Hfetch, Hbids.
  - intros book bids asks Hfetch Hbids Hasks Hlevel.
    rewrite (check_on_book self symbol book bids asks Hfetch Hbids Hasks).
    destruct bids as [| [| best_bid bid_tail] bid_rest]; try reflexivity.
    destruct asks as [| [| best_ask ask_tail] ask_rest]; try reflexivity.
    destruct Hlevel as [H | H]; discriminate.
  - intros book bids asks best_bid Hfetch Hbids Hasks Hbest Hzero.
    rewrite (check_on_book self symbol book bids asks Hfetch Hbids Hasks).
    destruct bids as [| [| b bid_tail] bid_rest]; try discriminate.
    simpl in Hbest. injection Hbest as ->.
    destruct asks as [| [| best_ask ask_tail] ask_rest]; try reflexivity.
    now rewrite Hzero.
Qed.

(** The guard reads the top of the book only: the best ask level and the
    first five bid levels. Deeper bids and further asks do not change its
    answer. *)
Theorem liquidity_reads_top_of_book (self self' : LiquidityGuard) (symbol : string)
    (book book' : OrderBook) (bids more_bids asks more_asks : list (list float))
    (best_ask : list float) :
  max_spread_pct self' = max_spread_pct self ->
  min_depth_usdt self' = min_depth_usdt self ->
  fetch_order_book self symbol = Done book ->
  book !! "bids" = Some bids ->
  book !! "asks" = Some (best_ask :: asks) ->
  (5 <= length bids)%nat ->
  fetch_order_book self' symbol = Done book' ->
  book' !! "bids" = Some (bids ++ more_bids) ->
  book' !! "asks" = Some (best_ask :: more_asks) ->
  check self' symbol = check self symbol.
Proof.
  intros Hmax Hmin Hfetch Hbids Hasks Hlen Hfetch' Hbids' Hasks'.
  rewrite (check_on_book self symbol book _ _ Hfetch Hbids Hasks).
  rewrite (check_on_book self' symbol book' _ _ Hfetch' Hbids' Hasks').
  rewrite Hmax, Hmin, take_app_le by exact Hlen.
  destruct bids as [| level rest]; [simpl in Hlen; lia |]. reflexivity.
Qed.

End Guarded.

Lemma liquidity_fails_closed_witness :
  let dead := __init__ (fun _ => Failed (External "NetworkError")) None None in
  let book : OrderBook :=
    <["bids" := [[0; 3]%float]]> (<["asks" := [[101; 2]%float]]> ∅) in
  let zero_bid := __init__ (fun _ => Done book) None None in
  check (H := sample_sum) dead "BTC/USDT" = false /\
  check (H := sample_sum) zero_bid "BTC/USDT" = false.
Proof.
  intros dead book zero_bid. split.
  - destruct (liquidity_fails_closed (summation := sample_sum) dead "BTC/USDT") as (Hraise & _).
    apply (Hraise (External "NetworkError")). reflexivity.
  - destruct (liquidity_fails_closed (summation := sample_sum) zero_bid "BTC/USDT") as (_ & _ & _ & Hzero).
    apply (Hzero book [[0; 3]%float] [[101; 2]%float] 0%float);
      vm_compute; reflexivity.
Defined.

Lemma liquidity_reads_top_of_book_witness :
  let bids := [[100; 3]; [99; 3]; [98; 3]; [97; 3]; [96; 3]]%float in
  let book : OrderBook :=
    <["bids" := bids]> (<["asks" := [[100.2; 2]%float]]> ∅) in
  let deep : OrderBook :=
    <["bids" := bids ++ [[1; 1000000]%float]]>
      (<["asks" := [[100.2; 2]; [500; 1]]%float]> ∅) in
  check (H := sample_sum) (__init__ (fun _ => Done deep) None None) "BTC/USDT"
  = check (H := sample_sum) (__init__ (fun _ => Done book) None None) "BTC/USDT".
Proof.
  intros bids book deep.
  apply (liquidity_reads_top_of_book (summation := sample_sum) _ _ "BTC/USDT" book deep bids
           [[1; 1000000]%float] [] [[500; 1]%float] [100.2; 2]%float);
    try reflexivity.
Defined.

End LiquidityProofs.

(** ** core/engine.py, the three tiers together *)

Section TierProofs.
Import Engine.
Context `{PandasTA}.

Lemma closes_length (df : DataFrame) : length (Frame.closes df) = Frame.len df.
Proof. unfold Frame.closes, Frame.len. now rewrite length_map. Qed.

(** The value of the trend tier on a long enough series. *)
Lemma calculate_trend_value (df : DataFrame) :
  (200 <= Frame.len df)%nat ->
  exists last_close last_ema200 : float,
    Frame.closes df !! (Frame.len df - 1)%nat = Some last_close /\
    ema 200 (Frame.closes df) !! (Frame.len df - 1)%nat = Some last_ema200 /\
    calculate_trend df
    = Ok (if (last_close >? last_ema200)%float then BULLISH
          else if (last_close <? last_ema200)%float then BEARISH
          else NEUTRAL).
Proof.
  intros Hlen.
  assert (length (ema 200 (Frame.closes df)) = Frame.len df) as Lema
    by (rewrite ema_aligned; rewrite closes_length; [reflexivity | exact Hlen]).
  destruct (iloc_neg_ok (Frame.closes df) 1) as (c & Hc & Ic);
    [rewrite closes_length; lia |].
  destruct (iloc_neg_ok (ema 200 (Frame.closes df)) 1) as (e & He & Ie); [lia |].
  rewrite closes_length in Hc. rewrite Lema in He.
  exists c, e. split; [exact Hc |]. split; [exact He |].
  unfold calculate_trend. rewrite long_frame by (lia || exact Hlen).
  unfold Frame.ta_ema.
  replace (Nat.leb 200 (Frame.len df)) with true
    by (symmetry; apply Nat.leb_le; exact Hlen).
  replace ("EMA_" +:+ pretty 200%nat) with "EMA_200" by (vm_compute; reflexivity).
  unfold Frame.column, Frame.append. cbn [rows ta_columns].
  rewrite lookup_insert_eq.
  change (Frame.closes {| rows := rows df;
                          ta_columns := <["EMA_200" := ema 200 (Frame.closes df)]>
                                          (ta_columns df) |})
    with (Frame.closes df).
  unfold mbind, result_bind. rewrite Ic, Ie.
  now destruct (c >? e)%float, (c <? e)%float.
Qed.

(** The value of the momentum tier on a long enough series. *)
Lemma calculate_momentum_value (df : DataFrame) :
  (14 <= Frame.len df)%nat ->
  exists last_rsi : float,
    rsi 14 (Frame.closes df) !! (Frame.len df - 1)%nat = Some last_rsi /\
    calculate_momentum df
    = Ok (if (last_rsi >? 50)%float then BULLISH
          else if (last_rsi <? 50)%float then BEARISH
          else NEUTRAL).
Proof.
  intros Hlen.
  assert (length (rsi 14 (Frame.closes df)) = Frame.len df) as Lrsi
    by (rewrite rsi_aligned; rewrite closes_length; [reflexivity | exact Hlen]).
  destruct (iloc_neg_ok (rsi 14 (Frame.closes df)) 1) as (r & Hr & Ir); [lia |].
  rewrite Lrsi in Hr. exists r. split; [exact Hr |].
  unfold calculate_momentum. rewrite long_frame by (lia || exact Hlen).
  unfold Frame.ta_rsi.
  replace (Nat.leb 14 (Frame.len df)) with true
    by (symmetry; apply Nat.leb_le; exact Hlen).
  replace ("RSI_" +:+ pretty 14%nat) with "RSI_14" by (vm_compute; reflexivity).
  unfold Frame.column, Frame.append. cbn [rows ta_columns].
  rewrite lookup_insert_eq. unfold mbind, result_bind. rewrite Ir.
  now destruct (r >? 50)%float, (r <? 50)%float.
Qed.

(** The trigger tier returns on every series, with BUY or HOLD. *)
Lemma calculate_trigger_returns (df : DataFrame) :
  calculate_trigger df = Ok BUY \/ calculate_trigger df = Ok HOLD.
Proof.
  destruct (Nat.lt_ge_cases (Frame.len df) 50) as [Hshort | Hlen].
  - right. unfold calculate_trigger. now rewrite short_frame.
  - destruct (trigger_columns df Hlen) as (Hrows & Hmacd & Hsignal & Hema).
    set (macd := macd_line 12 26 9 (Frame.closes df)) in *.
    set (signal := macd_signal 12 26 9 (Frame.closes df)) in *.
    set (ema50 := ema 50 (Frame.closes df)) in *.
    pose proof (closes_length df) as Lclose.
    assert (length macd = Frame.len df) as Lmacd.
    { unfold macd. rewrite macd_line_aligned; [exact Lclose |].
      rewrite Lclose. simpl. lia. }
    assert (length signal = Frame.len df) as Lsignal.
    { unfold signal. rewrite macd_signal_aligned; [exact Lclose |].
      rewrite Lclose. simpl. lia. }
    assert (length ema50 = Frame.len df) as Lema.
    { unfold ema50. rewrite ema_aligned; [exact Lclose |]. now rewrite Lclose. }
    destruct (iloc_neg_ok macd 1) as (cm & _ & Icm); [lia |].
    destruct (iloc_neg_ok macd 2) as (pm & _ & Ipm); [lia |].
    destruct (iloc_neg_ok signal 1) as (cs & _ & Ics); [lia |].
    destruct (iloc_neg_ok signal 2) as (ps & _ & Ips); [lia |].
    destruct (iloc_neg_ok (Frame.closes df) 1) as (cc & _ & Icc); [lia |].
    destruct (iloc_neg_ok ema50 1) as (ce & _ & Ice); [lia |].
    assert (calculate_trigger df
            = Ok (if (pm <=? ps)%float && (cm >? cs)%float && (cc >? ce)%float
                  then BUY else HOLD)) as ->.
    { unfold calculate_trigger. rewrite long_frame by (lia || exact Hlen).
      unfold mbind, result_bind.
      rewrite Hmacd, Hsignal, Hema, Icm, Ipm, Ics, Ips, Ice.
      unfold Frame.closes at 1. rewrite Hrows. fold (Frame.closes df). rewrite Icc.
      now destruct ((pm <=? ps)%float && (cm >? cs)%float && (cc >? ce)%float). }
    destruct ((pm <=? ps)%float && (cm >? cs)%float && (cc >? ce)%float); auto.
Qed.

Lemma calculate_trend_returns (df : DataFrame) :
  exists v, calculate_trend df = Ok v /\ (v = BULLISH \/ v = BEARISH \/ v = NEUTRAL).
Proof.
  destruct (Nat.lt_ge_cases (Frame.len df) 200) as [Hshort | Hlen].
  - exists NEUTRAL. split; [| auto]. unfold calculate_trend. now rewrite short_frame.
  - destruct (calculate_trend_value df Hlen) as (c & e & _ & _ & ->).
    eexists. split; [reflexivity |].
    destruct (c >? e)%float, (c <? e)%float; auto.
Qed.

Lemma calculate_momentum_returns (df : DataFrame) :
  exists v, calculate_momentum df = Ok v /\ (v = BULLISH \/ v = BEARISH \/ v = NEUTRAL).
Proof.
  destruct (Nat.lt_ge_cases (Frame.len df) 14) as [Hshort | Hlen].
  - exists NEUTRAL. split; [| auto]. unfold calculate_momentum. now rewrite short_frame.
  - destruct (calculate_momentum_value df Hlen) as (r & _ & ->).
    eexists. split; [reflexivity |].
    destruct (r >? 50)%float, (r <? 50)%float; auto.
Qed.



End TierProofs.

(** ** core/engine.py, reading the candle table *)

Section CandleProofs.
Import Candles.

#[local] Instance newer_first_trans : Transitive newer_first.
Proof. intros a b c. unfold newer_first. lia. Qed.

#[local] Instance newer_first_total : Total newer_first.
Proof. intros a b. unfold newer_first. lia. Qed.

#[local] Instance older_first_trans : Transitive older_first.
Proof. intros a b c. unfold older_first. lia. Qed.

#[local] Instance older_first_total : Total older_first.
Proof. intros a b. unfold older_first. lia. Qed.

(** The rows of the frame, whether or not the query found any. *)
Lemma get_candles_df_rows (table : list CandleRow) (symbol interval : string)
    (limit : nat) :
  get_candles_df table symbol interval limit
  = Frame.of_candles
      (merge_sort older_first
         (row_candle <$> take limit
            (merge_sort newer_first (filter (matches symbol interval) table)))).
Proof.
  unfold get_candles_df.
  now destruct (take limit (merge_sort newer_first (filter (matches symbol interval) table))).
Qed.

(** Equal images under a function without repetitions on a list. *)
Lemma NoDup_fmap_eq {A B} (f : A -> B) (l : list A) (x y : A) :
  NoDup (f <$> l) -> x ∈ l -> y ∈ l -> f x = f y -> x = y.
Proof.
  induction l as [| a l IH]; intros Hnd Hx Hy Heq; [inversion Hx |].
  rewrite fmap_cons in Hnd. apply NoDup_cons in Hnd as [Hnotin Hnd].
  apply elem_of_cons in Hx as [-> | Hx]; apply elem_of_cons in Hy as [-> | Hy].
  - reflexivity.
  - exfalso. apply Hnotin. rewrite Heq. now apply list_elem_of_fmap_2.
  - exfalso. apply Hnotin. rewrite <- Heq. now apply list_elem_of_fmap_2.
  - now apply IH.
Qed.

(** A list sorted by time without repeated timestamps is strictly sorted. *)
Lemma older_first_strict (l : list Candle) :
  StronglySorted older_first l -> NoDup (timestamp <$> l) ->
  StronglySorted (fun a b => timestamp a < timestamp b) l.
Proof.
  induction 1 as [| c l Hsorted IH Hall]; intros Hnd; constructor.
  - apply IH. rewrite fmap_cons in Hnd. now apply NoDup_cons in Hnd as [_ Hnd].
  - rewrite fmap_cons in Hnd. apply NoDup_cons in Hnd as [Hnotin _].
    rewrite Forall_forall in Hall |- *. intros d Hd.
    specialize (Hall d Hd). unfold older_first in Hall.
    assert (timestamp c <> timestamp d) as Hne.
    { intros Heq. apply Hnotin. rewrite Heq. now apply list_elem_of_fmap_2. }
    lia.
Qed.

(** The matching rows of a table under [uq_candle] have distinct
    timestamps. *)
Lemma matching_timestamps_NoDup (table : list CandleRow) (symbol interval : string) :
  uq_candle table ->
  NoDup ((timestamp ∘ row_candle) <$> filter (matches symbol interval) table).
Proof.
  intros Huq. apply NoDup_fmap_2_strong.
  - intros x y Hx Hy Heq.
    apply list_elem_of_filter in Hx as [[Hxs Hxi] Hx].
    apply list_elem_of_filter in Hy as [[Hys Hyi] Hy].
    apply (NoDup_fmap_eq row_key table x y Huq Hx Hy).
    unfold row_key. simpl in Heq. now rewrite Hxs, Hxi, Hys, Hyi, Heq.
  - apply NoDup_filter. exact (NoDup_fmap_1 row_key table Huq).
Qed.

(** [get_candles_df] returns the newest matching candles, oldest first: the
    frame has no indicator column, holds [limit] rows or all matching rows if
    there are fewer, is sorted by time, holds only candles of matching rows,
    and every matching row it leaves out is no newer than the rows it holds;
    under the uniqueness constraint of the table the timestamps strictly
    increase. *)
Theorem get_candles_df_newest (table : list CandleRow) (symbol interval : string)
    (limit : nat) :
  let df := get_candles_df table symbol interval limit in
  ta_columns df = ∅ /\
  Frame.len df = (limit `min` length (filter (matches symbol interval) table))%nat /\
  StronglySorted older_first (rows df) /\
  (forall c, c ∈ rows df ->
     exists r, r ∈ table /\ matches symbol interval r /\ row_candle r = c) /\
  (forall r, r ∈ table -> matches symbol interval r ->
     row_candle r ∈ rows df \/
     forall c, c ∈ rows df -> timestamp (row_candle r) <= timestamp c) /\
  (uq_candle table ->
     StronglySorted (fun a b => timestamp a < timestamp b) (rows df)).
Proof.
  intros df. subst df. rewrite get_candles_df_rows.
  set (matching := filter (matches symbol interval) table).
  set (sorted := merge_sort newer_first matching).
  assert (sorted ≡ₚ matching) as Hperm by apply merge_sort_Permutation.
  assert (StronglySorted newer_first sorted) as Hsorted
    by (apply StronglySorted_merge_sort; apply _).
  assert (merge_sort older_first (row_candle <$> take limit sorted)
          ≡ₚ row_candle <$> take limit sorted) as Hperm' by apply merge_sort_Permutation.
  unfold Frame.of_candles, Frame.len. cbn [rows ta_columns].
  assert (forall c, c ∈ row_candle <$> take limit sorted ->
          exists r, r ∈ take limit sorted /\ row_candle r = c) as Htaken.
  { intros c Hc. apply list_elem_of_fmap_1 in Hc as (r & -> & Hr). now exists r. }
  assert (forall r, r ∈ take limit sorted -> r ∈ matching) as Hback.
  { intros r Hr. rewrite <- Hperm.
    exact (elem_of_sublist _ _ r Hr (sublist_take sorted limit)). }
  repeat apply conj.
  - reflexivity.
  - rewrite Hperm', length_fmap, length_take. now rewrite Hperm.
  - apply StronglySorted_merge_sort; apply _.
  - intros c Hc. rewrite Hperm' in Hc. destruct (Htaken c Hc) as (r & Hr & <-).
    exists r. apply Hback in Hr. apply list_elem_of_filter in Hr as [Hm Hr]. auto.
  - intros r Hr Hm.
    assert (r ∈ take limit sorted ++ drop limit sorted) as Hin.
    { rewrite take_drop, Hperm. now apply list_elem_of_filter. }
    apply elem_of_app in Hin as [Hin | Hin].
    + left. rewrite Hperm'. now apply list_elem_of_fmap_2.
    + right. intros c Hc. rewrite Hperm' in Hc.
      destruct (Htaken c Hc) as (x & Hx & <-).
      rewrite <- (take_drop limit sorted) in Hsorted.
      exact (StronglySorted_app_1_elem_of _ _ _ x r Hsorted Hx Hin).
  - intros Huq. apply older_first_strict.
    + apply StronglySorted_merge_sort; apply _.
    + rewrite Hperm', <- list_fmap_compose.
      apply (sublist_NoDup _ ((timestamp ∘ row_candle) <$> sorted)).
      * rewrite Hperm. now apply matching_timestamps_NoDup.
      * apply fmap_sublist, sublist_take.
Qed.

End CandleProofs.

(** ** core/engine.py, the hierarchical check *)

Section SignalGateProofs.
Import Engine.
Context `{PandasTA}.

(** The frame that [check_signal] hands to a tier is the frame
    [get_candles_df] returned. *)
Lemma check_signal_frame (table : list Candles.CandleRow) (symbol interval : string) :
  Frame.of_candles (rows (Candles.get_candles_df table symbol interval 500))
  = Candles.get_candles_df table symbol interval 500.
Proof. now rewrite get_candles_df_rows. Qed.

(** [check_signal] in terms of the three tiers. *)
Lemma check_signal_value (table : list Candles.CandleRow) (symbol : string) :
  exists trend momentum trigger,
    calculate_trend (Candles.get_candles_df table symbol "1d" 500) = Ok trend /\
    calculate_momentum (Candles.get_candles_df table symbol "4h" 500) = Ok momentum /\
    calculate_trigger (Candles.get_candles_df table symbol "1h" 500) = Ok trigger /\
    Candles.check_signal table symbol
    = Ok (if negb (bool_decide (trend = BULLISH)) then (HOLD, "Trend is " +:+ name trend)
          else if negb (bool_decide (momentum = BULLISH))
               then (HOLD, "Momentum is " +:+ name momentum)
          else if bool_decide (trigger = BUY) then (BUY, "All conditions met")
          else (HOLD, "Waiting for trigger")).
Proof.
  destruct (calculate_trend_returns (Candles.get_candles_df table symbol "1d" 500))
    as (trend & Htrend & _).
  destruct (calculate_momentum_returns (Candles.get_candles_df table symbol "4h" 500))
    as (momentum & Hmomentum & _).
  assert (exists trigger,
            calculate_trigger (Candles.get_candles_df table symbol "1h" 500) = Ok trigger)
    as (trigger & Htrigger).
  { destruct (calculate_trigger_returns (Candles.get_candles_df table symbol "1h" 500))
      as [Hbuy | Hhold]; eauto. }
  exists trend, momentum, trigger. repeat (split; [assumption |]).
  unfold Candles.check_signal, check_signal.
  rewrite !check_signal_frame. unfold mbind, result_bind.
  rewrite Htrend. destruct (negb (bool_decide (trend = BULLISH))); [reflexivity |].
  rewrite Hmomentum. destruct (negb (bool_decide (momentum = BULLISH))); [reflexivity |].
  rewrite Htrigger. now destruct (bool_decide (trigger = BUY)).
Qed.


End SignalGateProofs.

(** ** core/backtester.py, the run as a whole *)

Section RunProofs.
Import Backtester Ledger.

Lemma check_exit_state (bt : Backtester) (candle : Candle) :
  is_Some (position bt) ->
  check_exit candle bt = (Ok tt, after_exit_check bt candle).
Proof.
  intros [pos Hpos]. rewrite (check_exit_decision bt pos candle Hpos).
  unfold after_exit_check. now rewrite Hpos.
Qed.

(** The loop body on a row whose cells and predecessor are there. *)
Lemma step_state (df : DataFrame) (i : nat)
    (row prev : Candle * (string -> option float)) (bt : Backtester)
    (prev_macd prev_signal macd signal ema50 : float) :
  Frame.iloc df i = Ok row ->
  Frame.iloc df (i - 1) = Ok prev ->
  Frame.cell row "MACD_12_26_9" = Ok macd ->
  Frame.cell row "MACDs_12_26_9" = Ok signal ->
  Frame.cell prev "MACD_12_26_9" = Ok prev_macd ->
  Frame.cell prev "MACDs_12_26_9" = Ok prev_signal ->
  Frame.cell row "EMA_50" = Ok ema50 ->
  step df i bt
  = (Ok tt,
     after_step bt row.1
       (entry_signal prev_macd prev_signal macd signal (close row.1) ema50)).
Proof.
  intros Hrow Hprev Hm Hs Hpm Hps He.
  unfold step, after_step.
  unfold mbind at 1, M_bind at 1, lift at 1. rewrite Hrow.
  unfold mbind at 1, M_bind at 1, has_position at 1.
  unfold mbind at 1, M_bind at 1, get at 1, mret at 1, M_ret at 1.
  assert (forall flat : Backtester,
            position flat = None ->
            (held ← has_position;
             (if negb held then check_entry df i row else mret tt);;
             self ← get;
             append_equity {| point_timestamp := timestamp row.1;
                              point_equity := balance self |}) flat
            = (Ok tt,
               with_equity_point
                 (after_entry_check flat row.1
                    (entry_signal prev_macd prev_signal macd signal (close row.1) ema50))
                 (timestamp row.1))) as Hflat.
  { intros flat Hnone. unfold has_position, check_entry.
    unfold mbind, M_bind, lift, get at 1, mret at 1, M_ret at 1.
    rewrite Hnone, Hprev, Hm, Hs, Hpm, Hps, He.
    replace (bool_decide (is_Some (@None Position))) with false by reflexivity.
    change (negb false) with true. cbv iota beta.
    unfold after_entry_check. rewrite Hnone.
    unfold entry_signal.
    destruct ((prev_macd <=? prev_signal)%float && (macd >? signal)%float
              && (close row.1 >? ema50)%float).
    - unfold open_position, set_position, append_equity. unfold_m.
      destruct (position_size (balance flat) (close row.1) <=? 0)%float;
        reflexivity.
    - unfold append_equity. unfold_m. reflexivity. }
  assert (forall held : Backtester,
            is_Some (position held) ->
            (held' ← has_position;
             (if negb held' then check_entry df i row else mret tt);;
             self ← get;
             append_equity {| point_timestamp := timestamp row.1;
                              point_equity := balance self |}) held
            = (Ok tt,
               with_equity_point
                 (after_entry_check held row.1
                    (entry_signal prev_macd prev_signal macd signal (close row.1) ema50))
                 (timestamp row.1))) as Hheld.
  { intros held [pos Hpos]. unfold has_position.
    unfold mbind, M_bind, get at 1, mret at 1, M_ret at 1.
    rewrite Hpos.
    replace (bool_decide (is_Some (Some pos))) with true by reflexivity.
    change (negb true) with false. cbv iota beta.
    unfold after_entry_check. rewrite Hpos.
    unfold append_equity. unfold_m. reflexivity. }
  destruct (position bt) as [pos |] eqn:Hpos.
  - replace (bool_decide (is_Some (Some pos))) with true by reflexivity.
    cbv iota beta.
    unfold mbind at 1, M_bind at 1.
    rewrite (check_exit_state bt row.1) by (rewrite Hpos; eauto).
    destruct (position (after_exit_check bt row.1)) as [pos' |] eqn:Hpos'.
    + apply Hheld. rewrite Hpos'. eauto.
    + now apply Hflat.
  - replace (bool_decide (is_Some (@None Position))) with false by reflexivity.
    cbv iota beta. unfold mbind at 1, M_bind at 1, mret at 1, M_ret at 1.
    assert (after_exit_check bt row.1 = bt) as ->
      by (unfold after_exit_check; now rewrite Hpos).
    now apply Hflat.
Qed.

(** What one iteration changes. *)
Lemma after_step_bookkeeping (bt : Backtester) (candle : Candle) (signal : bool) :
  let bt' := after_step bt candle signal in
  symbol bt' = symbol bt /\
  initial_balance bt' = initial_balance bt /\
  length (equity_curve bt') = S (length (equity_curve bt)) /\
  (exists closed_now, trades bt' = trades bt ++ closed_now /\
                      (length closed_now <= 1)%nat) /\
  (sound bt -> sound bt').
Proof.
  unfold after_step, after_entry_check, after_exit_check, sound.
  destruct (position bt) as [pos |] eqn:Hpos.
  - destruct (exit_decision pos candle) as [[price reason] |] eqn:Hexit.
    + assert (position_sound pos ->
              trade_sound (symbol bt) (closed_trade bt pos price (timestamp candle) reason))
        as Htrade.
      { intros (_ & Hsl & Htp & _). unfold exit_decision in Hexit.
        unfold trade_sound, closed_trade. cbn. split; [reflexivity |].
        destruct (low candle <=? pos_sl pos)%float.
        - injection Hexit as <- <-. left. auto.
        - destruct (high candle >=? pos_tp pos)%float; [| discriminate].
          injection Hexit as <- <-. right. auto. }
      cbn [position closed].
      destruct signal;
        [destruct (position_size _ (close candle) <=? 0)%float eqn:Hsize |];
        cbn; (repeat apply conj;
          [ reflexivity | reflexivity | rewrite length_app; simpl; lia
          | eexists; split; [reflexivity | simpl; lia]
          | intros [Hp Ht] ]); split;
        try (intros p Hp'; simplify_eq);
        try (apply Forall_app; split; [exact Ht | constructor; [eauto | constructor]]).
      unfold position_sound, opened_position. cbn. auto.
    + rewrite Hpos. cbn. repeat apply conj; try reflexivity.
      * rewrite length_app. simpl. lia.
      * exists []. rewrite app_nil_r. split; [reflexivity | simpl; lia].
      * intros [Hp Ht]. rewrite Hpos. auto.
  - rewrite Hpos.
    destruct signal;
      [destruct (position_size _ (close candle) <=? 0)%float eqn:Hsize |];
      cbn; (repeat apply conj;
        [ reflexivity | reflexivity | rewrite length_app; simpl; lia
        | exists []; rewrite app_nil_r; split; [reflexivity | simpl; lia]
        | intros [Hp Ht] ]); split; try exact Ht;
      try (rewrite Hpos; exact Hp).
    intros p Hp'. simplify_eq.
    unfold position_sound, opened_position. cbn. auto.
Qed.

(** The loop over rows that are ready. *)
Lemma loop_bookkeeping (df : DataFrame) (indices : list nat) :
  Forall (row_ready df) indices ->
  forall bt : Backtester,
  exists bt' : Backtester,
    for_each indices (step df) bt = (Ok tt, bt') /\
    symbol bt' = symbol bt /\
    initial_balance bt' = initial_balance bt /\
    length (equity_curve bt') = (length (equity_curve bt) + length indices)%nat /\
    (exists closed_now, trades bt' = trades bt ++ closed_now /\
                        (length closed_now <= length indices)%nat) /\
    (sound bt -> sound bt').
Proof.
  induction 1 as [| i rest Hready _ IH]; intros bt.
  - exists bt. simpl. repeat apply conj; try reflexivity; try lia; auto.
    exists []. now rewrite app_nil_r.
  - destruct Hready as (row & prev & pm & ps & m & s & e & Hrow & Hprev & Hm & Hs
                        & Hpm & Hps & He).
    pose proof (step_state df i row prev bt pm ps m s e Hrow Hprev Hm Hs Hpm Hps He)
      as Hstep.
    set (bt1 := after_step bt row.1 (entry_signal pm ps m s (close row.1) e)) in *.
    destruct (after_step_bookkeeping bt row.1 (entry_signal pm ps m s (close row.1) e))
      as (Hsym & Hinit & Hcurve & (c1 & Htrades & Hc1) & Hsound).
    fold bt1 in Hsym, Hinit, Hcurve, Htrades, Hsound.
    destruct (IH bt1) as (bt' & Hrun & Hsym' & Hinit' & Hcurve' & (c2 & Htrades' & Hc2)
                          & Hsound').
    exists bt'. repeat apply conj.
    + simpl. unfold mbind, M_bind. rewrite Hstep. exact Hrun.
    + congruence.
    + congruence.
    + rewrite Hcurve', Hcurve. simpl. lia.
    + exists (c1 ++ c2). split.
      * rewrite Htrades', Htrades. now rewrite app_assoc.
      * rewrite length_app. simpl. lia.
    + auto.
Qed.

Section Run.
Context `{PandasTA}.

(** After the two indicator calls of [run], every row from 1 on is ready. *)
Lemma run_frame_ready (history : list Candle) (i : nat) :
  (50 <= length history)%nat -> (1 <= i < length history)%nat ->
  row_ready (Frame.ta_ema 50 (Frame.ta_macd 12 26 9 (Frame.of_candles history))) i.
Proof.
  intros Hlen Hi.
  set (df := Frame.of_candles history).
  assert (Frame.len df = length history) as Hdf by reflexivity.
  destruct (trigger_columns df) as (Hrows & Hmacd & Hsignal & Hema);
    [rewrite Hdf; exact Hlen |].
  set (df' := Frame.ta_ema 50 (Frame.ta_macd 12 26 9 df)) in *.
  pose proof (closes_length df) as Lclose. rewrite Hdf in Lclose.
  assert (forall name col,
            Frame.column df' name = Ok col -> length col = length history ->
            forall j, (j < length history)%nat ->
            exists x, forall c, Frame.cell (c, Frame.cells_at df' j) name = Ok x)
    as Hcell.
  { intros name col Hcol Lcol j Hj. unfold Frame.column in Hcol.
    destruct (ta_columns df' !! name) as [col' |] eqn:Hlook; [| discriminate].
    injection Hcol as ->.
    destruct (lookup_lt_is_Some_2 col j) as (x & Hx); [lia |].
    exists x. intros c. unfold Frame.cell, Frame.cells_at. cbn.
    rewrite Hlook. cbn. now rewrite Hx. }
  assert (forall j, (j < length history)%nat ->
            exists c, Frame.iloc df' j = Ok (c, Frame.cells_at df' j)) as Hiloc.
  { intros j Hj. unfold Frame.iloc, index. rewrite Hrows. cbn [rows df Frame.of_candles].
    destruct (lookup_lt_is_Some_2 history j) as (c & Hc); [lia |].
    exists c. now rewrite Hc. }
  assert (length (macd_line 12 26 9 (Frame.closes df)) = length history) as Lmacd
    by (rewrite macd_line_aligned; [exact Lclose | rewrite Lclose; simpl; lia]).
  assert (length (macd_signal 12 26 9 (Frame.closes df)) = length history) as Lsignal
    by (rewrite macd_signal_aligned; [exact Lclose | rewrite Lclose; simpl; lia]).
  assert (length (ema 50 (Frame.closes df)) = length history) as Lema
    by (rewrite ema_aligned; [exact Lclose | rewrite Lclose; exact Hlen]).
  destruct (Hiloc i) as (c & Hc); [lia |].
  destruct (Hiloc (i - 1)%nat) as (p & Hp); [lia |].
  destruct (Hcell _ _ Hmacd Lmacd i) as (m & Hm); [lia |].
  destruct (Hcell _ _ Hsignal Lsignal i) as (s & Hs); [lia |].
  destruct (Hcell _ _ Hmacd Lmacd (i - 1)%nat) as (pm & Hpm); [lia |].
  destruct (Hcell _ _ Hsignal Lsignal (i - 1)%nat) as (ps & Hps); [lia |].
  destruct (Hcell _ _ Hema Lema i) as (e & He); [lia |].
  exists (c, Frame.cells_at df' i), (p, Frame.cells_at df' (i - 1)), pm, ps, m, s, e.
  repeat apply conj; auto.
Qed.

Lemma generate_report_returns (bt : Backtester) :
  exists report, generate_report bt = (Ok report, bt).
Proof.
  unfold generate_report. unfold_m.
  destruct (Nat.eqb (length (trades bt)) 0); eexists; reflexivity.
Qed.

(** [run] as the loop followed by the report. *)
Lemma run_bookkeeping (history : list Candle) (bt : Backtester) :
  exists (report : Report) (bt' : Backtester),
    run history bt = (Ok report, bt') /\
    (history = [] -> report = ∅ /\ bt' = bt) /\
    symbol bt' = symbol bt /\
    initial_balance bt' = initial_balance bt /\
    length (equity_curve bt')
    = (length (equity_curve bt) + (length history - 50))%nat /\
    (exists closed_now, trades bt' = trades bt ++ closed_now /\
                        (length closed_now <= length history - 50)%nat) /\
    (sound bt -> sound bt').
Proof.
  destruct history as [| c0 rest] eqn:Hhistory.
  - exists ∅, bt. repeat apply conj; try reflexivity; auto; try (simpl; lia).
    exists []. rewrite app_nil_r. split; [reflexivity | simpl; lia].
  - rewrite <- Hhistory.
    set (df := Frame.ta_ema 50 (Frame.ta_macd 12 26 9 (Frame.of_candles history))).
    assert (Frame.len df = length history) as Hlen.
    { unfold df, Frame.ta_ema, Frame.ta_macd.
      destruct (Nat.leb (12 `max` (26 `max` 9)) (Frame.len (Frame.of_candles history)));
        match goal with |- context [Nat.leb 50 ?n] => destruct (Nat.leb 50 n) end;
        reflexivity. }
    assert (Forall (row_ready df) (seq 50 (length history - 50))) as Hready.
    { apply Forall_forall. intros i Hi. apply elem_of_seq in Hi.
      apply run_frame_ready; lia. }
    destruct (loop_bookkeeping df _ Hready bt)
      as (bt' & Hloop & Hsym & Hinit & Hcurve & Htrades & Hsound).
    destruct (generate_report_returns bt') as (report & Hreport).
    exists report, bt'. rewrite length_seq in Hcurve, Htrades.
    repeat apply conj; auto.
    + unfold run.
      replace (Frame.empty (Frame.of_candles history)) with false
        by (rewrite Hhistory; reflexivity).
      fold df. rewrite Hlen. unfold mbind, M_bind. rewrite Hloop. exact Hreport.
    + rewrite Hhistory. discriminate.
Qed.


(** Every trade a fresh backtester records is a long trade of its symbol
    that exits at its stop, 2% below the entry price, with reason "SL", or at
    its target, 6% above, with reason "TP"; the position it may still hold is
    long, with that stop and that target. The same holds from any backtester
    whose position and trades have this shape. *)
Theorem run_trades_exit_at_stop_or_target (history : list Candle) :
  (forall symbol start_balance,
     sound (run history (__init__ symbol start_balance)).2) /\
  (forall bt, sound bt -> sound (run history bt).2).
Proof.
  assert (forall bt, sound bt -> sound (run history bt).2) as Hkeep.
  { intros bt Hsound.
    destruct (run_bookkeeping history bt) as (report & bt' & Hrun & _ & _ & _ & _ & _ & Hs).
    rewrite Hrun. now apply Hs. }
  split; [| exact Hkeep].
  intros symbol start_balance. apply Hkeep. split.
  - intros pos Hpos. discriminate.
  - constructor.
Qed.

End Run.

Lemma run_trades_exit_at_stop_or_target_witness :
  sound (run (H := sample_ta) Samples.rebound Samples.holding).2.
Proof.
  destruct (run_trades_exit_at_stop_or_target (H := sample_ta) Samples.rebound)
    as (_ & Hkeep).
  apply Hkeep. split.
  - intros pos Hpos. injection Hpos as <-.
    repeat split; vm_compute; reflexivity.
  - constructor.
Defined.

End RunProofs.

(** ** core/signals.py, what the packager lets through *)

Section PackagerProofs.
Import Signals.
Context `{PyBuiltins}.

Lemma missing_field_found (data : gmap string pyval) (field : string) :
  field ∈ REQUIRED_FIELDS -> data !! field = None ->
  bool_decide (filter (fun f => data !! f = None) REQUIRED_FIELDS = []) = false.
Proof.
  intros Hin Hnone. apply bool_decide_eq_false_2. intros Hnil.
  exact (filter_nil_not_elem_of _ _ field Hnil Hnone Hin).
Qed.

(** Every packet the packager returns went through the checks: its symbol is
    a string with a slash, its side is BUY or SELL, none of the four amounts
    of the input compared [<= 0], its metadata is the clock reading, version
    "1.0" and source "Oracle-AI-Hub", and the packet is the one line added to
    the audit log. *)
Theorem package_trade_emits_checked_packets (utcnow : string)
    (data : gmap string pyval) (log log' : list TradePacket) (packet : TradePacket) :
  package_trade utcnow data log = (Ok packet, log') ->
  log' = log ++ [packet] /\
  meta packet = {| timestamp := utcnow; version := "1.0"; source := "Oracle-AI-Hub" |} /\
  data !! "symbol" = Some (symbol (trade packet)) /\
  is_symbol (symbol (trade packet)) = true /\
  data !! "side" = Some (side (trade packet)) /\
  is_side (side (trade packet)) = true /\
  Forall (fun field => exists v, data !! field = Some v /\ le_zero v = Ok false)
    ["entry_price"; "sl"; "tp"; "size"] /\
  strategy (context packet) = default (PStr "N/A") (data !! "strategy_verdict") /\
  sentiment (context packet) = default (PStr "N/A") (data !! "agent_verdict").
Proof.
  unfold package_trade, _log_packet. unfold_m. unfold getitem.
  destruct (negb (bool_decide (filter (fun f => data !! f = None) REQUIRED_FIELDS = [])));
    [discriminate |].
  destruct (data !! "symbol") as [v_symbol |] eqn:Dsymbol; [| discriminate].
  destruct (is_symbol v_symbol) eqn:Hsymbol; simpl; [| discriminate].
  destruct (data !! "side") as [v_side |] eqn:Dside; [| discriminate].
  destruct (is_side v_side) eqn:Hside; simpl; [| discriminate].
  destruct (data !! "entry_price") as [v_entry |] eqn:Dentry; simpl; [| discriminate].
  destruct (le_zero v_entry) as [[] |] eqn:Hentry; simpl; try discriminate.
  destruct (data !! "sl") as [v_sl |] eqn:Dsl; simpl; [| discriminate].
  destruct (le_zero v_sl) as [[] |] eqn:Hsl; simpl; try discriminate.
  destruct (data !! "tp") as [v_tp |] eqn:Dtp; simpl; [| discriminate].
  destruct (le_zero v_tp) as [[] |] eqn:Htp; simpl; try discriminate.
  destruct (data !! "size") as [v_size |] eqn:Dsize; simpl; [| discriminate].
  destruct (le_zero v_size) as [[] |] eqn:Hsize; simpl; try discriminate.
  destruct (py_float v_entry); simpl; [| discriminate].
  destruct (py_float v_sl); simpl; [| discriminate].
  destruct (py_float v_tp); simpl; [| discriminate].
  destruct (py_float v_size); simpl; [| discriminate].
  destruct (data !! "level") as [v_level |]; simpl; [| discriminate].
  destruct (py_int v_level); simpl; [| discriminate].
  destruct (data !! "slevel") as [v_slevel |]; simpl; [| discriminate].
  destruct (py_int v_slevel); simpl; [| discriminate].
  intros Heq. injection Heq as <- <-. simpl.
  repeat apply conj; try reflexivity; try assumption.
  repeat constructor; eexists; (split; [eassumption | assumption]).
Qed.

(** The order of the checks: a missing required field is reported before
    anything else is looked at; then the symbol; then the side. *)
Theorem package_trade_rejects_in_order (utcnow : string)
    (data : gmap string pyval) (log : list TradePacket) :
  (forall field,
     field ∈ REQUIRED_FIELDS -> data !! field = None ->
     package_trade utcnow data log
     = (Raise (ValueError "Missing required fields for signal package"), log)) /\
  (forall v,
     (forall field, field ∈ REQUIRED_FIELDS -> is_Some (data !! field)) ->
     data !! "symbol" = Some v -> is_symbol v = false ->
     package_trade utcnow data log = (Raise (ValueError "Invalid symbol format"), log)) /\
  (forall v w,
     (forall field, field ∈ REQUIRED_FIELDS -> is_Some (data !! field)) ->
     data !! "symbol" = Some v -> is_symbol v = true ->
     data !! "side" = Some w -> is_side w = false ->
     package_trade utcnow data log = (Raise (ValueError "Invalid side"), log)).
Proof.
  assert ((forall field, field ∈ REQUIRED_FIELDS -> is_Some (data !! field)) ->
          bool_decide (filter (fun f => data !! f = None) REQUIRED_FIELDS = []) = true)
    as Hpresent.
  { intros Hall. apply bool_decide_eq_true_2.
    destruct (filter (fun f => data !! f = None) REQUIRED_FIELDS) as [| f rest] eqn:Hf;
      [reflexivity |].
    assert (f ∈ filter (fun f => data !! f = None) REQUIRED_FIELDS) as Hin
      by (rewrite Hf; left).
    apply list_elem_of_filter in Hin as [Hnone Hin].
    destruct (Hall f Hin) as [v Hv]. congruence. }
  repeat apply conj.
  - intros field Hin Hnone. unfold package_trade. unfold_m.
    now rewrite (missing_field_found data field Hin Hnone).
  - intros v Hall Hsymbol Hbad. unfold package_trade. unfold_m. unfold getitem.
    now rewrite (Hpresent Hall), Hsymbol, Hbad.
  - intros v w Hall Hsymbol Hgood Hside Hbad. unfold package_trade. unfold_m.
    unfold getitem. now rewrite (Hpresent Hall), Hsymbol, Hgood, Hside, Hbad.
Qed.

End PackagerProofs.

(** ** agents/analyst.py *)

Section AnalystProofs.
Import Analyst.

Lemma count_in_bound (keywords : list string) (text : string) :
  (count_in keywords text <= length keywords)%nat.
Proof. unfold count_in. apply length_filter. Qed.

(** Case analysis on a count that is at most 7. *)
Ltac small_count n Hn :=
  let Hin := fresh "Hin" in
  assert (In n (List.seq 0 8)) as Hin by (apply in_seq; lia);
  clear Hn; simpl in Hin;
  repeat (destruct Hin as [<- | Hin]); [.. | destruct Hin].

Lemma bullish_score_range (bull bear : nat) :
  (bull <= 7)%nat -> (bear <= 7)%nat -> (bear < bull)%nat ->
  (bullish_score bull bear >? 0.5)%float = true /\
  (bullish_score bull bear <=? 1)%float = true.
Proof.
  intros Hb Hr Hlt. small_count bull Hb; small_count bear Hr; try lia;
    split; vm_compute; reflexivity.
Qed.

Lemma bearish_score_range (bull bear : nat) :
  (bull <= 7)%nat -> (bear <= 7)%nat -> (bull < bear)%nat ->
  (bearish_score bull bear <? 0.5)%float = true /\
  (bearish_score bull bear >=? 0)%float = true.
Proof.
  intros Hb Hr Hlt. small_count bull Hb; small_count bear Hr; try lia;
    split; vm_compute; reflexivity.
Qed.

Section WithText.
Context `{PyText}.

(** [analyze_sentiment] answers NEUTRAL with score 0.5 when there is no news
    to read, whether none was given or none was fetched. Otherwise it counts
    the bullish and the bearish keywords that occur in the lowered text: the
    verdict is BULLISH exactly when more bullish than bearish keywords occur,
    and then the score lies in (0.5, 1]; BEARISH exactly when more bearish
    ones occur, and then the score lies in [0, 0.5); NEUTRAL on a tie, with
    score 0.5. *)
Theorem sentiment_follows_keyword_counts (fetch_news : string -> list string)
    (symbol : string) (snippets : option (list string)) :
  let news := default (fetch_news symbol) snippets in
  let text := lower (join (String "010" "---" +:+ String "010" "") news) in
  let bull := count_in bullish_keywords text in
  let bear := count_in bearish_keywords text in
  let result := analyze_sentiment fetch_news symbol snippets in
  (news = [] ->
     result = {| verdict := Engine.NEUTRAL; score := 0.5;
                 reason := "No recent news found for analysis." |}) /\
  (news <> [] ->
     (verdict result = Engine.BULLISH <-> (bear < bull)%nat) /\
     (verdict result = Engine.BEARISH <-> (bull < bear)%nat) /\
     (verdict result = Engine.NEUTRAL <-> bull = bear)) /\
  (verdict result = Engine.BULLISH ->
     (score result >? 0.5)%float = true /\ (score result <=? 1)%float = true) /\
  (verdict result = Engine.BEARISH ->
     (score result <? 0.5)%float = true /\ (score result >=? 0)%float = true) /\
  (verdict result = Engine.NEUTRAL -> score result = 0.5%float).
Proof.
  intros news text bull bear result.
  assert (result
          = match news with
            | [] => {| verdict := Engine.NEUTRAL; score := 0.5;
                       reason := "No recent news found for analysis." |}
            | _ :: _ =>
                if Nat.ltb bear bull then
                  {| verdict := Engine.BULLISH; score := bullish_score bull bear;
                     reason := "Detected " +:+ pretty bull
                               +:+ " bullish signals in recent news." |}
                else if Nat.ltb bull bear then
                  {| verdict := Engine.BEARISH; score := bearish_score bull bear;
                     reason := "Detected " +:+ pretty bear
                               +:+ " bearish signals in recent news." |}
                else {| verdict := Engine.NEUTRAL; score := 0.5;
                        reason := "News sentiment is mixed or inconclusive." |}
            end) as Hresult.
  { subst result bull bear text news. unfold analyze_sentiment.
    destruct snippets as [given |]; simpl; [now destruct given |].
    now destruct (fetch_news symbol). }
  assert (bull <= 7)%nat as Hbull by apply (count_in_bound bullish_keywords).
  assert (bear <= 7)%nat as Hbear by apply (count_in_bound bearish_keywords).
  clearbody result bull bear. subst result.
  destruct news as [| snippet rest].
  - split; [reflexivity |]. split; [intros Hne; now destruct Hne |].
    repeat split; discriminate.
  - split; [discriminate |].
    destruct (Nat.ltb_spec bear bull) as [Hlt | Hge];
      [| destruct (Nat.ltb_spec bull bear) as [Hlt | Hge']]; simpl.
    + split.
      { intros _. repeat split; intros; try discriminate; try lia; reflexivity. }
      split; [| split]; intros Hverdict; try discriminate Hverdict.
      now apply bullish_score_range.
    + split.
      { intros _. repeat split; intros; try discriminate; try lia; reflexivity. }
      split; [| split]; intros Hverdict; try discriminate Hverdict.
      now apply bearish_score_range.
    + split.
      { intros _. repeat split; intros; try discriminate; try lia; reflexivity. }
      split; [| split]; intros Hverdict; try discriminate Hverdict.
      reflexivity.
Qed.

End WithText.

End AnalystProofs.

(** ** main.py *)

Section OracleProofs.
Import Oracle.

(** The guard's check and the position sizing read their object and leave it
    as it was. *)
Lemma check_reads (symbol : string) (guard : Guards.CorrelationGuard) :
  exists r, Guards.check symbol guard = (r, guard).
Proof.
  unfold Guards.check. unfold_m.
  destruct (Guards.unpack2 (Guards.split "/" symbol)) as [[base quote] | e]; simpl;
    [| eauto].
  case_match; eauto.
Qed.

Lemma calculate_position_size_reads (balance : float) (engine : Risk.RiskEngine) :
  exists r, Risk.calculate_position_size balance engine = (r, engine).
Proof.
  unfold Risk.calculate_position_size, Risk.get_current_params. unfold_m.
  destruct (Risk.levels engine !! Risk.current_level engine); eauto.
Qed.

Lemma world_eta (w : World) :
  {| oracle := {| deployment := deployment (oracle w);
                  risk_engine := risk_engine (oracle w);
                  correlation_guard := correlation_guard (oracle w);
                  liquidity_guard := liquidity_guard (oracle w);
                  symbols := symbols (oracle w);
                  active_positions := active_positions (oracle w) |};
     signals_log := signals_log w |} = w.
Proof. now destruct w as [[] ?]. Qed.

Lemma on_correlation_guard_check (symbol : string) (w : World) :
  exists r, Guards.check symbol (correlation_guard (oracle w))
            = (r, correlation_guard (oracle w)) /\
            on_correlation_guard (Guards.check symbol) w = (r, w).
Proof.
  destruct (check_reads symbol (correlation_guard (oracle w))) as (r & Hr).
  exists r. split; [exact Hr |].
  unfold on_correlation_guard. rewrite Hr. now rewrite world_eta.
Qed.

Lemma on_risk_engine_size (balance : float) (w : World) :
  exists r, Risk.calculate_position_size balance (risk_engine (oracle w))
            = (r, risk_engine (oracle w)) /\
            on_risk_engine (Risk.calculate_position_size balance) w = (r, w).
Proof.
  destruct (calculate_position_size_reads balance (risk_engine (oracle w))) as (r & Hr).
  exists r. split; [exact Hr |].
  unfold on_risk_engine. rewrite Hr. now rewrite world_eta.
Qed.

(** A frame of at most one row, when it is not empty, has one row, and its
    last close is the close of that row. *)
Lemma single_row_frame (table : list Candles.CandleRow) (symbol interval : string) :
  let df := Candles.get_candles_df table symbol interval 1 in
  Frame.empty df = false ->
  exists candle, rows df = [candle] /\ iloc_neg (Frame.closes df) 1 = Ok (close candle).
Proof.
  intros df. subst df. rewrite get_candles_df_rows.
  unfold Frame.empty, Frame.len, Frame.closes, Frame.of_candles. cbn [rows].
  set (found := merge_sort Candles.older_first _).
  assert (length found <= 1)%nat as Hlen.
  { subst found.
    rewrite (Permutation_length (merge_sort_Permutation _ _)), length_fmap, length_take.
    lia. }
  destruct found as [| candle [| other rest]]; simpl in *; try discriminate; try lia.
  intros _. now exists candle.
Qed.

Section Packets.
Context {builtins : PyBuiltins}.

(** What the packager does with the dictionary [analyze_symbol] builds. *)
Lemma package_signal_data (utcnow symbol : string)
    (price sl tp size : float) (current_level : Z) (verdict agent : Engine.Verdict)
    (log : list Signals.TradePacket) :
  let packet :=
    {| Signals.meta := {| Signals.timestamp := utcnow; Signals.version := "1.0";
                          Signals.source := "Oracle-AI-Hub" |};
       Signals.trade :=
         {| Signals.symbol := PStr symbol; Signals.side := PStr "BUY";
            Signals.entry := price; Signals.sl := sl; Signals.tp := tp;
            Signals.size := size;
            Signals.risk := {| Signals.level := current_level; Signals.slevel := 0 |} |};
       Signals.context :=
         {| Signals.strategy := PStr (Engine.name verdict);
            Signals.sentiment := PStr (Engine.name agent) |} |} in
  Signals.package_trade utcnow
    (signal_data symbol price sl tp size current_level verdict agent) log
  = if negb (Signals.contains "/" symbol)
    then (Raise (ValueError "Invalid symbol format"), log)
    else if (price <=? 0)%float || (sl <=? 0)%float || (tp <=? 0)%float
            || (size <=? 0)%float
    then (Raise (ValueError "Price, SL, TP, and Size must be positive."), log)
    else (Ok packet, log ++ [packet]).
Proof.
  intros packet. subst packet.
  set (data := signal_data symbol price sl tp size current_level verdict agent).
  assert (data !! "symbol" = Some (PStr symbol)) as Dsymbol by reflexivity.
  assert (data !! "side" = Some (PStr "BUY")) as Dside by reflexivity.
  assert (data !! "entry_price" = Some (PFloat price)) as Dentry by reflexivity.
  assert (data !! "sl" = Some (PFloat sl)) as Dsl by reflexivity.
  assert (data !! "tp" = Some (PFloat tp)) as Dtp by reflexivity.
  assert (data !! "size" = Some (PFloat size)) as Dsize by reflexivity.
  assert (data !! "level" = Some (PInt current_level)) as Dlevel by reflexivity.
  assert (data !! "slevel" = Some (PInt 0)) as Dslevel by reflexivity.
  assert (data !! "strategy_verdict" = Some (PStr (Engine.name verdict))) as Dstrategy
    by reflexivity.
  assert (data !! "agent_verdict" = Some (PStr (Engine.name agent))) as Dagent
    by reflexivity.
  assert (filter (fun f => data !! f = None) Signals.REQUIRED_FIELDS = []) as Hnone.
  { unfold Signals.REQUIRED_FIELDS.
    repeat (rewrite filter_cons_False by congruence). reflexivity. }
  clearbody data.
  unfold Signals.package_trade, Signals._log_packet, Signals.getitem. unfold_m.
  rewrite Hnone, Dsymbol, Dside, Dentry, Dsl, Dtp, Dsize, Dlevel, Dslevel,
    Dstrategy, Dagent.
  simpl.
  destruct (Signals.contains "/" symbol); simpl; [| reflexivity].
  destruct (price <=? 0)%float; simpl; [reflexivity |].
  destruct (sl <=? 0)%float; simpl; [reflexivity |].
  destruct (tp <=? 0)%float; simpl; [reflexivity |].
  destruct (size <=? 0)%float; simpl; reflexivity.
Qed.

End Packets.

Section CycleProofs.
Import Oracle.
Context {ta : PandasTA} {builtins : PyBuiltins} {text : PyText}.
Variable table : list Candles.CandleRow.
Variable fetch_news : string -> list string.

(** The three ways [analyze_symbol] ends: without a signal, with an
    exception, in both cases leaving everything as it was; or with a packet,
    which is then the one line added to the audit log. *)
Lemma analyze_symbol_outcome (utcnow symbol : string) (w : World) :
  analyze_symbol table fetch_news utcnow symbol w = (Ok None, w) \/
  (exists e, analyze_symbol table fetch_news utcnow symbol w = (Raise e, w)) \/
  (exists base quote value candle,
     Candles.check_signal table symbol = Ok (Engine.BUY, "All conditions met") /\
     Guards.split "/" symbol = [base; quote] /\
     Guards.check symbol (correlation_guard (oracle w))
     = (Ok true, correlation_guard (oracle w)) /\
     Analyst.verdict (Analyst.analyze_sentiment fetch_news base None) <> Engine.BEARISH /\
     Risk.calculate_position_size (current_balance (deployment (oracle w)))
       (risk_engine (oracle w))
     = (Ok value, risk_engine (oracle w)) /\
     rows (Candles.get_candles_df table symbol "1h" 1) = [candle] /\
     (close candle <=? 0)%float = false /\
     (close candle * 0.98 <=? 0)%float = false /\
     (close candle * 1.06 <=? 0)%float = false /\
     (value / close candle <=? 0)%float = false /\
     let packet :=
       signal_packet utcnow symbol (close candle) value
         (Risk.current_level (risk_engine (oracle w)))
         (Analyst.verdict (Analyst.analyze_sentiment fetch_news base None)) in
     analyze_symbol table fetch_news utcnow symbol w
     = (Ok (Some packet),
        {| oracle := oracle w; signals_log := signals_log w ++ [packet] |})).
Proof.
  unfold analyze_symbol. unfold_m.
  destruct (check_signal_value table symbol)
    as (trend & momentum & trigger & _ & _ & _ & Hvalue).
  rewrite Hvalue.
  destruct (negb (bool_decide (trend = Engine.BULLISH))); [now left |].
  destruct (negb (bool_decide (momentum = Engine.BULLISH))); [now left |].
  destruct (bool_decide (trigger = Engine.BUY)); [| now left].
  cbn [negb].
  replace (bool_decide (Engine.BUY = Engine.BUY)) with true by reflexivity.
  cbn [negb].
  destruct (on_correlation_guard_check symbol w) as (checked & Hcheck & ->).
  destruct checked as [[] | e]; cbn [negb]; [| now left | right; left; eauto].
  assert (exists base quote, Guards.split "/" symbol = [base; quote])
    as (base & quote & Hsplit).
  { unfold Guards.check in Hcheck. unfold_m.
    destruct (Guards.split "/" symbol) as [| b [| q [| x rest]]];
      try discriminate. eauto. }
  rewrite Hsplit.
  replace (index [base; quote] 0) with (Ok base) by reflexivity.
  set (pass := match liquidity_guard (oracle w) with Some _ => _ | None => _ end).
  assert (pass = fun s : World => (Ok tt, s)) as ->
    by (subst pass; now destruct (liquidity_guard (oracle w))).
  cbn beta iota.
  destruct (bool_decide (Analyst.verdict (Analyst.analyze_sentiment fetch_news base None)
                         = Engine.BEARISH)) eqn:Hbearish; [now left |].
  apply bool_decide_eq_false_1 in Hbearish.
  destruct (on_risk_engine_size (current_balance (deployment (oracle w))) w)
    as (sized & Hsize & ->).
  destruct sized as [value | e]; [| right; left; eauto].
  destruct (Frame.empty (Candles.get_candles_df table symbol "1h" 1)) eqn:Hempty;
    [now left |].
  destruct (single_row_frame table symbol "1h" Hempty) as (candle & Hrows & ->).
  unfold on_signals_log. rewrite package_signal_data.
  assert ({| oracle := oracle w; signals_log := signals_log w |} = w) as Hw
    by now destruct w.
  destruct (negb (Signals.contains "/" symbol));
    [right; left; eexists; now rewrite Hw |].
  destruct (close candle <=? 0)%float eqn:Hentry;
    [right; left; eexists; cbn [orb]; now rewrite Hw |].
  destruct (close candle * 0.98 <=? 0)%float eqn:Hsl;
    [right; left; eexists; cbn [orb]; now rewrite Hw |].
  destruct (close candle * 1.06 <=? 0)%float eqn:Htp;
    [right; left; eexists; cbn [orb]; now rewrite Hw |].
  destruct (value / close candle <=? 0)%float eqn:Hamount;
    [right; left; eexists; cbn [orb]; now rewrite Hw |].
  right; right. exists base, quote, value, candle.
  repeat (split; [first [assumption | reflexivity] |]). reflexivity.
Qed.

(** The loop of the cycle returns; the packets it adds to [signals] are the
    lines it adds to the audit log, in the order of the symbols and at most
    one per symbol, and each is a packet [analyze_symbol] returned. *)
Lemma analysis_loop_outcome (utcnow : nat -> string) (symbols : list string) :
  forall (i : nat) (signals : list Signals.TradePacket) (w : World),
  exists new,
    analysis_loop table fetch_news utcnow i symbols signals w
    = (Ok (signals ++ new),
       {| oracle := oracle w; signals_log := signals_log w ++ new |}) /\
    sublist ((Signals.symbol ∘ Signals.trade) <$> new) (PStr <$> symbols) /\
    Forall (fun packet =>
              exists now symbol w0,
                symbol ∈ symbols /\ oracle w0 = oracle w /\
                analyze_symbol table fetch_news now symbol w0
                = (Ok (Some packet),
                   {| oracle := oracle w;
                      signals_log := signals_log w0 ++ [packet] |})) new.
Proof.
  induction symbols as [| symbol rest IH]; intros i signals w.
  - exists []. simpl. unfold_m. rewrite !app_nil_r.
    split; [now destruct w |]. split; constructor.
  - simpl. unfold try_except. unfold_m.
    assert (forall new0,
              Forall (fun packet =>
                exists now symbol0 w0,
                  symbol0 ∈ rest /\ oracle w0 = oracle w /\
                  analyze_symbol table fetch_news now symbol0 w0
                  = (Ok (Some packet),
                     {| oracle := oracle w;
                        signals_log := signals_log w0 ++ [packet] |})) new0 ->
              Forall (fun packet =>
                exists now symbol0 w0,
                  symbol0 ∈ symbol :: rest /\ oracle w0 = oracle w /\
                  analyze_symbol table fetch_news now symbol0 w0
                  = (Ok (Some packet),
                     {| oracle := oracle w;
                        signals_log := signals_log w0 ++ [packet] |})) new0)
      as Hweaken.
    { intros new0 Hall. eapply Forall_impl; [exact Hall |].
      intros packet (now & s & w0 & Hin & Hrest).
      exists now, s, w0. split; [now right | exact Hrest]. }
    destruct (analyze_symbol_outcome (utcnow i) symbol w)
      as [Hnone | [(e & Hraise) | Hsome]].
    + rewrite Hnone. destruct (IH (S i) signals w) as (new & Hrun & Hsub & Hall).
      exists new. split; [exact Hrun |]. split; [now apply sublist_cons | auto].
    + rewrite Hraise. destruct (IH (S i) signals w) as (new & Hrun & Hsub & Hall).
      exists new. split; [exact Hrun |]. split; [now apply sublist_cons | auto].
    + destruct Hsome as (base & quote & value & candle & _ & _ & _ & _ & _ & _
                         & _ & _ & _ & _ & Hpacket).
      cbv zeta in Hpacket.
      set (packet := signal_packet (utcnow i) symbol (close candle) value
                       (Risk.current_level (risk_engine (oracle w)))
                       (Analyst.verdict (Analyst.analyze_sentiment fetch_news base None)))
        in *.
      rewrite Hpacket.
      destruct (IH (S i) (signals ++ [packet])
                  {| oracle := oracle w; signals_log := signals_log w ++ [packet] |})
        as (new & Hrun & Hsub & Hall).
      cbn [oracle signals_log] in Hrun, Hall.
      exists (packet :: new). rewrite <- !app_assoc in Hrun. split; [exact Hrun |].
      split; [rewrite !fmap_cons; now apply sublist_skip |].
      constructor; [| auto].
      exists (utcnow i), symbol, w. split; [left |]. split; [reflexivity | exact Hpacket].
Qed.

(** A packet that [analyze_symbol] returns went through every gate of the
    pipeline: the technical verdict is BUY, the correlation guard allowed the
    symbol, the sentiment of the base asset is not BEARISH, the risk engine
    sized the position from the deployment's balance, and the newest hourly
    candle gave the price. The packet is a BUY at that price with the stop
    2% below, the target 6% above and the size the position value divided by
    the price, tagged with the engine's level and safety level 0; none of
    these amounts compared [<= 0]. The packet is the one line added to the
    audit log, and the orchestrator is as it was. *)
Theorem analyze_symbol_signal (utcnow symbol : string) (w w' : World)
    (packet : Signals.TradePacket) :
  analyze_symbol table fetch_news utcnow symbol w = (Ok (Some packet), w') ->
  exists base quote value candle,
    Candles.check_signal table symbol = Ok (Engine.BUY, "All conditions met") /\
    Guards.split "/" symbol = [base; quote] /\
    Guards.check symbol (correlation_guard (oracle w))
    = (Ok true, correlation_guard (oracle w)) /\
    Analyst.verdict (Analyst.analyze_sentiment fetch_news base None) <> Engine.BEARISH /\
    Risk.calculate_position_size (current_balance (deployment (oracle w)))
      (risk_engine (oracle w))
    = (Ok value, risk_engine (oracle w)) /\
    rows (Candles.get_candles_df table symbol "1h" 1) = [candle] /\
    (close candle <=? 0)%float = false /\
    (close candle * 0.98 <=? 0)%float = false /\
    (close candle * 1.06 <=? 0)%float = false /\
    (value / close candle <=? 0)%float = false /\
    packet = signal_packet utcnow symbol (close candle) value
               (Risk.current_level (risk_engine (oracle w)))
               (Analyst.verdict (Analyst.analyze_sentiment fetch_news base None)) /\
    w' = {| oracle := oracle w; signals_log := signals_log w ++ [packet] |}.
Proof.
  intros Hrun.
  destruct (analyze_symbol_outcome utcnow symbol w)
    as [Hnone | [(e & Hraise) | Hsome]]; [congruence | congruence |].
  destruct Hsome as (base & quote & value & candle & Hsignal & Hsplit & Hcheck
                     & Hagent & Hsize & Hrows & Hentry & Hsl & Htp & Hamount & Hpacket).
  cbv zeta in Hpacket. rewrite Hpacket in Hrun. injection Hrun as <- <-.
  exists base, quote, value, candle. repeat (split; [assumption |]).
  split; reflexivity.
Qed.

(** [run_analysis_cycle] raises only when rebuilding the guard's table from
    the active positions raises, before any symbol is analysed. Otherwise it
    returns, whatever happens while a symbol is analysed: the signals it
    returns are the lines it adds to the audit log, they follow the order of
    the symbols with at most one signal per symbol, each is a packet that
    [analyze_symbol] returned for that symbol, and the orchestrator changes
    in the guard's table only. *)
Theorem run_analysis_cycle_outcome (utcnow : nat -> string) (w : World) :
  let self := oracle w in
  exists outcome guard,
    Guards.update_positions (active_positions self) (correlation_guard self)
    = (outcome, guard) /\
    let self' :=
      {| deployment := deployment self;
         risk_engine := risk_engine self;
         correlation_guard := guard;
         liquidity_guard := liquidity_guard self;
         symbols := symbols self;
         active_positions := active_positions self |} in
    match outcome with
    | Raise e =>
        run_analysis_cycle table fetch_news utcnow w
        = (Raise e, {| oracle := self'; signals_log := signals_log w |})
    | Ok _ =>
        exists signals,
          run_analysis_cycle table fetch_news utcnow w
          = (Ok signals,
             {| oracle := self'; signals_log := signals_log w ++ signals |}) /\
          sublist ((Signals.symbol ∘ Signals.trade) <$> signals)
            (PStr <$> symbols self) /\
          Forall (fun packet =>
                    exists now symbol log,
                      symbol ∈ symbols self /\
                      analyze_symbol table fetch_news now symbol
                        {| oracle := self'; signals_log := log |}
                      = (Ok (Some packet),
                         {| oracle := self'; signals_log := log ++ [packet] |}))
            signals
    end.
Proof.
  intros self.
  destruct (Guards.update_positions (active_positions self) (correlation_guard self))
    as [outcome guard] eqn:Hupdate.
  exists outcome, guard. split; [reflexivity |]. intros self'.
  unfold run_analysis_cycle, on_correlation_guard. unfold_m.
  fold self. rewrite Hupdate. fold self'.
  destruct outcome as [[] | e]; [| reflexivity].
  cbn [oracle].
  destruct (analysis_loop_outcome utcnow (symbols self') 0 []
              {| oracle := self'; signals_log := signals_log w |})
    as (new & Hrun & Hsub & Hall).
  cbn [oracle signals_log] in Hrun, Hall.
  exists new. split; [exact Hrun |]. split; [exact Hsub |].
  eapply Forall_impl; [exact Hall |].
  intros packet (now & symbol & w0 & Hin & Hsame & Hpacket).
  exists now, symbol, (signals_log w0). split; [exact Hin |].
  destruct w0 as [self0 log0]. cbn [oracle signals_log] in *. now subst self0.
Qed.

(** On the orchestrator as [initialize] leaves it, a cycle returns and
    leaves the orchestrator as it was, so every later cycle starts from the
    same orchestrator: no position is ever recorded, the table of the
    correlation guard stays empty and its check never answers [False]. The
    level of the deployment reaches the risk engine unchecked: when it is
    outside 1..10 the cycle returns no signal and writes nothing, whatever
    the candles and the news. *)
Theorem initialized_cycle (found : Deployment)
    (liquidity : option (string -> Liquidity.attempt Liquidity.OrderBook))
    (symbols : list string) (log : list Signals.TradePacket) (utcnow : nat -> string) :
  let self := initialize found liquidity symbols in
  (exists signals,
     run_analysis_cycle table fetch_news utcnow {| oracle := self; signals_log := log |}
     = (Ok signals, {| oracle := self; signals_log := log ++ signals |}) /\
     (level found < 1 \/ 10 < level found -> signals = [])) /\
  (forall symbol guard,
     Guards.check symbol (correlation_guard self) <> (Ok false, guard)).
Proof.
  intros self. split.
  - unfold run_analysis_cycle, on_correlation_guard. unfold_m.
    cbn [oracle signals_log].
    replace (Guards.update_positions (active_positions self) (correlation_guard self))
      with (Ok tt, correlation_guard self) by reflexivity.
    cbn [oracle].
    destruct (analysis_loop_outcome utcnow symbols 0 []
                {| oracle := self; signals_log := log |})
      as (new & Hrun & _ & Hall).
    cbn [oracle signals_log] in Hrun, Hall.
    exists new. split; [exact Hrun |].
    intros Hlevel. destruct new as [| packet new]; [reflexivity |].
    apply Forall_cons in Hall as [(now & symbol & w0 & _ & Hsame & Hpacket) _].
    exfalso.
    destruct (analyze_symbol_outcome now symbol w0)
      as [Hnone | [(e & Hraise) | Hsome]]; [congruence | congruence |].
    destruct Hsome as (base & quote & value & candle & _ & _ & _ & _ & Hsize & _).
    rewrite Hsame in Hsize.
    unfold Risk.calculate_position_size, Risk.get_current_params in Hsize.
    unfold_m. subst self. unfold initialize, Risk.__init__ in Hsize.
    cbn [risk_engine Risk.levels Risk.current_level] in Hsize.
    rewrite (levels_outside (level found) Hlevel) in Hsize. discriminate.
  - intros symbol guard. unfold Guards.check. unfold_m.
    destruct (Guards.unpack2 (Guards.split "/" symbol)) as [[base quote] | e];
      simpl; [| discriminate].
    rewrite lookup_empty. simpl. discriminate.
Qed.

Ltac same :=
  cbn [fst snd signals_log];
  first [reflexivity | match goal with H : signals_log _ = signals_log _ |- _ => exact H end].

(** [analyze_symbol] looks at the liquidity guard and does nothing with it:
    whether the orchestrator holds one, and whatever the guard would answer,
    the outcome and the audit log are the same. *)
Theorem analyze_symbol_ignores_liquidity_guard (utcnow symbol : string)
    (self : OracleOrchestrator) (log : list Signals.TradePacket)
    (guard : option Liquidity.LiquidityGuard) :
  let with_guard g :=
    {| oracle := {| deployment := deployment self;
                    risk_engine := risk_engine self;
                    correlation_guard := correlation_guard self;
                    liquidity_guard := g;
                    symbols := symbols self;
                    active_positions := active_positions self |};
       signals_log := log |} in
  let run g := analyze_symbol table fetch_news utcnow symbol (with_guard g) in
  (run guard).1 = (run None).1 /\
  signals_log (run guard).2 = signals_log (run None).2 /\
  liquidity_guard (oracle (run guard).2) = guard.
Proof.
  intros with_guard run.
  assert (liquidity_guard (oracle (run guard).2) = guard) as Hguard.
  { subst run. cbv beta.
    destruct (analyze_symbol_outcome utcnow symbol (with_guard guard))
      as [-> | [(e & ->) | Hsome]]; [reflexivity | reflexivity |].
    destruct Hsome as (? & ? & ? & ? & _ & _ & _ & _ & _ & _ & _ & _ & _ & _ & Hrun).
    cbv zeta in Hrun. now rewrite Hrun. }
  split; [| split; [| exact Hguard]]; clear Hguard; subst run; cbv beta.
  all: set (w := with_guard guard); set (w0 := with_guard None).
  all: assert (correlation_guard (oracle w) = correlation_guard (oracle w0)) as Hcg
         by reflexivity.
  all: assert (risk_engine (oracle w) = risk_engine (oracle w0)) as Hre by reflexivity.
  all: assert (deployment (oracle w) = deployment (oracle w0)) as Hdep by reflexivity.
  all: assert (signals_log w = signals_log w0) as Hlog by reflexivity.
  all: assert (forall g : option Liquidity.LiquidityGuard,
                 match g with
                 | Some _ => fun s : World => (Ok tt, s)
                 | None => fun s : World => (Ok tt, s)
                 end = fun s : World => (Ok tt, s)) as Hpass by (now intros []).
  all: clearbody w w0; clear with_guard.
  all: pose proof Hlog as Hsame.
  all: unfold analyze_symbol; unfold_m.
  all: destruct (Candles.check_signal table symbol) as [[verdict reason] | e];
         [| same].
  all: destruct (negb (bool_decide (verdict = Engine.BUY))); [same |].
  all: destruct (on_correlation_guard_check symbol w) as (checked & Hcheck & ->).
  all: destruct (on_correlation_guard_check symbol w0) as (checked0 & Hcheck0 & ->).
  all: rewrite Hcg, Hcheck0 in Hcheck; injection Hcheck as <-.
  all: destruct checked0 as [[] | e]; cbn [negb]; [| same | same].
  all: rewrite !Hpass; cbn beta iota.
  all: destruct (index (Guards.split "/" symbol) 0) as [base | e]; [| same].
  all: destruct (bool_decide
                   (Analyst.verdict (Analyst.analyze_sentiment fetch_news base None)
                    = Engine.BEARISH)); [same |].
  all: destruct (on_risk_engine_size (current_balance (deployment (oracle w))) w)
         as (sized & Hsize & ->).
  all: destruct (on_risk_engine_size (current_balance (deployment (oracle w0))) w0)
         as (sized0 & Hsize0 & ->).
  all: rewrite Hdep, Hre, Hsize0 in Hsize; injection Hsize as <-.
  all: destruct sized0 as [value | e]; [| same].
  all: destruct (Frame.empty (Candles.get_candles_df table symbol "1h" 1));
         [same |].
  all: destruct (iloc_neg (Frame.closes (Candles.get_candles_df table symbol "1h" 1)) 1)
         as [price | e]; [| same].
  all: unfold on_signals_log; rewrite Hre, Hlog.
  all: match goal with
       | |- context [Signals.package_trade ?u ?d ?l] =>
           destruct (Signals.package_trade u d l) as [[packet | e] log']
       end; same.
Qed.


End CycleProofs.

End OracleProofs.

(** ** agents/post_mortem.py *)

Section PostMortemProofs.
Import PostMortem.

(** A float is [> 0], or [<= 0], or a NaN, and only one of the three. *)
Lemma zero_trichotomy (x : float) :
  (if (x >? 0)%float then 1 else 0) + (if (x <=? 0)%float then 1 else 0)
  + (if PrimFloat.is_nan x then 1 else 0) = 1.
Proof.
  unfold PrimFloat.is_nan. rewrite ltb_spec, leb_spec, FloatAxioms.eqb_spec.
  unfold SFltb, SFleb, SFeqb.
  rewrite (SFcompare_swap (Prim2SF x) (Prim2SF 0)).
  change (Prim2SF 0) with (S754_zero false).
  destruct (Prim2SF x) as [s | s | | s m e]; simpl; try reflexivity.
  - now destruct s.
  - destruct s; simpl; rewrite Z.compare_refl, Pos.compare_cont_refl; reflexivity.
Qed.

Lemma count_cons (p : TradeRow -> bool) (t : TradeRow) (rest : list TradeRow) :
  count p (t :: rest) = (if p t then 1 else 0) + count p rest.
Proof. unfold count. simpl. destruct (p t); simpl; lia. Qed.

Lemma count_nonneg (p : TradeRow -> bool) (trades : list TradeRow) :
  0 <= count p trades.
Proof. unfold count. lia. Qed.

Lemma select_filter (cond : TradeRow -> result bool) (p : TradeRow -> bool)
    (trades : list TradeRow) :
  Forall (fun t => cond t = Ok (p t)) trades ->
  select cond trades = Ok (List.filter p trades).
Proof.
  induction 1 as [| t rest Ht _ IH]; [reflexivity |].
  simpl. rewrite Ht, IH. simpl. now destruct (p t).
Qed.

Lemma pnls_length (trades : list TradeRow) :
  Forall (fun t => is_Some (trade_pnl t)) trades ->
  exists terms, pnls trades = Ok terms /\ length terms = length trades.
Proof.
  induction 1 as [| t rest [x Hx] _ (terms & Hterms & Hlen)]; [now exists [] |].
  exists (x :: terms). simpl. rewrite Hx, Hterms. simpl. auto.
Qed.

(** A missing result makes the first comparison that meets it raise. *)
Lemma select_raises (trades : list TradeRow) :
  Exists (fun t => trade_pnl t = None) trades ->
  select gt_zero trades = Raise TypeError.
Proof.
  induction 1 as [t rest Ht | t rest _ IH]; cbn [select].
  - assert (gt_zero t = Raise TypeError) as -> by (unfold gt_zero; now rewrite Ht).
    reflexivity.
  - destruct (gt_zero t) as [keep | e] eqn:Hkeep.
    + cbn [mbind result_bind]. now rewrite IH.
    + unfold gt_zero in Hkeep. destruct (trade_pnl t); now simplify_eq.
Qed.

(** The loop over [by_symbol] adds every trade to the entry of its symbol:
    to its wins when the result is [> 0], to its losses otherwise. *)
Lemma group_counts (trades : list TradeRow) :
  Forall (fun t => is_Some (trade_pnl t)) trades ->
  forall acc, exists acc',
    group trades acc = Ok acc' /\
    forall s,
      match acc' !! s with
      | None => acc !! s = None /\ count (on_symbol s) trades = 0
      | Some stats =>
          let before :=
            default {| symbol_wins := 0; symbol_losses := 0; symbol_total_pnl := 0 |}
              (acc !! s) in
          symbol_wins stats
          = symbol_wins before + count (fun t => on_symbol s t && won t) trades /\
          symbol_losses stats
          = symbol_losses before
            + count (fun t => on_symbol s t && negb (won t)) trades /\
          (acc !! s = None -> 0 < count (on_symbol s) trades)
      end.
Proof.
  induction 1 as [| t rest [x Hx] _ IH]; intros acc.
  - exists acc. split; [reflexivity |]. intros s.
    destruct (acc !! s) as [stats |] eqn:Hs; simpl.
    + unfold count. simpl. repeat split; try lia. discriminate.
    + now split.
  - simpl. unfold gt_zero. rewrite Hx. simpl.
    set (zero := {| symbol_wins := 0; symbol_losses := 0; symbol_total_pnl := 0 |}).
    set (started := match acc !! trade_symbol t with
                    | None => <[trade_symbol t := zero]> acc
                    | Some _ => acc
                    end).
    assert (started !! trade_symbol t = Some (default zero (acc !! trade_symbol t)))
      as Hstarted.
    { subst started. destruct (acc !! trade_symbol t) eqn:Hacc; simpl.
      - exact Hacc.
      - apply lookup_insert_eq. }
    rewrite Hstarted. simpl.
    set (before := default zero (acc !! trade_symbol t)).
    set (stats1 := {| symbol_wins := _; symbol_losses := _; symbol_total_pnl := (_ + x)%float |}).
    destruct (IH (<[trade_symbol t := stats1]> started)) as (acc' & Hrun & Hcounts).
    exists acc'. split; [exact Hrun |]. intros s. specialize (Hcounts s).
    rewrite !count_cons.
    assert (won t = (x >? 0)%float) as Hwon by (unfold won; now rewrite Hx).
    destruct (decide (trade_symbol t = s)) as [Heq | Hne].
    + subst s. rewrite lookup_insert_eq in Hcounts. simpl in Hcounts.
      assert (on_symbol (trade_symbol t) t = true) as Hon
        by (apply bool_decide_eq_true_2; reflexivity).
      cbv beta. rewrite Hon. cbn [andb].
      destruct (acc' !! trade_symbol t) as [stats |]; [| destruct Hcounts; discriminate].
      destruct Hcounts as (Hw & Hl & _). cbv zeta. fold zero. fold before.
      pose proof (count_nonneg (on_symbol (trade_symbol t)) rest) as Hnn.
      rewrite Hw, Hl. subst stats1. rewrite <- Hwon.
      destruct (won t); simpl; repeat split; lia.
    + rewrite lookup_insert_ne in Hcounts by exact Hne.
      assert (started !! s = acc !! s) as Hsame.
      { subst started. destruct (acc !! trade_symbol t); [reflexivity |].
        now rewrite lookup_insert_ne. }
      rewrite Hsame in Hcounts.
      assert (on_symbol s t = false) as Hoff
        by (apply bool_decide_eq_false_2; exact Hne).
      cbv beta. rewrite Hoff. cbn [andb]. rewrite !Z.add_0_l. exact Hcounts.
Qed.

Section Report.
Context {summation : PySum}.

(** [_analyze_data] raises [TypeError] when a trade has no result. When every
    trade has one it returns, and its counts account for every trade: the
    wins and the losses add up to the trades whose result is a number (a NaN
    is neither a win nor a loss), the symbols of [by_symbol] are the symbols
    traded, and the wins and losses of a symbol add up to the trades on that
    symbol, a result that is not [> 0] counting as a loss there. The win rate
    and the total are floats unless there is no trade. *)
Theorem analysis_accounts_for_every_trade (trades : list TradeRow) :
  (Exists (fun t => trade_pnl t = None) trades ->
   _analyze_data trades = Raise TypeError) /\
  (Forall (fun t => is_Some (trade_pnl t)) trades ->
   exists a,
     _analyze_data trades = Ok a /\
     total_trades a = Z.of_nat (length trades) /\
     wins a = count won trades /\
     losses a = count lost trades /\
     wins a + losses a + count unordered trades = total_trades a /\
     (trades <> [] ->
      (exists rate, win_rate a = PFloat rate) /\ (exists total, total_pnl a = PFloat total)) /\
     (forall s, by_symbol a !! s = None <-> count (on_symbol s) trades = 0) /\
     (forall s stats,
        by_symbol a !! s = Some stats ->
        symbol_wins stats = count (fun t => on_symbol s t && won t) trades /\
        symbol_losses stats = count (fun t => on_symbol s t && negb (won t)) trades /\
        symbol_wins stats + symbol_losses stats = count (on_symbol s) trades)).
Proof.
  split.
  - intros Hnone. unfold _analyze_data. now rewrite (select_raises trades Hnone).
  - intros Hall. unfold _analyze_data.
    rewrite (select_filter gt_zero won), (select_filter le_zero lost).
    2: { eapply Forall_impl; [exact Hall |]. intros t [x Hx].
         unfold le_zero, lost. now rewrite Hx. }
    2: { eapply Forall_impl; [exact Hall |]. intros t [x Hx].
         unfold gt_zero, won. now rewrite Hx. }
    destruct (pnls_length trades Hall) as (terms & -> & Hlen).
    destruct (group_counts trades Hall ∅) as (grouped & -> & Hcounts).
    simpl. eexists. split; [reflexivity |]. cbn [total_trades wins losses win_rate
                                                 total_pnl by_symbol].
    assert (forall s, count (on_symbol s) trades
                      = count (fun t => on_symbol s t && won t) trades
                        + count (fun t => on_symbol s t && negb (won t)) trades)
      as Hsplit.
    { intros s. clear. induction trades as [| t rest IH]; [reflexivity |].
      rewrite !count_cons, IH. destruct (on_symbol s t), (won t); simpl; lia. }
    repeat apply conj; try reflexivity.
    + change (count won trades + count lost trades + count unordered trades
              = Z.of_nat (length trades)).
      clear -Hall. induction Hall as [| t rest [x Hx] _ IH]; [reflexivity |].
      rewrite !count_cons. unfold won at 1, lost at 1, unordered at 1. rewrite Hx.
      pose proof (zero_trichotomy x) as Hone.
      cbn [length]. rewrite Nat2Z.inj_succ. lia.
    + destruct trades as [| t rest]; [intros Hne; now destruct Hne |].
      destruct terms as [| x xs]; [discriminate |]. eauto.
    + intros s. specialize (Hcounts s). split.
      * intros Hnone. rewrite Hnone in Hcounts. tauto.
      * intros Hzero. destruct (grouped !! s) as [stats |]; [| reflexivity].
        destruct Hcounts as (_ & _ & Hpos). specialize (Hpos (lookup_empty s)). lia.
    + intros s stats Hstats. specialize (Hcounts s). rewrite Hstats in Hcounts.
      rewrite lookup_empty in Hcounts. cbn in Hcounts. rewrite Hsplit. lia.
Qed.

End Report.

End PostMortemProofs.

(** ** core/signals.py, the positivity check *)

Section PositivityProofs.
Import Signals.
Context {builtins : PyBuiltins}.

(** The check [<= 0] lets through what is [> 0] and what is a NaN. *)
Lemma not_le_zero (x : float) :
  (x <=? 0)%float = false <-> (x >? 0)%float = true \/ PrimFloat.is_nan x = true.
Proof.
  pose proof (zero_trichotomy x) as Hone.
  destruct (x >? 0)%float, (x <=? 0)%float, (PrimFloat.is_nan x);
    simpl in Hone; try lia; intuition congruence.
Qed.

(** On a trade whose fields have the types the orchestrator gives them, with
    a symbol that contains a slash and a side that is BUY or SELL, the
    packager returns a packet exactly when each of the four amounts is
    [> 0] or is a NaN: the check on the amounts is [<= 0], which a NaN does
    not satisfy, so a NaN price or size is packaged and logged. The packet
    carries the amounts as they came. *)
Theorem package_trade_accepts_positive_or_nan (utcnow : string)
    (data : gmap string pyval) (log : list TradePacket)
    (pair way : string) (price stop target amount : float) (lvl slvl : Z) :
  data !! "symbol" = Some (PStr pair) -> contains "/" pair = true ->
  data !! "side" = Some (PStr way) -> is_side (PStr way) = true ->
  data !! "entry_price" = Some (PFloat price) ->
  data !! "sl" = Some (PFloat stop) ->
  data !! "tp" = Some (PFloat target) ->
  data !! "size" = Some (PFloat amount) ->
  data !! "level" = Some (PInt lvl) ->
  data !! "slevel" = Some (PInt slvl) ->
  ((exists packet,
      package_trade utcnow data log = (Ok packet, log ++ [packet]) /\
      entry (trade packet) = price /\ sl (trade packet) = stop /\
      tp (trade packet) = target /\ size (trade packet) = amount)
   <-> Forall (fun x => (x >? 0)%float = true \/ PrimFloat.is_nan x = true)
         [price; stop; target; amount]) /\
  (Exists (fun x => (x <=? 0)%float = true) [price; stop; target; amount] ->
   package_trade utcnow data log
   = (Raise (ValueError "Price, SL, TP, and Size must be positive."), log)).
Proof.
  intros Dsymbol Hslash Dside Hside Dentry Dsl Dtp Dsize Dlevel Dslevel.
  assert (filter (fun f => data !! f = None) REQUIRED_FIELDS = []) as Hnone.
  { unfold REQUIRED_FIELDS.
    repeat (rewrite filter_cons_False by congruence). reflexivity. }
  assert (package_trade utcnow data log
          = if (price <=? 0)%float || (stop <=? 0)%float || (target <=? 0)%float
               || (amount <=? 0)%float
            then (Raise (ValueError "Price, SL, TP, and Size must be positive."), log)
            else
              let packet :=
                {| meta := {| timestamp := utcnow; version := "1.0";
                              source := "Oracle-AI-Hub" |};
                   trade := {| symbol := PStr pair; side := PStr way; entry := price;
                               sl := stop; tp := target; size := amount;
                               risk := {| level := lvl; slevel := slvl |} |};
                   context :=
                     {| strategy := default (PStr "N/A") (data !! "strategy_verdict");
                        sentiment := default (PStr "N/A") (data !! "agent_verdict") |} |}
              in (Ok packet, log ++ [packet])) as Hrun.
  { unfold package_trade, _log_packet, getitem. unfold_m.
    rewrite Hnone, Dsymbol, Dside, Dentry, Dsl, Dtp, Dsize, Dlevel, Dslevel.
    cbn [is_symbol]. rewrite Hslash, Hside. simpl.
    destruct (price <=? 0)%float; simpl; [reflexivity |].
    destruct (stop <=? 0)%float; simpl; [reflexivity |].
    destruct (target <=? 0)%float; simpl; [reflexivity |].
    destruct (amount <=? 0)%float; simpl; reflexivity. }
  rewrite Hrun. split; [split |].
  - intros (packet & Hpacket & _).
    destruct (price <=? 0)%float eqn:H1; [discriminate |].
    destruct (stop <=? 0)%float eqn:H2; [discriminate |].
    destruct (target <=? 0)%float eqn:H3; [discriminate |].
    destruct (amount <=? 0)%float eqn:H4; [discriminate |].
    do 4 (constructor; [now apply not_le_zero |]). constructor.
  - intros Hall.
    apply Forall_cons in Hall as [H1 Hall]. apply Forall_cons in Hall as [H2 Hall].
    apply Forall_cons in Hall as [H3 Hall]. apply Forall_cons in Hall as [H4 _].
    apply not_le_zero in H1, H2, H3, H4. rewrite H1, H2, H3, H4. simpl.
    eexists. split; [reflexivity |]. simpl. auto.
  - intros Hsome.
    apply Exists_cons in Hsome as [-> | Hsome]; [reflexivity |].
    apply Exists_cons in Hsome as [-> | Hsome]; [now rewrite orb_true_r |].
    apply Exists_cons in Hsome as [-> | Hsome]; [now rewrite !orb_true_r |].
    apply Exists_cons in Hsome as [-> | Hsome]; [now rewrite !orb_true_r |].
    inversion Hsome.
Qed.

End PositivityProofs.

(** ** The sample market *)

Section MarketWitnesses.
Import Engine.


Lemma get_candles_df_newest_witness :
  Candles.uq_candle Market.table /\
  StronglySorted (fun a b => timestamp a < timestamp b)
    (rows (Candles.get_candles_df Market.table "BTC/USDT" "1h" 3)).
Proof.
  assert (Candles.uq_candle Market.table) as Huq.
  { unfold Candles.uq_candle. apply (bool_decide_unpack (NoDup _)). vm_compute. exact I. }
  split; [exact Huq |].
  destruct (get_candles_df_newest Market.table "BTC/USDT" "1h" 3)
    as (_ & _ & _ & _ & _ & Hstrict).
  exact (Hstrict Huq).
Defined.


Lemma package_trade_emits_checked_packets_witness :
  Signals.is_symbol (Signals.symbol (Signals.trade Market.sample_packet)) = true /\
  Signals.is_side (Signals.side (Signals.trade Market.sample_packet)) = true /\
  Forall (fun field =>
            exists v, Signals.sample_trade !! field = Some v /\
                      Signals.le_zero v = Ok false)
    ["entry_price"; "sl"; "tp"; "size"].
Proof.
  assert (Signals.package_trade (H := sample_builtins) Market.noon Signals.sample_trade []
          = (Ok Market.sample_packet, [] ++ [Market.sample_packet])) as Hrun
    by (vm_compute; reflexivity).
  destruct (package_trade_emits_checked_packets (H := sample_builtins)
              Market.noon Signals.sample_trade [] _ Market.sample_packet Hrun)
    as (_ & _ & _ & Hsymbol & _ & Hside & Hamounts & _).
  exact (conj Hsymbol (conj Hside Hamounts)).
Defined.

Lemma package_trade_rejects_in_order_witness :
  Signals.package_trade (H := sample_builtins) Market.noon
    (delete "tp" Signals.sample_trade) []
  = (Raise (ValueError "Missing required fields for signal package"), []) /\
  Signals.package_trade (H := sample_builtins) Market.noon
    (<["symbol" := PStr "BTCUSDT"]> Signals.sample_trade) []
  = (Raise (ValueError "Invalid symbol format"), []) /\
  Signals.package_trade (H := sample_builtins) Market.noon
    (<["side" := PStr "HOLD"]> Signals.sample_trade) []
  = (Raise (ValueError "Invalid side"), []).
Proof.
  assert (forall data : gmap string pyval,
            Forall (fun field => is_Some (data !! field)) Signals.REQUIRED_FIELDS ->
            forall field, field ∈ Signals.REQUIRED_FIELDS -> is_Some (data !! field))
    as Hall by (intros data Hall; now apply Forall_forall).
  split; [| split].
  - destruct (package_trade_rejects_in_order (H := sample_builtins) Market.noon
                (delete "tp" Signals.sample_trade) []) as (Hmissing & _).
    apply (Hmissing "tp"); [| reflexivity].
    unfold Signals.REQUIRED_FIELDS. set_solver.
  - destruct (package_trade_rejects_in_order (H := sample_builtins) Market.noon
                (<["symbol" := PStr "BTCUSDT"]> Signals.sample_trade) [])
      as (_ & Hsymbol & _).
    apply (Hsymbol (PStr "BTCUSDT")); [| reflexivity | reflexivity].
    apply Hall. repeat constructor; eexists; reflexivity.
  - destruct (package_trade_rejects_in_order (H := sample_builtins) Market.noon
                (<["side" := PStr "HOLD"]> Signals.sample_trade) [])
      as (_ & _ & Hside).
    apply (Hside (PStr "BTC/USDT") (PStr "HOLD"));
      [| reflexivity | reflexivity | reflexivity | reflexivity].
    apply Hall. repeat constructor; eexists; reflexivity.
Defined.

Lemma sentiment_follows_keyword_counts_witness :
  let result := Analyst.analyze_sentiment (H := sample_text) Market.fetch_news "BTC" None in
  Analyst.verdict result = BULLISH /\
  (Analyst.score result >? 0.5)%float = true /\
  (Analyst.score result <=? 1)%float = true /\
  Analyst.analyze_sentiment (H := sample_text) Market.fetch_news "ETH" None
  = {| Analyst.verdict := NEUTRAL; Analyst.score := 0.5;
       Analyst.reason := "No recent news found for analysis." |}.
Proof.
  intros result.
  destruct (sentiment_follows_keyword_counts (H := sample_text)
              Market.fetch_news "BTC" None) as (_ & Hcounts & Hbullish & _).
  destruct (sentiment_follows_keyword_counts (H := sample_text)
              Market.fetch_news "ETH" None) as (Hnone & _).
  assert (Analyst.verdict result = BULLISH) as Hverdict.
  { apply Hcounts; [discriminate | vm_compute; lia]. }
  split; [exact Hverdict |].
  destruct (Hbullish Hverdict) as (Hlow & Hhigh).
  split; [exact Hlow |]. split; [exact Hhigh |].
  apply Hnone. reflexivity.
Defined.

Lemma analyze_symbol_signal_witness :
  exists value candle,
    Risk.calculate_position_size 1000 (Risk.__init__ 5) = (Ok value, Risk.__init__ 5) /\
    rows (Candles.get_candles_df Market.table "BTC/USDT" "1h" 1) = [candle] /\
    Oracle.analyze_symbol (ta := sample_ta) (builtins := sample_builtins)
      (text := sample_text) Market.table Market.fetch_news Market.noon "BTC/USDT"
      (Market.world 5)
    = (Ok (Some (Oracle.signal_packet Market.noon "BTC/USDT" (close candle) value 5
                   BULLISH)),
       {| Oracle.oracle := Oracle.oracle (Market.world 5);
          Oracle.signals_log :=
            [Oracle.signal_packet Market.noon "BTC/USDT" (close candle) value 5
               BULLISH] |}).
Proof.
  destruct (Oracle.analyze_symbol (ta := sample_ta) (builtins := sample_builtins)
              (text := sample_text) Market.table Market.fetch_news Market.noon
              "BTC/USDT" (Market.world 5)) as [outcome w'] eqn:Hrun.
  assert (exists packet, outcome = Ok (Some packet)) as (packet & ->).
  { apply (f_equal fst) in Hrun. vm_compute in Hrun. subst outcome. eauto. }
  destruct (analyze_symbol_signal (ta := sample_ta) (builtins := sample_builtins)
              (text := sample_text) Market.table Market.fetch_news Market.noon
              "BTC/USDT" (Market.world 5) w' packet Hrun)
    as (base & quote & value & candle & _ & Hsplit & _ & _ & Hsize & Hrows
        & _ & _ & _ & _ & Hpacket & Hworld).
  exists value, candle.
  assert (base = "BTC") as -> by (vm_compute in Hsplit; congruence).
  split; [exact Hsize |]. split; [exact Hrows |].
  rewrite Hworld, Hpacket. reflexivity.
Defined.

Lemma analysis_accounts_for_every_trade_witness :
  (exists a,
     PostMortem._analyze_data (H := sample_sum) Market.closed_trades = Ok a /\
     PostMortem.total_trades a = 4 /\
     PostMortem.wins a + PostMortem.losses a
     + PostMortem.count PostMortem.unordered Market.closed_trades
     = PostMortem.total_trades a) /\
  PostMortem._analyze_data (H := sample_sum)
    (PostMortem.mkTradeRow "BTC/USDT" None :: Market.closed_trades)
  = Raise TypeError.
Proof.
  split.
  - destruct (analysis_accounts_for_every_trade (summation := sample_sum)
                Market.closed_trades) as (_ & Hreturns).
    destruct Hreturns as (a & Hrun & Htotal & _ & _ & Hsum & _).
    { repeat constructor; eexists; reflexivity. }
    exists a. split; [exact Hrun |]. split; [exact Htotal | exact Hsum].
  - destruct (analysis_accounts_for_every_trade (summation := sample_sum)
                (PostMortem.mkTradeRow "BTC/USDT" None :: Market.closed_trades))
      as (Hraises & _).
    apply Hraises. left. reflexivity.
Defined.

Lemma package_trade_accepts_positive_or_nan_witness :
  exists packet,
    Signals.package_trade (H := sample_builtins) Market.noon
      (<["entry_price" := PFloat PrimFloat.nan]> Signals.sample_trade) []
    = (Ok packet, [] ++ [packet]) /\
    Signals.entry (Signals.trade packet) = PrimFloat.nan /\
    Signals.sl (Signals.trade packet) = 49000%float /\
    Signals.tp (Signals.trade packet) = 53000%float /\
    Signals.size (Signals.trade packet) = 0.01%float.
Proof.
  apply (package_trade_accepts_positive_or_nan (builtins := sample_builtins) Market.noon
           (<["entry_price" := PFloat PrimFloat.nan]> Signals.sample_trade) []
           "BTC/USDT" "BUY" PrimFloat.nan 49000 53000 0.01 5 0);
    try reflexivity.
  repeat constructor; first [right; reflexivity | left; reflexivity].
Defined.

Lemma initialized_cycle_witness :
  Oracle.run_analysis_cycle (ta := sample_ta) (builtins := sample_builtins)
    (text := sample_text) Market.table Market.fetch_news (fun _ => Market.noon)
    (Market.world 11)
  = (Ok [], Market.world 11).
Proof.
  destruct (initialized_cycle (ta := sample_ta) (builtins := sample_builtins)
              (text := sample_text) Market.table Market.fetch_news
              (Market.deployed 11) None ["ETH/USDT"; "BTC/USDT"] [] (fun _ => Market.noon))
    as ((signals & Hrun & Hnone) & _).
  rewrite (Hnone (or_intror eq_refl)) in Hrun. exact Hrun.
Defined.

End MarketWitnesses.
